(** * camera_service.py: the ASI camera session, its HTTP handlers and
      the video-pull loop, as a shallow embedding.

    The Python module keeps its state in the module-level dictionary
    [camera_state] and in the single [ASICamera] instance [camera]; every
    hardware access is a call into the vendor library [asi_lib].  Here the
    dictionary and the instance are records, the vendor library is an
    oracle ([Sdk]) that answers each call from the history of effects so
    far, and every method is a computation in a small state monad over
    [World], which also records the trace of effects (SDK calls, sleeps,
    thread start and join) in the order the code performs them.

    Exceptions are part of the model where the source can raise on the
    values it holds: [ctypes] refuses to marshal a Python int outside
    [-2^63, 2^64) (the stored gain and exposures are Python ints of any
    size), and the true divisions of the prints and of the read timeout
    overflow the double range.  A computation that can raise returns a
    [Result].  The camera id, the sensor width and height and the SDK
    result codes are read from C fields ([c_int], [c_long]) and are
    marshalled without failure; the sensor dimensions are taken to be
    such that the frame buffer of width * height * 3 bytes can be
    allocated and wrapped in an image. *)

From Stdlib Require Import ZArith QArith Lia List Bool.
From Stdlib Require Import PrimFloat Uint63 FloatOps SpecFloat.
From stdpp Require Import gmap strings pretty.
Import ListNotations.

Local Open Scope string_scope.
Local Open Scope list_scope.
Local Open Scope Z_scope.

(** ** Constants (from ASICamera2.h, as the source lists them) *)

Definition ASI_SUCCESS : Z := 0.
Definition ASI_FALSE : Z := 0.
Definition ASI_TRUE : Z := 1.

Definition ASI_IMG_RGB24 : Z := 1.

Definition ASI_GAIN : Z := 0.
Definition ASI_EXPOSURE : Z := 1.
Definition ASI_BANDWIDTHOVERLOAD : Z := 6.
Definition ASI_AUTO_MAX_EXP : Z := 11.

(** ** Data model *)

(** A PIL image built from the RGB24 buffer the SDK filled:
    [Image.fromarray(buffer.reshape((height, width, 3)), 'RGB')]. *)
Record Image := mkImage {
  img_width : Z;
  img_height : Z;
  img_data : list Byte.byte
}.

(** The module-level dictionary [camera_state]; one field per key. *)
Record CameraState := mkCameraState {
  connected : bool;
  streaming : bool;
  camera_id : Z;
  width : Z;
  height : Z;
  exposure : Z;
  video_exposure : Z;
  gain : Z;
  current_frame : option Image;
  error : option string
}.

(** The attributes of the [ASICamera] instance ([self.camera_id], ...).
    A thread object is named by the number of threads created before it. *)
Record ASICamera := mkASICamera {
  self_camera_id : Z;
  self_is_open : bool;
  self_streaming : bool;
  self_frame_buffer : option Image;
  self_capture_thread : option nat
}.

(** The calls into [asi_lib] that the methods make, with their integer
    arguments (out-parameters are answered by the oracle). *)
Inductive SdkCall :=
| ASIGetNumOfConnectedCameras
| ASIGetCameraProperty (index : Z)
| ASIOpenCamera (id : Z)
| ASIInitCamera (id : Z)
| ASICloseCamera (id : Z)
| ASISetROIFormat (id w h bin img_type : Z)
| ASISetControlValue (id control value auto : Z)
| ASIGetControlValue (id control : Z)
| ASIStartVideoCapture (id : Z)
| ASIStopVideoCapture (id : Z)
| ASIGetVideoData (id size timeout_ms : Z)
| ASIGetExpStatus (id : Z)
| ASIStopExposure (id : Z)
| ASIStartExposure (id is_dark : Z)
| ASIGetDataAfterExp (id size : Z).

(** Effects in the order the code performs them.  [Sleep] carries
    milliseconds, [ThreadJoin] its timeout in milliseconds; [Print] is a
    diagnostic printed on a failure path (the informational prints of
    the success paths are not recorded). *)
Inductive Event :=
| Call (c : SdkCall)
| Sleep (ms : Z)
| ThreadStart (thread : nat)
| ThreadJoin (thread : nat) (timeout_ms : Z)
| Print (msg : string).

Record World := mkWorld {
  camera_state : CameraState;
  camera : ASICamera;
  trace : list Event
}.

(** What [ASIGetCameraProperty] writes into [ASI_CAMERA_INFO] (the fields
    the code reads).  [Name] is [camera_info.Name.decode('utf-8')], or
    [None] when the bytes are not valid UTF-8 and [decode] raises. *)
Record CameraInfo := mkCameraInfo {
  Name : option string;
  CameraID : Z;
  MaxHeight : Z;
  MaxWidth : Z
}.

(** The exceptions the service can meet: [ctypes.ArgumentError] for the
    argument of a call that cannot be marshalled, [OverflowError] of a
    true division or of a conversion to float, [UnicodeDecodeError]. *)
Inductive Exn :=
| ArgumentError (argument : Z)
| OverflowError
| UnicodeDecodeError.

(** The outcome of a computation that can raise. *)
Inductive Result (A : Type) :=
| Ok (a : A)
| Raise (e : Exn).

Arguments Ok {A} a.
Arguments Raise {A} e.

(** The vendor library.  [sdk_loaded] says that [asi_lib] is not [None].
    Every answer may depend on the whole history.  [sdk_exp_status h old]
    is the content of [status] after [ASIGetExpStatus] when it held [old]
    before the call; [sdk_buffer h] is what a data call leaves in the
    caller's buffer.  [sdk_exn_str e] is [str(e)], the text of an
    exception as the Python runtime that loaded the library words it. *)
Record Sdk := mkSdk {
  sdk_loaded : bool;
  sdk_ret : list Event -> SdkCall -> Z;
  sdk_exp_status : list Event -> Z -> Z;
  sdk_buffer : list Event -> list Byte.byte;
  sdk_camera_info : list Event -> CameraInfo;
  sdk_exn_str : Exn -> string
}.

(** ** Field updates *)

Definition set_connected (b : bool) (s : CameraState) : CameraState :=
  mkCameraState b (streaming s) (camera_id s) (width s) (height s)
    (exposure s) (video_exposure s) (gain s) (current_frame s) (error s).

Definition set_streaming (b : bool) (s : CameraState) : CameraState :=
  mkCameraState (connected s) b (camera_id s) (width s) (height s)
    (exposure s) (video_exposure s) (gain s) (current_frame s) (error s).

Definition set_camera_id (v : Z) (s : CameraState) : CameraState :=
  mkCameraState (connected s) (streaming s) v (width s) (height s)
    (exposure s) (video_exposure s) (gain s) (current_frame s) (error s).

Definition set_width (v : Z) (s : CameraState) : CameraState :=
  mkCameraState (connected s) (streaming s) (camera_id s) v (height s)
    (exposure s) (video_exposure s) (gain s) (current_frame s) (error s).

Definition set_height (v : Z) (s : CameraState) : CameraState :=
  mkCameraState (connected s) (streaming s) (camera_id s) (width s) v
    (exposure s) (video_exposure s) (gain s) (current_frame s) (error s).

Definition set_exposure (v : Z) (s : CameraState) : CameraState :=
  mkCameraState (connected s) (streaming s) (camera_id s) (width s) (height s)
    v (video_exposure s) (gain s) (current_frame s) (error s).

Definition set_video_exposure (v : Z) (s : CameraState) : CameraState :=
  mkCameraState (connected s) (streaming s) (camera_id s) (width s) (height s)
    (exposure s) v (gain s) (current_frame s) (error s).

Definition set_gain (v : Z) (s : CameraState) : CameraState :=
  mkCameraState (connected s) (streaming s) (camera_id s) (width s) (height s)
    (exposure s) (video_exposure s) v (current_frame s) (error s).

Definition set_current_frame (f : option Image) (s : CameraState) : CameraState :=
  mkCameraState (connected s) (streaming s) (camera_id s) (width s) (height s)
    (exposure s) (video_exposure s) (gain s) f (error s).

Definition set_error (e : option string) (s : CameraState) : CameraState :=
  mkCameraState (connected s) (streaming s) (camera_id s) (width s) (height s)
    (exposure s) (video_exposure s) (gain s) (current_frame s) e.

Definition set_self_camera_id (v : Z) (c : ASICamera) : ASICamera :=
  mkASICamera v (self_is_open c) (self_streaming c) (self_frame_buffer c)
    (self_capture_thread c).

Definition set_self_is_open (b : bool) (c : ASICamera) : ASICamera :=
  mkASICamera (self_camera_id c) b (self_streaming c) (self_frame_buffer c)
    (self_capture_thread c).

Definition set_self_streaming (b : bool) (c : ASICamera) : ASICamera :=
  mkASICamera (self_camera_id c) (self_is_open c) b (self_frame_buffer c)
    (self_capture_thread c).

Definition set_self_frame_buffer (f : option Image) (c : ASICamera) : ASICamera :=
  mkASICamera (self_camera_id c) (self_is_open c) (self_streaming c) f
    (self_capture_thread c).

Definition set_self_capture_thread (t : option nat) (c : ASICamera) : ASICamera :=
  mkASICamera (self_camera_id c) (self_is_open c) (self_streaming c)
    (self_frame_buffer c) t.

(** The module's initial bindings: [camera_state = {...}] and
    [camera = ASICamera()]. *)
Definition initial_camera_state : CameraState :=
  mkCameraState false false (-1) 1280 960 1000000 100000 50 None None.

Definition initial_camera : ASICamera :=
  mkASICamera (-1) false false None None.

Definition initial_world : World :=
  mkWorld initial_camera_state initial_camera [].

(** ** The state monad over [World] *)

Definition M (A : Type) : Type := World -> A * World.

Definition ret {A} (a : A) : M A := fun w => (a, w).

Definition bind {A B} (m : M A) (k : A -> M B) : M B :=
  fun w => let (a, w') := m w in k a w'.

Notation "x <- m ;; k" := (bind m (fun x => k))
  (at level 100, m at next level, right associativity).
Notation "m ;; k" := (bind m (fun _ => k))
  (at level 100, right associativity).

(** Sequencing of computations that can raise: an exception ends the
    sequence, as in the source. *)
Definition bind_ok {A B} (m : M (Result A)) (k : A -> M (Result B))
    : M (Result B) :=
  r <- m ;;
  match r with
  | Ok a => k a
  | Raise e => ret (Raise e)
  end.

Notation "x <~ m ;; k" := (bind_ok m (fun x => k))
  (at level 100, m at next level, right associativity).

Definition get_state : M CameraState := fun w => (camera_state w, w).
Definition get_self : M ASICamera := fun w => (camera w, w).

Definition upd_state (f : CameraState -> CameraState) : M unit :=
  fun w => (tt, mkWorld (f (camera_state w)) (camera w) (trace w)).

Definition upd_self (f : ASICamera -> ASICamera) : M unit :=
  fun w => (tt, mkWorld (camera_state w) (f (camera w)) (trace w)).

Definition emit (e : Event) : M unit :=
  fun w => (tt, mkWorld (camera_state w) (camera w) (trace w ++ [e])).

Definition time_sleep (ms : Z) : M unit := emit (Sleep ms).
Definition print (msg : string) : M unit := emit (Print msg).

(** The number of threads created so far names the next thread. *)
Definition is_thread_start (e : Event) : bool :=
  match e with ThreadStart _ => true | _ => false end.

Definition threads_started (tr : list Event) : nat :=
  length (filter is_thread_start tr).

(** [threading.Thread(...)]: the new thread object. *)
Definition new_thread : M nat := fun w => (threads_started (trace w), w).

(** A Python int that [ctypes] can pass as an integer argument: it fits
    an unsigned or a signed 64-bit long. *)
Definition ctypes_int_ok (z : Z) : bool := (- 2 ^ 63 <=? z) && (z <? 2 ^ 64).

(** The least magnitude that rounds (to nearest, ties to even) to 2^1024
    and so has no double. *)
Definition DBL_LIMIT : Z := 2 ^ 1024 - 2 ^ 970.

(** [float(a)], as in [a / 1000.0], does not raise [OverflowError]. *)
Definition to_float_ok (a : Z) : bool := Z.abs a <? DBL_LIMIT.

(** The true division [a / b] of two ints, [b] positive, does not raise
    [OverflowError]: the correctly rounded quotient is a double. *)
Definition true_divide_ok (a b : Z) : bool := Z.abs a <? DBL_LIMIT * b.

(** A [print] whose text contains the quotient [a / b] (formatted with
    [:.3f] or [:.1f]); the text is not recorded. *)
Definition print_quotient (a b : Z) : M (Result unit) :=
  if true_divide_ok a b then ret (Ok tt) else ret (Raise OverflowError).

(** The SDK calls of a trace, in order. *)
Definition sdk_calls (tr : list Event) : list SdkCall :=
  flat_map (fun e => match e with Call c => [c] | _ => [] end) tr.

Section Service.

Variable sdk : Sdk.

(** A call into [asi_lib]: the oracle answers from the history, the call
    is appended to the trace. *)
Definition asi (c : SdkCall) : M Z :=
  fun w => (sdk_ret sdk (trace w) c,
            mkWorld (camera_state w) (camera w) (trace w ++ [Call c])).

(** A call one of whose arguments is a Python int of any size: [value]
    is passed as argument number [argument]; when [ctypes] cannot
    marshal it the call is not made. *)
Definition asi_int (c : SdkCall) (argument value : Z) : M (Result Z) :=
  if ctypes_int_ok value then
    result <- asi c ;;
    ret (Ok result)
  else ret (Raise (ArgumentError argument)).

(** [asi_lib.ASIGetExpStatus(self.camera_id, ctypes.byref(status))]: the
    return code is dropped by the source; the new content of [status] is
    returned. *)
Definition get_exp_status (id : Z) (status : Z) : M Z :=
  fun w => (sdk_exp_status sdk (trace w) status,
            mkWorld (camera_state w) (camera w)
                    (trace w ++ [Call (ASIGetExpStatus id)])).

(** ** ASICamera.stop_stream *)

Definition stop_stream : M unit :=
  upd_self (set_self_streaming false) ;;
  upd_state (set_streaming false) ;;
  self <- get_self ;;
  match self_capture_thread self with
  | Some t => emit (ThreadJoin t 2000)
  | None => ret tt
  end ;;
  self <- get_self ;;
  if self_is_open self && (0 <=? self_camera_id self)
  then asi (ASIStopVideoCapture (self_camera_id self)) ;; ret tt
  else ret tt.

(** ** ASICamera.disconnect *)

Definition disconnect : M unit :=
  stop_stream ;;
  self <- get_self ;;
  (if self_is_open self && (0 <=? self_camera_id self)
   then asi (ASICloseCamera (self_camera_id self)) ;;
        upd_self (set_self_is_open false)
   else ret tt) ;;
  upd_state (set_connected false) ;;
  upd_state (set_streaming false).

(** ** ASICamera.start_stream

    [threading.Thread(target=self._capture_loop).start()] is the
    [ThreadStart] event; the loop itself is [capture_loop] below. *)

Definition start_video_error (result : Z) : string :=
  "Failed to start video capture: " +:+ pretty result.

Definition start_stream : M (Result bool) :=
  self <- get_self ;;
  if negb (self_is_open self) then ret (Ok false)
  else
    st <- get_state ;;
    let video_exposure := video_exposure st in
    _ <~ asi_int (ASISetControlValue (self_camera_id self) ASI_AUTO_MAX_EXP
                                     video_exposure ASI_FALSE)
                 3 video_exposure ;;
    asi (ASISetControlValue (self_camera_id self) ASI_EXPOSURE 0 ASI_TRUE) ;;
    _ <~ print_quotient video_exposure 1000 ;;
    result <- asi (ASIStartVideoCapture (self_camera_id self)) ;;
    if negb (result =? ASI_SUCCESS) then
      upd_state (set_error (Some (start_video_error result))) ;;
      ret (Ok false)
    else
      upd_self (set_self_streaming true) ;;
      upd_state (set_streaming true) ;;
      t <- new_thread ;;
      upd_self (set_self_capture_thread (Some t)) ;;
      emit (ThreadStart t) ;;
      ret (Ok true).

(** The trace at the moment [start_stream] issues
    [ASIStartVideoCapture]: the two control writes have been made. *)
Definition trace_before_start_video (w : World) : list Event :=
  trace w ++
  [Call (ASISetControlValue (self_camera_id (camera w)) ASI_AUTO_MAX_EXP
           (video_exposure (camera_state w)) ASI_FALSE);
   Call (ASISetControlValue (self_camera_id (camera w)) ASI_EXPOSURE 0
           ASI_TRUE)].

(** The SDK's answer to the [ASIStartVideoCapture] of [start_stream]. *)
Definition start_video_result (w : World) : Z :=
  sdk_ret sdk (trace_before_start_video w)
    (ASIStartVideoCapture (self_camera_id (camera w))).

(** ** ASICamera.connect *)

(** The body of the [try] block; the returns inside it are normal
    returns. *)
Definition connect_try : M (Result bool) :=
  num_cameras <- asi ASIGetNumOfConnectedCameras ;;
  if num_cameras =? 0 then
    upd_state (set_error (Some "No cameras found")) ;;
    ret (Ok false)
  else
    camera_info <- (fun w => (sdk_camera_info sdk (trace w), w)) ;;
    result <- asi (ASIGetCameraProperty 0) ;;
    if negb (result =? ASI_SUCCESS) then
      upd_state (set_error
        (Some ("Failed to get camera properties: " +:+ pretty result))) ;;
      ret (Ok false)
    else
      let id := CameraID camera_info in
      upd_self (set_self_camera_id id) ;;
      upd_state (set_camera_id id) ;;
      upd_state (set_width (MaxWidth camera_info)) ;;
      upd_state (set_height (MaxHeight camera_info)) ;;
      match Name camera_info with
      | None => ret (Raise UnicodeDecodeError)
      | Some _ =>
          result <- asi (ASIOpenCamera id) ;;
          if negb (result =? ASI_SUCCESS) then
            upd_state (set_error
              (Some ("Failed to open camera: " +:+ pretty result))) ;;
            ret (Ok false)
          else
            result <- asi (ASIInitCamera id) ;;
            if negb (result =? ASI_SUCCESS) then
              upd_state (set_error
                (Some ("Failed to initialize camera: " +:+ pretty result))) ;;
              asi (ASICloseCamera id) ;;
              ret (Ok false)
            else
              upd_self (set_self_is_open true) ;;
              asi (ASISetROIFormat id (MaxWidth camera_info)
                     (MaxHeight camera_info) 1 ASI_IMG_RGB24) ;;
              asi (ASISetControlValue id ASI_GAIN 0 ASI_TRUE) ;;
              asi (ASISetControlValue id ASI_EXPOSURE 0 ASI_TRUE) ;;
              time_sleep 100 ;;
              asi (ASISetControlValue id ASI_BANDWIDTHOVERLOAD 40 ASI_FALSE) ;;
              st <- get_state ;;
              _ <~ asi_int (ASISetControlValue id ASI_GAIN (gain st) ASI_FALSE)
                           3 (gain st) ;;
              asi (ASIGetControlValue id ASI_GAIN) ;;
              st <- get_state ;;
              _ <~ print_quotient (exposure st) 1000000 ;;
              upd_state (set_connected true) ;;
              upd_state (set_error None) ;;
              ret (Ok true)
      end.

(** [connect]: the test of [asi_lib], then the [try] block; an exception
    is caught, its text stored as the fault, and [False] returned. *)
Definition connect : M bool :=
  if negb (sdk_loaded sdk) then
    upd_state (set_error (Some "ASI library not loaded")) ;;
    ret false
  else
    r <- connect_try ;;
    match r with
    | Ok connected => ret connected
    | Raise e =>
        upd_state (set_error (Some (sdk_exn_str sdk e))) ;;
        ret false
    end.

(** ** ASICamera._capture_loop *)

(** Python's [int()] on a non-integer number: truncation toward zero. *)
Definition py_int (q : Q) : Z := Z.quot (Qnum q) (Zpos (Qden q)).

(** The read timeout of one iteration (l.264-266).  The conversion of
    [video_exposure] to float for [video_exposure / 1000.0] raises
    [OverflowError] when the value has no double; otherwise the source
    computes in binary floating point, and here the quotient is the exact
    rational. *)
Definition timeout_ms (video_exposure : Z) : Result Z :=
  if to_float_ok video_exposure then
    let video_exposure_ms := (inject_Z video_exposure / 1000)%Q in
    let timeout_ms := py_int (video_exposure_ms * 2 + 500)%Q in
    Ok (Z.max 1000 (Z.min timeout_ms 5000))
  else Raise OverflowError.

(** A data call: result code and the content of the buffer afterwards. *)
Definition asi_data (c : SdkCall) : M (Z * list Byte.byte) :=
  fun w => ((sdk_ret sdk (trace w) c, sdk_buffer sdk (trace w)),
            mkWorld (camera_state w) (camera w) (trace w ++ [Call c])).

Definition video_error_message (result consecutive_errors : Z) : string :=
  "Error getting video data: " +:+ pretty result +:+
  " (consecutive: " +:+ pretty consecutive_errors +:+ ")".

(** One pass through the body of [while self.streaming and self.is_open];
    returns the new value of [consecutive_errors], or the exception
    that ends the thread. *)
Definition capture_loop_body (width height buffer_size : Z)
    (consecutive_errors : Z) : M (Result Z) :=
  st <- get_state ;;
  match timeout_ms (video_exposure st) with
  | Raise e => ret (Raise e)
  | Ok timeout_ms =>
      self <- get_self ;;
      r <- asi_data (ASIGetVideoData (self_camera_id self) buffer_size
                                     timeout_ms) ;;
      let result := fst r in
      consecutive_errors <-
        (if result =? ASI_SUCCESS then
           let img := mkImage width height (snd r) in
           upd_self (set_self_frame_buffer (Some img)) ;;
           upd_state (set_current_frame (Some img)) ;;
           ret 0
         else if negb (result =? 2) then
           let consecutive_errors := consecutive_errors + 1 in
           (if (consecutive_errors =? 1) || (consecutive_errors mod 10 =? 0)
            then print (video_error_message result consecutive_errors)
            else ret tt) ;;
           ret consecutive_errors
         else ret consecutive_errors) ;;
      time_sleep 10 ;;
      ret (Ok consecutive_errors)
  end.

(** The loop runs in its own thread.  [others] lists, for each test of
    the loop condition, what the other threads did since the previous
    test; when the list is exhausted the loop is still running.  The
    result is [(exited, consecutive_errors)], or the exception that
    ended the thread. *)
Fixpoint capture_loop_from (others : list (M unit))
    (width height buffer_size consecutive_errors : Z)
    : M (Result (bool * Z)) :=
  match others with
  | [] => ret (Ok (false, consecutive_errors))
  | other :: rest =>
      other ;;
      self <- get_self ;;
      if self_streaming self && self_is_open self then
        consecutive_errors <~
          capture_loop_body width height buffer_size consecutive_errors ;;
        capture_loop_from rest width height buffer_size consecutive_errors
      else ret (Ok (true, consecutive_errors))
  end.

Definition capture_loop (others : list (M unit)) : M (Result (bool * Z)) :=
  st <- get_state ;;
  let width := width st in
  let height := height st in
  let buffer_size := width * height * 3 in
  capture_loop_from others width height buffer_size 0.

(** ** ASICamera.capture_snapshot *)

(** [error_names] of the [ASIStartExposure] failure branch. *)
Definition error_names : gmap Z string :=
  list_to_map
    [ (1, "ASI_ERROR_INVALID_INDEX");
      (2, "ASI_ERROR_INVALID_ID");
      (3, "ASI_ERROR_INVALID_CONTROL_TYPE");
      (4, "ASI_ERROR_CAMERA_CLOSED");
      (5, "ASI_ERROR_CAMERA_REMOVED");
      (6, "ASI_ERROR_INVALID_PATH");
      (7, "ASI_ERROR_INVALID_FILEFORMAT");
      (8, "ASI_ERROR_INVALID_SIZE");
      (9, "ASI_ERROR_INVALID_IMGTYPE");
      (10, "ASI_ERROR_OUTOF_BOUNDARY");
      (11, "ASI_ERROR_TIMEOUT");
      (12, "ASI_ERROR_INVALID_SEQUENCE");
      (13, "ASI_ERROR_BUFFER_TOO_SMALL");
      (14, "ASI_ERROR_VIDEO_MODE_ACTIVE");
      (15, "ASI_ERROR_EXPOSURE_IN_PROGRESS");
      (16, "ASI_ERROR_GENERAL_ERROR");
      (17, "ASI_ERROR_INVALID_MODE") ].

(** [error_names] of the [ASIGetDataAfterExp] failure branch. *)
Definition data_error_names : gmap Z string :=
  list_to_map
    [ (1, "ASI_ERROR_INVALID_INDEX");
      (2, "ASI_ERROR_INVALID_ID");
      (3, "ASI_ERROR_INVALID_CONTROL_TYPE");
      (4, "ASI_ERROR_CAMERA_CLOSED");
      (5, "ASI_ERROR_CAMERA_REMOVED");
      (11, "ASI_ERROR_TIMEOUT");
      (13, "ASI_ERROR_BUFFER_TOO_SMALL");
      (16, "ASI_ERROR_GENERAL_ERROR") ].

Definition status_names : gmap Z string :=
  list_to_map
    [ (0, "ASI_EXP_IDLE"); (1, "ASI_EXP_WORKING");
      (2, "ASI_EXP_SUCCESS"); (3, "ASI_EXP_FAILED") ].

(** [names.get(code, f"{unknown}{code}")] *)
Definition name_of (names : gmap Z string) (unknown : string) (code : Z)
    : string :=
  default (unknown +:+ pretty code) (names !! code).

(** [while status.value != 0 and timeout < 10000]: wait for the device
    to report idle.  [fuel] bounds the unfolding; [wait_idle_exit] shows
    that the 100 passes given by [capture_snapshot] are never exceeded.
    The result is [(status.value, timeout)] at loop exit. *)
Fixpoint wait_idle (fuel : nat) (id status timeout : Z) : M (Z * Z) :=
  match fuel with
  | O => ret (status, timeout)
  | S fuel' =>
      if negb (status =? 0) && (timeout <? 10000) then
        time_sleep 100 ;;
        status <- get_exp_status id status ;;
        wait_idle fuel' id status (timeout + 100)
      else ret (status, timeout)
  end.

(** [while timeout < max_timeout]: wait for the exposure to complete;
    the only [break] is on status 2 (ASI_EXP_SUCCESS). *)
Fixpoint wait_exposure (fuel : nat) (id status timeout max_timeout : Z)
    : M (Z * Z) :=
  match fuel with
  | O => ret (status, timeout)
  | S fuel' =>
      if timeout <? max_timeout then
        status <- get_exp_status id status ;;
        if status =? 2 then ret (status, timeout)
        else
          time_sleep 100 ;;
          wait_exposure fuel' id status (timeout + 100) max_timeout
      else ret (status, timeout)
  end.

(** Passes of [wait_exposure] that exhaust a deadline of [max_timeout]
    milliseconds in steps of 100. *)
Definition exposure_polls (max_timeout : Z) : nat :=
  Z.to_nat ((max_timeout + 99) / 100).

(** The same loop as the specification words it: polling ends on
    status 2 (Success), on status 3 (Failed), or at the deadline. *)
Fixpoint spec_wait_exposure (fuel : nat) (id status timeout max_timeout : Z)
    : M (Z * Z) :=
  match fuel with
  | O => ret (status, timeout)
  | S fuel' =>
      if timeout <? max_timeout then
        status <- get_exp_status id status ;;
        if (status =? 2) || (status =? 3) then ret (status, timeout)
        else
          time_sleep 100 ;;
          spec_wait_exposure fuel' id status (timeout + 100) max_timeout
      else ret (status, timeout)
  end.

(** l.301-317 of [capture_snapshot]: read the exposure status; when the
    device is not idle, wait up to 10 s for it and then force a stop. *)
Definition await_idle (id : Z) : M unit :=
  status <- get_exp_status id 0 ;;
  if negb (status =? 0) then
    r <- wait_idle 100 id status 0 ;;
    if negb (fst r =? 0) then
      asi (ASIStopExposure id) ;;
      time_sleep 500
    else ret tt
  else ret tt.

(** l.332-400 of [capture_snapshot]: start the exposure, wait for it
    and read the image. *)
Definition expose (id exposure : Z) : M (option Image) :=
  result <- asi (ASIStartExposure id 0) ;;
  if negb (result =? ASI_SUCCESS) then
    print ("[capture_snapshot] Failed to start exposure: " +:+
           pretty result +:+ " (" +:+
           name_of error_names "UNKNOWN_ERROR_" result +:+ ")") ;;
    ret None
  else
    let max_timeout := exposure / 1000 + 5000 in
    r <- wait_exposure (exposure_polls max_timeout) id 0 0 max_timeout ;;
    let status := fst r in
    if negb (status =? 2) then
      print ("[capture_snapshot] Exposure failed with status: " +:+
             pretty status +:+ " (" +:+
             name_of status_names "UNKNOWN_" status +:+ ")") ;;
      ret None
    else
      st <- get_state ;;
      let width := width st in
      let height := height st in
      let buffer_size := width * height * 3 in
      r <- asi_data (ASIGetDataAfterExp id buffer_size) ;;
      let result := fst r in
      if negb (result =? ASI_SUCCESS) then
        print ("[capture_snapshot] Failed to get image data: " +:+
               pretty result +:+ " (" +:+
               name_of data_error_names "UNKNOWN_ERROR_" result +:+ ")") ;;
        ret None
      else ret (Some (mkImage width height (snd r))).

Definition capture_snapshot : M (Result (option Image)) :=
  self <- get_self ;;
  if negb (self_is_open self) then
    print "[capture_snapshot] Camera not open" ;;
    ret (Ok None)
  else
    let id := self_camera_id self in
    await_idle id ;;
    st <- get_state ;;
    let exposure := exposure st in
    let gain_val := gain st in
    _ <~ asi_int (ASISetControlValue id ASI_EXPOSURE exposure ASI_FALSE)
                 3 exposure ;;
    _ <~ asi_int (ASISetControlValue id ASI_GAIN gain_val ASI_FALSE)
                 3 gain_val ;;
    _ <~ print_quotient exposure 1000000 ;;
    img <- expose id exposure ;;
    ret (Ok img).

(** ** API routes *)

(** One camera entry of the [/status] document. *)
Record SensorStatus := mkSensorStatus {
  status_connected : bool;
  status_streaming : bool;
  lastSnapshot : option string;
  fault : option string
}.

Record StatusResponse := mkStatusResponse {
  temperature : option Z;
  humidity : option Z;
  weatherCam : SensorStatus;
  meteorCam : SensorStatus
}.

(** [get_status]: [now1] and [now2] are the two values of
    [datetime.now().isoformat()] that the handler evaluates, one per
    camera entry, when [camera_state['current_frame']] is truthy (an
    image object always is). *)
Definition get_status (now1 now2 : string) : M StatusResponse :=
  st <- get_state ;;
  ret (mkStatusResponse None None
         (mkSensorStatus (connected st) (streaming st)
            (match current_frame st with Some _ => Some now1 | None => None end) (error st))
         (mkSensorStatus (connected st) (streaming st)
            (match current_frame st with Some _ => Some now2 | None => None end) (error st))).

(** [{'success': ..., 'message': ...}] with its HTTP status. *)
Record MessageResponse := mkMessageResponse {
  msg_success : bool;
  msg_message : option string;
  msg_code : Z
}.

Definition connect_camera : M MessageResponse :=
  ok <- connect ;;
  if ok then ret (mkMessageResponse true (Some "Camera connected") 200)
  else
    st <- get_state ;;
    ret (mkMessageResponse false (error st) 500).

Definition disconnect_camera : M MessageResponse :=
  disconnect ;;
  ret (mkMessageResponse true (Some "Camera disconnected") 200).

(** The route functions [start_stream] and [stop_stream] (the methods
    of the same names are above).  An exception of [camera.start_stream]
    is not caught by the route. *)
Definition route_start_stream : M (Result MessageResponse) :=
  ok <~ start_stream ;;
  if ok then ret (Ok (mkMessageResponse true (Some "Stream started") 200))
  else
    st <- get_state ;;
    ret (Ok (mkMessageResponse false (error st) 500)).

Definition route_stop_stream : M MessageResponse :=
  stop_stream ;;
  ret (mkMessageResponse true (Some "Stream stopped") 200).

Inductive SnapshotResponse :=
| SendJpeg (img : Image) (quality : Z)
| SnapshotError (msg : string) (code : Z).

Definition capture_failed : string :=
  "Failed to capture snapshot - camera returned None".

(** l.478-479 of [snapshot]: the print of the stored exposure, then the
    capture. *)
Definition snapshot_capture : M (Result (option Image)) :=
  st <- get_state ;;
  _ <~ print_quotient (exposure st) 1000000 ;;
  capture_snapshot.

(** [snapshot]: the test for a connected camera, the [try] block, and
    the [except] branch, which tries once more to restart a stream that
    the handler stopped (an exception of that attempt is swallowed) and
    answers 500 with the text of the exception. *)
Definition snapshot : M SnapshotResponse :=
  st <- get_state ;;
  self <- get_self ;;
  if negb (connected st) || negb (self_is_open self) then
    ret (SnapshotError "Camera not connected" 500)
  else
    let was_streaming := self_streaming self in
    r <- ((if was_streaming then
             stop_stream ;;
             time_sleep 500
           else ret tt) ;;
          img <~ snapshot_capture ;;
          _ <~ (if was_streaming then
                  time_sleep 300 ;;
                  start_stream
                else ret (Ok false)) ;;
          match img with
          | Some img => ret (Ok (SendJpeg img 85))
          | None => ret (Ok (SnapshotError capture_failed 500))
          end) ;;
    match r with
    | Ok response => ret response
    | Raise e =>
        self <- get_self ;;
        (if was_streaming && negb (self_streaming self) then
           start_stream ;;
           ret tt
         else ret tt) ;;
        ret (SnapshotError ("Exception: " +:+ sdk_exn_str sdk e) 500)
    end.

(** The response that [snapshot] builds from the outcome of its [try]
    block up to the capture: the JPEG of the image, the 500 of a capture
    that returned [None], or the 500 of the [except] branch. *)
Definition snapshot_response (r : Result (option Image)) : SnapshotResponse :=
  match r with
  | Ok (Some img) => SendJpeg img 85
  | Ok None => SnapshotError capture_failed 500
  | Raise e => SnapshotError ("Exception: " +:+ sdk_exn_str sdk e) 500
  end.

Record SettingsResponse := mkSettingsResponse {
  resp_success : bool;
  resp_gain : Z;
  resp_exposure : Z;
  resp_video_exposure : Z
}.

(** The block [if 'gain' in data:] of [update_settings] (l.535-567);
    [data] is the JSON body, a dictionary from keys to integers
    ([int(data[k])] is then [data[k]]). *)
Definition settings_gain (data : gmap string Z) : M (Result unit) :=
  match data !! "gain" with
  | None => ret (Ok tt)
  | Some gain =>
      upd_state (set_gain gain) ;;
      st <- get_state ;;
      let was_streaming := streaming st in
      self <- get_self ;;
      if self_is_open self then
        (if was_streaming then
           stop_stream ;;
           time_sleep 500
         else ret tt) ;;
        _ <~ asi_int (ASISetControlValue (self_camera_id self) ASI_GAIN gain
                                         ASI_FALSE)
                     3 gain ;;
        asi (ASIGetControlValue (self_camera_id self) ASI_GAIN) ;;
        if was_streaming then
          time_sleep 500 ;;
          _ <~ start_stream ;;
          ret (Ok tt)
        else ret (Ok tt)
      else ret (Ok tt)
  end.

(** The block [if 'photo_exposure' in data:] (l.569-573). *)
Definition settings_photo_exposure (data : gmap string Z) : M (Result unit) :=
  match data !! "photo_exposure" with
  | None => ret (Ok tt)
  | Some exposure_us =>
      upd_state (set_exposure exposure_us) ;;
      print_quotient exposure_us 1000000
  end.

(** The block [if 'video_exposure' in data:] (l.575-607). *)
Definition settings_video_exposure (data : gmap string Z) : M (Result unit) :=
  match data !! "video_exposure" with
  | None => ret (Ok tt)
  | Some video_exposure_us =>
      upd_state (set_video_exposure video_exposure_us) ;;
      st <- get_state ;;
      let was_streaming := streaming st in
      _ <~ print_quotient video_exposure_us 1000 ;;
      self <- get_self ;;
      if self_is_open self then
        (if was_streaming then
           stop_stream ;;
           time_sleep 500
         else ret tt) ;;
        _ <~ asi_int (ASISetControlValue (self_camera_id self)
                        ASI_AUTO_MAX_EXP video_exposure_us ASI_FALSE)
                     3 video_exposure_us ;;
        asi (ASIGetControlValue (self_camera_id self) ASI_AUTO_MAX_EXP) ;;
        if was_streaming then
          time_sleep 500 ;;
          _ <~ start_stream ;;
          ret (Ok tt)
        else ret (Ok tt)
      else ret (Ok tt)
  end.

(** [update_settings].  The handler catches nothing: an exception ends
    the request (answered 500 by the framework) with what was stored so
    far. *)
Definition update_settings (data : gmap string Z)
    : M (Result SettingsResponse) :=
  _ <~ settings_gain data ;;
  _ <~ settings_photo_exposure data ;;
  _ <~ settings_video_exposure data ;;
  st <- get_state ;;
  ret (Ok (mkSettingsResponse true (gain st) (exposure st)
                              (video_exposure st))).

(** The stored settings that [update_settings] reports. *)
Definition settings (w : World) : Z * Z * Z :=
  (gain (camera_state w), exposure (camera_state w),
   video_exposure (camera_state w)).

(** ** Transitions of the whole service

    One step is one request handled to completion or ended by an
    exception, or one pass of the video-pull loop of a capture thread
    (with whatever values its local variables hold). *)
Inductive step : World -> World -> Prop :=
| step_connect w : step w (snd (connect_camera w))
| step_disconnect w : step w (snd (disconnect_camera w))
| step_start_stream w : step w (snd (route_start_stream w))
| step_stop_stream w : step w (snd (route_stop_stream w))
| step_snapshot w : step w (snd (snapshot w))
| step_settings data w : step w (snd (update_settings data w))
| step_status now1 now2 w : step w (snd (get_status now1 now2 w))
| step_capture_loop width height buffer_size consecutive_errors w :
    self_streaming (camera w) && self_is_open (camera w) = true ->
    step w (snd (capture_loop_body width height buffer_size
                                   consecutive_errors w)).

End Service.

(** ** video_stream: the MJPEG generator *)

Section VideoStream.

(** [img.save(img_io, 'JPEG', quality=q)]: the JPEG encoder of PIL. *)
Variable jpeg : Image -> Z -> list Byte.byte.

Definition crlf : list Byte.byte := [Byte.x0d; Byte.x0a].

(** [b'--frame\r\nContent-Type: image/jpeg\r\n\r\n'] *)
Definition part_header : list Byte.byte :=
  String.list_byte_of_string "--frame" ++ crlf ++
  String.list_byte_of_string "Content-Type: image/jpeg" ++ crlf ++ crlf.

(** One yielded chunk: header, JPEG of the frame at quality 75, CRLF. *)
Definition frame_part (frame : Image) : list Byte.byte :=
  part_header ++ jpeg frame 75 ++ crlf.

(** [generate()] of [video_stream].  As for the video-pull loop,
    [others] lists what the other threads did before each test of
    [camera_state['streaming']]; the result is [(ended, parts)], the
    chunks yielded so far. *)
Fixpoint generate (others : list (M unit))
    : M (bool * list (list Byte.byte)) :=
  match others with
  | [] => ret (false, [])
  | other :: rest =>
      other ;;
      st <- get_state ;;
      if streaming st then
        self <- get_self ;;
        let frame := self_frame_buffer self in
        let part :=
          match frame with
          | Some frame => [frame_part frame]
          | None => []
          end in
        time_sleep 100 ;;
        r <- generate rest ;;
        ret (fst r, part ++ snd r)
      else ret (true, [])
  end.

End VideoStream.

(** ** Loading the vendor library (module level) *)

Section LoadLibrary.

Variable Lib : Type.

(** [ctypes.CDLL(lib_path)]: the library, or [None] when it raises. *)
Variable CDLL : string -> option Lib.

Definition lib_paths : list string :=
  ["/Users/user/Desktop/ASI_linux_mac_SDK_V1.40/lib/mac/libASICamera2.dylib";
   "/Users/user/Desktop/ASI_linux_mac_SDK_V1.40/lib/mac_arm64/libASICamera2.dylib"].

(** [for lib_path in lib_paths: try: asi_lib = CDLL(lib_path); break].
    The result is [asi_lib] and the paths tried, in order. *)
Fixpoint load_library (paths : list string) : option Lib * list string :=
  match paths with
  | [] => (None, [])
  | lib_path :: rest =>
      match CDLL lib_path with
      | Some lib => (Some lib, [lib_path])
      | None =>
          let r := load_library rest in
          (fst r, lib_path :: snd r)
      end
  end.

Definition asi_lib : option Lib := fst (load_library lib_paths).

End LoadLibrary.

(** ** Reasoning about computations in [M] *)

(** [m] leaves the observation [proj] of the world as it found it. *)
Definition keeps {A B} (proj : World -> B) (m : M A) : Prop :=
  forall w, proj (snd (m w)) = proj w.

(** Triple: from a world that satisfies [P], the result and the final
    world of [m] satisfy [Q].  A computation in [M] always returns; an
    exception is one of its results. *)
Definition hoare {A} (P : World -> Prop) (m : M A)
    (Q : A -> World -> Prop) : Prop :=
  forall w, P w -> Q (fst (m w)) (snd (m w)).

(** [m] only appends to the trace. *)
Definition extends {A} (m : M A) : Prop :=
  forall w, exists t, trace (snd (m w)) = trace w ++ t.

(** The handle of the camera object: [(camera.is_open, camera.camera_id)]. *)
Definition handle (w : World) : bool * Z :=
  (self_is_open (camera w), self_camera_id (camera w)).

(** The two flags the video-pull loop tests:
    [(camera.streaming, camera.is_open)]. *)
Definition loop_flags (w : World) : bool * bool :=
  (self_streaming (camera w), self_is_open (camera w)).

(** The answer of the SDK to the [ASIGetVideoData] of a loop pass
    started in [w]. *)
Definition video_data_result (sdk : Sdk) (buffer_size : Z) (w : World)
    : Result Z :=
  match timeout_ms (video_exposure (camera_state w)) with
  | Ok timeout_ms =>
      Ok (sdk_ret sdk (trace w)
            (ASIGetVideoData (self_camera_id (camera w)) buffer_size
                             timeout_ms))
  | Raise e => Raise e
  end.

(** The frames held by the service: [camera_state['current_frame']] and
    [camera.frame_buffer]. *)
Definition frames (w : World) : option Image * option Image :=
  (current_frame (camera_state w), self_frame_buffer (camera w)).

(** The steps that the gain block and the video-exposure block of
    [update_settings] share (l.543-567 and l.583-607): on an open
    handle, stop a running stream, write the control value, read it
    back and restart the stream. *)
Definition write_control (sdk : Sdk) (control value : Z)
    (was_streaming : bool) : M (Result unit) :=
  self <- get_self ;;
  if self_is_open self then
    (if was_streaming then
       stop_stream sdk ;;
       time_sleep 500
     else ret tt) ;;
    _ <~ asi_int sdk (ASISetControlValue (self_camera_id self) control value
                                         ASI_FALSE)
                 3 value ;;
    asi sdk (ASIGetControlValue (self_camera_id self) control) ;;
    if was_streaming then
      time_sleep 500 ;;
      _ <~ start_stream sdk ;;
      ret (Ok tt)
    else ret (Ok tt)
  else ret (Ok tt).

(** The request [/camera/settings] with body [data] raises nowhere in
    state [w]: on an open handle a gain and a video exposure must fit a
    C integer, and so must the stored video exposure when the gain
    block restarts a stream; the quotients printed for the exposures
    must not overflow. *)
Definition answered (data : gmap string Z) (w : World) : Prop :=
  (forall g, data !! "gain" = Some g ->
     self_is_open (camera w) = true ->
     ctypes_int_ok g = true /\
     (streaming (camera_state w) = true ->
      ctypes_int_ok (video_exposure (camera_state w)) = true)) /\
  (forall e, data !! "photo_exposure" = Some e ->
     true_divide_ok e 1000000 = true) /\
  (forall v, data !! "video_exposure" = Some v ->
     true_divide_ok v 1000 = true /\
     (self_is_open (camera w) = true -> ctypes_int_ok v = true)).

(** The settings after a request with body [data]: each key present
    replaces the stored value. *)
Definition merge_settings (data : gmap string Z) (b : Z * Z * Z) : Z * Z * Z :=
  (default (fst (fst b)) (data !! "gain"),
   default (snd (fst b)) (data !! "photo_exposure"),
   default (snd b) (data !! "video_exposure")).

Definition settings_response (b : Z * Z * Z) : SettingsResponse :=
  mkSettingsResponse true (fst (fst b)) (snd (fst b)) (snd b).

(** ** The read timeout in binary64

    The same computation with the arithmetic of the source: the integer
    is converted to a double, divided by [1000.0], doubled, increased by
    500 and truncated by [int()].  Defined for caps below 2^63 in
    absolute value. *)

Definition float_of_Z (z : Z) : float :=
  if 0 <=? z then PrimFloat.of_uint63 (Uint63.of_Z z)
  else PrimFloat.opp (PrimFloat.of_uint63 (Uint63.of_Z (- z))).

Definition float_int (f : float) : Z :=
  match Prim2SF f with
  | S754_finite s m e =>
      let a := if 0 <=? e then Zpos m * 2 ^ e else Zpos m / 2 ^ (- e) in
      if s then - a else a
  | _ => 0
  end.

Definition timeout_ms_binary64 (video_exposure : Z) : Z :=
  let video_exposure_ms :=
    PrimFloat.div (float_of_Z video_exposure) (float_of_Z 1000) in
  let timeout_ms :=
    float_int (PrimFloat.add (PrimFloat.mul video_exposure_ms (float_of_Z 2))
                             (float_of_Z 500)) in
  Z.max 1000 (Z.min timeout_ms 5000).

(** The caps [lo, lo + 1, ..., lo + n - 1]. *)
Definition caps_from (lo : Z) (n : nat) : list Z :=
  map (fun i => lo + Z.of_nat i) (seq 0 n).

(** [m] keeps the property [I] of the world. *)
Definition preserves {A} (I : World -> Prop) (m : M A) : Prop :=
  forall w, I w -> I (snd (m w)).

(** What the service keeps true of its own variables: the two streaming
    flags agree, a stream runs only on an open handle, [connected] is set
    only on an open handle, the two frame variables hold the same image
    and the two copies of the camera id agree. *)
Definition consistent (w : World) : Prop :=
  streaming (camera_state w) = self_streaming (camera w) /\
  (self_streaming (camera w) = true -> self_is_open (camera w) = true) /\
  (connected (camera_state w) = true -> self_is_open (camera w) = true) /\
  current_frame (camera_state w) = self_frame_buffer (camera w) /\
  camera_id (camera_state w) = self_camera_id (camera w).

(** [m] only appends events that satisfy [P]. *)
Definition emits {A} (P : Event -> Prop) (m : M A) : Prop :=
  forall w, exists t, trace (snd (m w)) = trace w ++ t /\ Forall P t.

(** The calls that start or stop the video mode of the device. *)
Definition is_video_call (e : Event) : bool :=
  match e with
  | Call (ASIStartVideoCapture _) | Call (ASIStopVideoCapture _) => true
  | _ => false
  end.

(** The calls that write a control value. *)
Definition is_control_write (e : Event) : bool :=
  match e with
  | Call (ASISetControlValue _ _ _ _) => true
  | _ => false
  end.

(** The state of the program variables: [(camera_state, camera)]. *)
Definition variables (w : World) : CameraState * ASICamera :=
  (camera_state w, camera w).

(** The trace of [n] passes of the idle wait: each is the 100 ms sleep
    followed by the status call. *)
Fixpoint idle_poll_trace (id : Z) (n : nat) : list Event :=
  match n with
  | O => []
  | S n' => Sleep 100 :: Call (ASIGetExpStatus id) :: idle_poll_trace id n'
  end.

(** The calls with which [capture_snapshot] sets up and starts an
    exposure. *)
Definition exposure_start_trace (id exposure gain : Z) : list Event :=
  [Call (ASISetControlValue id ASI_EXPOSURE exposure ASI_FALSE);
   Call (ASISetControlValue id ASI_GAIN gain ASI_FALSE);
   Call (ASIStartExposure id 0)].

(** Total time asked of [time.sleep] in a trace, in milliseconds. *)
Fixpoint slept (tr : list Event) : Z :=
  match tr with
  | [] => 0
  | Sleep ms :: tr' => ms + slept tr'
  | _ :: tr' => slept tr'
  end.

(** [m] asks [time.sleep] for at most [n] milliseconds in all. *)
Definition sleeps_within {A} (n : Z) (m : M A) : Prop :=
  forall w, slept (trace (snd (m w))) <= slept (trace w) + n.

Definition is_print (e : Event) : bool :=
  match e with Print _ => true | _ => false end.

(** The test of the video-pull loop for printing the error line:
    [consecutive_errors == 1 or consecutive_errors % 10 == 0]. *)
Definition log_due (consecutive_errors : Z) : bool :=
  (consecutive_errors =? 1) || (consecutive_errors mod 10 =? 0).

(** The events of a loop pass whose data call [call] failed with [code]
    and made [k] the number of consecutive errors. *)
Definition error_pass_trace (call : SdkCall) (code k : Z) : list Event :=
  Call call ::
  (if log_due k then [Print (video_error_message code k)] else []) ++
  [Sleep 10].

(** The values [errors + 1, ..., errors + n] of the error counter. *)
Fixpoint counters (errors : Z) (n : nat) : list Z :=
  match n with
  | O => []
  | S n' => (errors + 1) :: counters (errors + 1) n'
  end.

(** [clamp x lo hi], as the specification writes the bound on the read
    timeout: [x] when it lies between [lo] and [hi], else the bound it
    passes. *)
Definition clamp (x lo hi : Z) : Z :=
  if x <? lo then lo else if hi <? x then hi else x.

(** ** Devices used to run the model on concrete inputs *)

Definition is_start_exposure (e : Event) : bool :=
  match e with Call (ASIStartExposure _ _) => true | _ => false end.

(** The text of each exception as CPython 3.11 words it; the
    [OverflowError] whose text is taken is that of a true division, and
    the [UnicodeDecodeError] is that of a name starting with byte 0xff. *)
Definition exn_text (e : Exn) : string :=
  match e with
  | ArgumentError n =>
      "argument " +:+ pretty n +:+ ": OverflowError: int too long to convert"
  | OverflowError => "integer division result too large for a float"
  | UnicodeDecodeError =>
      "'utf-8' codec can't decode byte 0xff in position 0: invalid start byte"
  end.

(** A device that answers every call with [ret c] and reports exposure
    status [idle] before the first [ASIStartExposure] and [done] after
    it; one camera of 2 x 1 pixels. *)
Definition device (ret : SdkCall -> Z) (idle done : Z) : Sdk :=
  mkSdk true
    (fun _ c => ret c)
    (fun h _ => if existsb is_start_exposure h then done else idle)
    (fun _ => [Byte.x01; Byte.x02; Byte.x03; Byte.x04; Byte.x05; Byte.x06])
    (fun _ => mkCameraInfo (Some "ZWO ASI Camera") 0 1 2)
    exn_text.

(** Every call succeeds and an exposure completes at its first poll. *)
Definition healthy_ret (c : SdkCall) : Z :=
  match c with ASIGetNumOfConnectedCameras => 1 | _ => ASI_SUCCESS end.

Definition healthy_device : Sdk := device healthy_ret 0 2.

(** As [healthy_device], but [ASIStartVideoCapture] is rejected with
    code 16 (ASI_ERROR_GENERAL_ERROR). *)
Definition no_video_ret (c : SdkCall) : Z :=
  match c with
  | ASIGetNumOfConnectedCameras => 1
  | ASIStartVideoCapture _ => 16
  | _ => ASI_SUCCESS
  end.

Definition no_video_device : Sdk := device no_video_ret 0 2.

(** As [healthy_device], but every exposure ends in status 3
    (ASI_EXP_FAILED). *)
Definition failing_exposure_device : Sdk := device healthy_ret 0 3.

(** As [healthy_device], but [ASIGetVideoData] answers [code]. *)
Definition video_data_ret (code : Z) (c : SdkCall) : Z :=
  match c with
  | ASIGetNumOfConnectedCameras => 1
  | ASIGetVideoData _ _ _ => code
  | _ => ASI_SUCCESS
  end.

Definition video_data_device (code : Z) : Sdk :=
  device (video_data_ret code) 0 2.

(** A device with no camera attached: [ASIGetNumOfConnectedCameras]
    answers 0. *)
Definition no_camera_device : Sdk := device (fun _ => 0) 0 2.

(** As [healthy_device], but [ASIInitCamera] is rejected with code 16. *)
Definition no_init_ret (c : SdkCall) : Z :=
  match c with
  | ASIGetNumOfConnectedCameras => 1
  | ASIInitCamera _ => 16
  | _ => ASI_SUCCESS
  end.

Definition no_init_device : Sdk := device no_init_ret 0 2.

(** As [healthy_device], but the exposure status is stuck at 1
    (ASI_EXP_WORKING). *)
Definition stuck_device : Sdk := device healthy_ret 1 1.

(** The state that a successful [connect] on the devices above
    produces, and the same with a stream running ([connect_reaches] and
    [start_stream_reaches] below); the traces are started afresh. *)
Definition connected_world : World :=
  mkWorld
    (mkCameraState true false 0 2 1 1000000 100000 50 None None)
    (mkASICamera 0 true false None None)
    [].

Definition streaming_world : World :=
  mkWorld
    (mkCameraState true true 0 2 1 1000000 100000 50 None None)
    (mkASICamera 0 true true None (Some 0%nat))
    [ThreadStart 0].

(** The trace of [n] unsuccessful polls of the exposure status: each is
    the status call followed by the 100 ms sleep. *)
Fixpoint poll_trace (id : Z) (n : nat) : list Event :=
  match n with
  | O => []
  | S n' => Call (ASIGetExpStatus id) :: Sleep 100 :: poll_trace id n'
  end.

(** The status that poll number [k] (counted from 0) of the exposure
    wait reports, when the wait starts with history [h] and status
    variable [status] and each earlier poll was followed by the 100 ms
    pause. *)
Fixpoint poll_status (sdk : Sdk) (id : Z) (h : list Event) (status : Z)
    (k : nat) : Z :=
  match k with
  | O => sdk_exp_status sdk h status
  | S k' =>
      poll_status sdk id (h ++ [Call (ASIGetExpStatus id); Sleep 100])
                  (sdk_exp_status sdk h status) k'
  end.

(** The world of [connected_world] just after [ASIStartExposure]. *)
Definition exposing_world : World :=
  mkWorld (camera_state connected_world) (camera connected_world)
          [Call (ASIStartExposure 0 0)].

(** The world after one pass of the video-pull loop that read a frame
    from [healthy_device]. *)
Definition world_with_frame : World :=
  snd (capture_loop_body healthy_device 2 1 6 0 streaming_world).

(** The service after [/camera/connect], [/camera/stream/start] and a
    [/camera/settings] request that sets [video_exposure] to 10^400:
    the value is stored, the request fails at its print (l.581), and
    the stream is still marked running. *)
Definition overflow_world : World :=
  snd (update_settings healthy_device {[ "video_exposure" := 10 ^ 400 ]}
         (snd (route_start_stream healthy_device
                 (snd (connect_camera healthy_device initial_world))))).

(** * Properties *)

Arguments ctypes_int_ok : simpl never.
Arguments to_float_ok : simpl never.
Arguments true_divide_ok : simpl never.
Arguments DBL_LIMIT : simpl never.

Ltac unfold_monad :=
  unfold bind_ok, asi_int, print_quotient in *;
  unfold bind, ret, get_state, get_self, upd_state, upd_self, time_sleep,
    print, emit, new_thread, asi, asi_data, get_exp_status in *.

Lemma sdk_calls_app (t1 t2 : list Event) :
  sdk_calls (t1 ++ t2) = sdk_calls t1 ++ sdk_calls t2.
Proof. unfold sdk_calls. apply flat_map_app. Qed.

Lemma bind_run {A B} (m : M A) (k : A -> M B) (w : World) :
  bind m k w = k (fst (m w)) (snd (m w)).
Proof. unfold bind. destruct (m w). reflexivity. Qed.

Lemma bind_ok_run {A B} (m : M (Result A)) (k : A -> M (Result B))
    (w : World) :
  bind_ok m k w =
    match fst (m w) with
    | Ok a => k a (snd (m w))
    | Raise e => (Raise e, snd (m w))
    end.
Proof. unfold bind_ok. rewrite bind_run. destruct (fst (m w)); reflexivity. Qed.

(** ** Which integers marshal, and which quotients print *)

Lemma DBL_LIMIT_large : 2 ^ 64 < DBL_LIMIT.
Proof. vm_compute. reflexivity. Qed.

Lemma ctypes_int_ok_bounds (z : Z) :
  ctypes_int_ok z = true <-> - 2 ^ 63 <= z < 2 ^ 64.
Proof.
  unfold ctypes_int_ok. rewrite andb_true_iff, Z.leb_le, Z.ltb_lt. tauto.
Qed.

Lemma to_float_ok_bounds (z : Z) :
  to_float_ok z = true <-> - DBL_LIMIT < z < DBL_LIMIT.
Proof. unfold to_float_ok. rewrite Z.ltb_lt. lia. Qed.

Lemma true_divide_ok_bounds (a b : Z) :
  true_divide_ok a b = true <-> - (DBL_LIMIT * b) < a < DBL_LIMIT * b.
Proof. unfold true_divide_ok. rewrite Z.ltb_lt. lia. Qed.

Lemma ctypes_int_to_float (z : Z) :
  ctypes_int_ok z = true -> to_float_ok z = true.
Proof.
  rewrite ctypes_int_ok_bounds, to_float_ok_bounds.
  pose proof DBL_LIMIT_large. lia.
Qed.

Lemma ctypes_int_true_divide (z b : Z) :
  1 <= b -> ctypes_int_ok z = true -> true_divide_ok z b = true.
Proof.
  rewrite ctypes_int_ok_bounds, true_divide_ok_bounds.
  pose proof DBL_LIMIT_large. nia.
Qed.

Lemma to_float_true_divide (z b : Z) :
  1 <= b -> to_float_ok z = true -> true_divide_ok z b = true.
Proof.
  rewrite to_float_ok_bounds, true_divide_ok_bounds.
  pose proof DBL_LIMIT_large. nia.
Qed.

(** The sample worlds are states the service reaches. *)
Example connect_reaches :
  let r := connect healthy_device initial_world in
  fst r = true /\
  camera_state (snd r) = camera_state connected_world /\
  camera (snd r) = camera connected_world.
Proof. vm_compute. repeat split. Qed.

Example start_stream_reaches :
  let r := start_stream healthy_device connected_world in
  fst r = Ok true /\
  camera_state (snd r) = camera_state streaming_world /\
  camera (snd r) = camera streaming_world.
Proof. vm_compute. repeat split. Qed.

(** The service reaches [overflow_world], and a stream is marked running
    there with a video exposure that [ctypes] cannot marshal. *)
Lemma overflow_world_reached :
  rtc (step healthy_device) initial_world overflow_world /\
  connected (camera_state overflow_world) = true /\
  self_is_open (camera overflow_world) = true /\
  self_streaming (camera overflow_world) = true /\
  video_exposure (camera_state overflow_world) = 10 ^ 400.
Proof.
  split.
  - unfold overflow_world.
    apply rtc_l with (snd (connect_camera healthy_device initial_world));
      [apply step_connect |].
    apply rtc_l with
      (snd (route_start_stream healthy_device
              (snd (connect_camera healthy_device initial_world))));
      [apply step_start_stream |].
    apply rtc_once. apply step_settings.
  - split; [vm_compute; reflexivity |].
    split; [vm_compute; reflexivity |].
    split; vm_compute; reflexivity.
Qed.

Section Disconnect.

Variable sdk : Sdk.

Lemma stop_stream_closed (w : World) :
  self_is_open (camera w) = false ->
  sdk_calls (trace (snd (stop_stream sdk w))) = sdk_calls (trace w) /\
  camera_state (snd (stop_stream sdk w)) =
    set_streaming false (camera_state w) /\
  camera (snd (stop_stream sdk w)) = set_self_streaming false (camera w).
Proof.
  intros Hopen. destruct w as [st [id op str fb th] tr]. cbn in Hopen. subst op.
  unfold stop_stream. unfold_monad.
  destruct th; cbn; rewrite ?sdk_calls_app; cbn; rewrite ?app_nil_r; auto.
Qed.

Lemma stop_stream_flags (w : World) :
  self_streaming (camera (snd (stop_stream sdk w))) = false /\
  streaming (camera_state (snd (stop_stream sdk w))) = false /\
  self_is_open (camera (snd (stop_stream sdk w))) = self_is_open (camera w) /\
  self_camera_id (camera (snd (stop_stream sdk w))) = self_camera_id (camera w).
Proof.
  destruct w as [st [id op str fb th] tr].
  unfold stop_stream. unfold_monad.
  destruct th, op; cbn; destruct (0 <=? id); cbn; auto.
Qed.

(** C9. [disconnect] after [disconnect] changes neither [camera_state]
    nor the camera object and makes no further SDK call; on a handle
    that is already closed, [disconnect] makes no SDK call at all (no
    [ASICloseCamera], no [ASIStopVideoCapture]) and leaves every field
    as it was except that [connected] and both streaming flags are
    false. *)
Theorem disconnect_idempotent (w : World) :
  let w1 := snd (disconnect sdk w) in
  let w2 := snd (disconnect sdk w1) in
  (camera_state w2 = camera_state w1 /\
   camera w2 = camera w1 /\
   sdk_calls (trace w2) = sdk_calls (trace w1)) /\
  (self_is_open (camera w) = false ->
   sdk_calls (trace w1) = sdk_calls (trace w) /\
   camera_state w1 = set_connected false (set_streaming false (camera_state w)) /\
   camera w1 = set_self_streaming false (camera w)).
Proof.
  destruct w as [st [id op str fb th] tr].
  unfold disconnect, stop_stream. unfold_monad.
  destruct th, op; cbn; destruct (0 <=? id) eqn:Hid;
    repeat (cbn; rewrite ?Hid);
    rewrite ?sdk_calls_app; cbn; rewrite ?app_nil_r;
    (split; [auto | intros; try discriminate; auto]).
Qed.

End Disconnect.

Lemma disconnect_idempotent_witness :
  self_is_open (camera initial_world) = false /\
  sdk_calls (trace (snd (disconnect healthy_device initial_world))) = [] /\
  camera_state (snd (disconnect healthy_device initial_world)) =
    initial_camera_state.
Proof.
  split; [reflexivity |].
  destruct (disconnect_idempotent healthy_device initial_world) as [_ H].
  destruct (H eq_refl) as (H1 & H2 & _).
  split; [exact H1 | exact H2].
Defined.

Section StartStream.

Variable sdk : Sdk.

(** The four ways through [start_stream]. *)
Lemma start_stream_not_open (w : World) :
  self_is_open (camera w) = false -> start_stream sdk w = (Ok false, w).
Proof.
  intros H. destruct w as [st [id op str fb th] tr]. cbn in H. subst op.
  reflexivity.
Qed.

Lemma start_stream_raises (w : World) :
  self_is_open (camera w) = true ->
  ctypes_int_ok (video_exposure (camera_state w)) = false ->
  start_stream sdk w = (Raise (ArgumentError 3), w).
Proof.
  intros Hopen Hc. destruct w as [st [id op str fb th] tr].
  cbn in Hopen, Hc. subst op.
  unfold start_stream. unfold_monad. cbn. rewrite Hc. reflexivity.
Qed.

Lemma start_stream_rejected (w : World) :
  self_is_open (camera w) = true ->
  ctypes_int_ok (video_exposure (camera_state w)) = true ->
  start_video_result sdk w <> ASI_SUCCESS ->
  start_stream sdk w =
    (Ok false,
     mkWorld
       (set_error (Some (start_video_error (start_video_result sdk w)))
                  (camera_state w))
       (camera w)
       (trace_before_start_video w ++
        [Call (ASIStartVideoCapture (self_camera_id (camera w)))])).
Proof.
  intros Hopen Hc Hres. destruct w as [st [id op str fb th] tr].
  cbn in Hopen, Hc. subst op.
  pose proof (ctypes_int_true_divide _ 1000 ltac:(lia) Hc) as Hd.
  unfold start_video_result, trace_before_start_video in *. cbn in *.
  unfold start_stream. unfold_monad. cbn. rewrite Hc. cbn. rewrite Hd. cbn.
  rewrite <- !app_assoc. cbn.
  apply Z.eqb_neq in Hres. rewrite Hres. cbn. reflexivity.
Qed.

Lemma start_stream_accepted (w : World) :
  self_is_open (camera w) = true ->
  ctypes_int_ok (video_exposure (camera_state w)) = true ->
  start_video_result sdk w = ASI_SUCCESS ->
  start_stream sdk w =
    (Ok true,
     mkWorld
       (set_streaming true (camera_state w))
       (set_self_capture_thread (Some (threads_started (trace w)))
          (set_self_streaming true (camera w)))
       (trace_before_start_video w ++
        [Call (ASIStartVideoCapture (self_camera_id (camera w)));
         ThreadStart (threads_started (trace w))])).
Proof.
  intros Hopen Hc Hres. destruct w as [st [id op str fb th] tr].
  cbn in Hopen, Hc. subst op.
  pose proof (ctypes_int_true_divide _ 1000 ltac:(lia) Hc) as Hd.
  unfold start_video_result, trace_before_start_video in *. cbn in *.
  unfold start_stream. unfold_monad. cbn. rewrite Hc. cbn. rewrite Hd. cbn.
  rewrite <- !app_assoc. cbn.
  rewrite Hres. cbn.
  unfold threads_started. rewrite !filter_app. cbn. rewrite !app_nil_r.
  rewrite <- !app_assoc. reflexivity.
Qed.

Lemma threads_started_app (t1 t2 : list Event) :
  threads_started (t1 ++ t2) = (threads_started t1 + threads_started t2)%nat.
Proof. unfold threads_started. rewrite filter_app, length_app. reflexivity. Qed.

(** Whenever [start_stream] does not return [True], the streaming
    flags, the camera object and the number of threads are as before. *)
Lemma start_stream_not_started (w : World) :
  fst (start_stream sdk w) <> Ok true ->
  streaming (camera_state (snd (start_stream sdk w))) =
    streaming (camera_state w) /\
  camera (snd (start_stream sdk w)) = camera w /\
  threads_started (trace (snd (start_stream sdk w))) =
    threads_started (trace w).
Proof.
  intros H.
  destruct (self_is_open (camera w)) eqn:Hopen.
  - destruct (ctypes_int_ok (video_exposure (camera_state w))) eqn:Hc.
    + destruct (Z.eq_dec (start_video_result sdk w) ASI_SUCCESS) as [Hr | Hr].
      * rewrite (start_stream_accepted w Hopen Hc Hr) in H. cbn in H.
        congruence.
      * rewrite (start_stream_rejected w Hopen Hc Hr).
        cbn [fst snd trace camera camera_state].
        split; [destruct w as [[] ? ?]; reflexivity |].
        split; [reflexivity |].
        unfold trace_before_start_video.
        rewrite !threads_started_app.
        generalize (threads_started (trace w)). intros n.
        cbv -[Nat.add]. lia.
    + rewrite (start_stream_raises w Hopen Hc). cbn. auto.
  - rewrite (start_stream_not_open w Hopen). cbn. auto.
Qed.

(** C6. [start_stream] returns [False] when the handle is not open and
    when the SDK rejects [ASIStartVideoCapture]; whenever it does not
    return [True] (these two cases, and the one where it raises before
    the call), the streaming flags and the camera object (its
    [streaming] flag and its [capture_thread]) are as before and no
    thread has been started. *)
Theorem start_stream_failure (w : World) :
  (self_is_open (camera w) = false \/
   (ctypes_int_ok (video_exposure (camera_state w)) = true /\
    start_video_result sdk w <> ASI_SUCCESS) ->
   fst (start_stream sdk w) = Ok false) /\
  (fst (start_stream sdk w) <> Ok true ->
   streaming (camera_state (snd (start_stream sdk w))) =
     streaming (camera_state w) /\
   camera (snd (start_stream sdk w)) = camera w /\
   threads_started (trace (snd (start_stream sdk w))) =
     threads_started (trace w)).
Proof.
  split; [| apply start_stream_not_started].
  intros H.
  destruct (self_is_open (camera w)) eqn:Hopen.
  - destruct H as [H | [Hc H]]; [discriminate |].
    rewrite (start_stream_rejected w Hopen Hc H). reflexivity.
  - rewrite (start_stream_not_open w Hopen). reflexivity.
Qed.

End StartStream.

Lemma start_stream_failure_witness :
  (ctypes_int_ok (video_exposure (camera_state connected_world)) = true /\
   start_video_result no_video_device connected_world <> ASI_SUCCESS) /\
  fst (start_stream no_video_device connected_world) = Ok false /\
  streaming (camera_state (snd (start_stream no_video_device connected_world)))
    = false.
Proof.
  assert (H : ctypes_int_ok (video_exposure (camera_state connected_world))
              = true /\
              start_video_result no_video_device connected_world
              <> ASI_SUCCESS) by (split; [reflexivity | vm_compute; discriminate]).
  split; [exact H |].
  destruct (start_stream_failure no_video_device connected_world) as [H1 H2].
  pose proof (H1 (or_intror H)) as Hf.
  split; [exact Hf |].
  assert (Hn : fst (start_stream no_video_device connected_world) <> Ok true)
    by (rewrite Hf; discriminate).
  exact (proj1 (H2 Hn)).
Defined.

(** ** The read timeout of the video-pull loop *)

Lemma py_int_timeout (cap : Z) :
  py_int (inject_Z cap / 1000 * 2 + 500)%Q = Z.quot (2 * cap + 500000) 1000.
Proof.
  unfold py_int. cbn. f_equal. lia.
Qed.

Lemma timeout_ms_quot (cap : Z) :
  to_float_ok cap = true ->
  timeout_ms cap =
    Ok (Z.max 1000 (Z.min (Z.quot (2 * cap + 500000) 1000) 5000)).
Proof.
  intros H. unfold timeout_ms. rewrite H, py_int_timeout. reflexivity.
Qed.

Lemma timeout_ms_overflow (cap : Z) :
  to_float_ok cap = false -> timeout_ms cap = Raise OverflowError.
Proof. intros H. unfold timeout_ms. rewrite H. reflexivity. Qed.

Lemma clamp_max_min (x lo hi : Z) :
  lo <= hi -> Z.max lo (Z.min x hi) = clamp x lo hi.
Proof.
  intros H. unfold clamp.
  destruct (x <? lo) eqn:H1; [apply Z.ltb_lt in H1 | apply Z.ltb_ge in H1];
    destruct (hi <? x) eqn:H2; [apply Z.ltb_lt in H2 | apply Z.ltb_ge in H2
                               | apply Z.ltb_lt in H2 | apply Z.ltb_ge in H2];
    lia.
Qed.

(** A pass of the loop that finds a cap with no double ends the thread
    at once: nothing is called, nothing changes. *)
Lemma capture_loop_body_overflow (sdk : Sdk)
    (width height buffer_size errors : Z) (w : World) :
  to_float_ok (video_exposure (camera_state w)) = false ->
  capture_loop_body sdk width height buffer_size errors w =
    (Raise OverflowError, w).
Proof.
  intros H. unfold capture_loop_body. rewrite bind_run.
  cbn [get_state fst snd]. rewrite (timeout_ms_overflow _ H). reflexivity.
Qed.



(** The exact quotient and the binary64 computation of the source give
    the same timeout on the default cap, on negative and very large
    caps, and on every cap within 2000 microseconds of the two ends of
    the clamp window. *)
Lemma timeout_ms_agrees_with_binary64 :
  forallb (fun cap =>
             match timeout_ms cap with
             | Ok t => timeout_ms_binary64 cap =? t
             | Raise _ => false
             end)
    ([-1000000; -1; 0; 1; 999; 1000; 100000; 1000000; 4611686018427387904]
     ++ caps_from 248000 4000 ++ caps_from 2248000 4000) = true.
Proof. vm_compute. reflexivity. Qed.




(** ** Frame rules *)

Lemma keeps_ret {A B} (proj : World -> B) (a : A) : keeps proj (ret a).
Proof. intros w. reflexivity. Qed.

Lemma keeps_bind {A B C} (proj : World -> C) (m : M A) (k : A -> M B) :
  keeps proj m -> (forall a, keeps proj (k a)) -> keeps proj (bind m k).
Proof.
  intros Hm Hk w. unfold bind.
  specialize (Hm w). destruct (m w) as [a w']. cbn in *.
  rewrite Hk. exact Hm.
Qed.

Lemma keeps_bind_ok {A B C} (proj : World -> C) (m : M (Result A))
    (k : A -> M (Result B)) :
  keeps proj m -> (forall a, keeps proj (k a)) -> keeps proj (bind_ok m k).
Proof.
  intros Hm Hk. unfold bind_ok. apply keeps_bind; [exact Hm |].
  intros [a | e]; [apply Hk | apply keeps_ret].
Qed.

(** A primitive step that touches only fields the observation ignores. *)
Ltac keeps_prim :=
  let w := fresh "w" in
  intros w; destruct w as [[] [] ?]; reflexivity.

Ltac keeps_step :=
  match goal with
  | |- keeps _ (bind_ok _ _) => apply keeps_bind_ok; [| intros ?]
  | |- keeps _ (bind _ _) => apply keeps_bind; [| intros ?]
  | |- keeps _ (ret _) => apply keeps_ret
  | |- keeps _ (asi_int _ _ _ _) => unfold asi_int
  | |- keeps _ (print_quotient _ _) => unfold print_quotient
  | |- keeps _ (if ?b then _ else _) => destruct b
  | |- keeps _ (match ?x with _ => _ end) => destruct x
  | |- keeps _ _ => solve [eauto with keeps]
  | |- keeps _ _ => keeps_prim
  end.

Ltac keeps_auto := repeat keeps_step.

Create HintDb keeps.

(** ** The trace only grows *)

Lemma extends_ret {A} (a : A) : extends (ret a).
Proof. intros w. exists []. cbn. symmetry. apply app_nil_r. Qed.

Lemma extends_bind {A B} (m : M A) (k : A -> M B) :
  extends m -> (forall a, extends (k a)) -> extends (bind m k).
Proof.
  intros Hm Hk w. unfold bind.
  destruct (Hm w) as [t1 H1]. destruct (m w) as [a w']. cbn in *.
  destruct (Hk a w') as [t2 H2]. exists (t1 ++ t2).
  rewrite H2, H1. symmetry. apply app_assoc.
Qed.

Lemma extends_bind_ok {A B} (m : M (Result A)) (k : A -> M (Result B)) :
  extends m -> (forall a, extends (k a)) -> extends (bind_ok m k).
Proof.
  intros Hm Hk. unfold bind_ok. apply extends_bind; [exact Hm |].
  intros [a | e]; [apply Hk | apply extends_ret].
Qed.

Ltac extends_prim :=
  let w := fresh "w" in
  intros w; destruct w as [? ? ?]; cbn;
  first [ eexists; reflexivity
        | exists []; symmetry; apply app_nil_r ].

Ltac extends_step :=
  match goal with
  | |- extends (bind_ok _ _) => apply extends_bind_ok; [| intros ?]
  | |- extends (bind _ _) => apply extends_bind; [| intros ?]
  | |- extends (ret _) => apply extends_ret
  | |- extends (asi_int _ _ _ _) => unfold asi_int
  | |- extends (print_quotient _ _) => unfold print_quotient
  | |- extends (if ?b then _ else _) => destruct b
  | |- extends (match ?x with _ => _ end) => destruct x
  | |- extends _ => solve [eauto with extends]
  | |- extends _ => extends_prim
  end.

Ltac extends_auto := repeat extends_step.

Create HintDb extends.

Lemma hoare_prefix {A} (t0 : list Event) (m : M A) :
  extends m ->
  hoare (fun w => trace w = t0) m
        (fun _ w => exists post, trace w = t0 ++ post).
Proof.
  intros H w Hw. destruct (H w) as [t Ht]. exists t. congruence.
Qed.

(** ** What a computation appends *)

Lemma emits_ret {A} (P : Event -> Prop) (a : A) : emits P (ret a).
Proof.
  intros w. exists []. split; [symmetry; apply app_nil_r | constructor].
Qed.

Lemma emits_bind {A B} (P : Event -> Prop) (m : M A) (k : A -> M B) :
  emits P m -> (forall a, emits P (k a)) -> emits P (bind m k).
Proof.
  intros Hm Hk w. rewrite bind_run.
  destruct (Hm w) as (t1 & H1 & F1).
  destruct (Hk (fst (m w)) (snd (m w))) as (t2 & H2 & F2).
  exists (t1 ++ t2). split.
  - rewrite H2, H1. symmetry. apply app_assoc.
  - apply Forall_app. split; assumption.
Qed.

Lemma emits_bind_ok {A B} (P : Event -> Prop) (m : M (Result A))
    (k : A -> M (Result B)) :
  emits P m -> (forall a, emits P (k a)) -> emits P (bind_ok m k).
Proof.
  intros Hm Hk. unfold bind_ok. apply emits_bind; [exact Hm |].
  intros [a | e]; [apply Hk | apply emits_ret].
Qed.

(** A primitive step: it appends nothing, or one event that satisfies
    the property by computation. *)
Ltac emits_prim :=
  let w := fresh "w" in
  intros w; destruct w as [? ? ?]; cbn;
  first [ exists []; split; [symmetry; apply app_nil_r | constructor]
        | eexists; split; [reflexivity |];
          repeat constructor ].

Ltac emits_step :=
  match goal with
  | |- emits _ (bind_ok _ _) => apply emits_bind_ok; [| intros ?]
  | |- emits _ (bind _ _) => apply emits_bind; [| intros ?]
  | |- emits _ (ret _) => apply emits_ret
  | |- emits _ (asi_int _ _ _ _) => unfold asi_int
  | |- emits _ (print_quotient _ _) => unfold print_quotient
  | |- emits _ (if ?b then _ else _) => destruct b
  | |- emits _ (match ?x with _ => _ end) => destruct x
  | |- emits _ _ => solve [eauto with emits]
  | |- emits _ _ => emits_prim
  end.

Ltac emits_auto := repeat emits_step.

Create HintDb emits.

(** ** What every computation keeps true *)

Lemma preserves_ret {A} (I : World -> Prop) (a : A) : preserves I (ret a).
Proof. intros w H. exact H. Qed.

Lemma preserves_bind {A B} (I : World -> Prop) (m : M A) (k : A -> M B) :
  preserves I m -> (forall a, preserves I (k a)) -> preserves I (bind m k).
Proof.
  intros Hm Hk w Hw. rewrite bind_run. apply Hk. apply Hm. exact Hw.
Qed.

Lemma preserves_bind_ok {A B} (I : World -> Prop) (m : M (Result A))
    (k : A -> M (Result B)) :
  preserves I m -> (forall a, preserves I (k a)) ->
  preserves I (bind_ok m k).
Proof.
  intros Hm Hk. unfold bind_ok. apply preserves_bind; [exact Hm |].
  intros [a | e]; [apply Hk | apply preserves_ret].
Qed.

(** A primitive step that touches no field the property reads. *)
Ltac preserves_prim :=
  let w := fresh "w" in
  let H := fresh "H" in
  intros w H; destruct w as [[] [] ?]; exact H.

Ltac preserves_step :=
  match goal with
  | |- preserves _ (bind_ok _ _) => apply preserves_bind_ok; [| intros ?]
  | |- preserves _ (bind _ _) => apply preserves_bind; [| intros ?]
  | |- preserves _ (ret _) => apply preserves_ret
  | |- preserves _ (asi_int _ _ _ _) => unfold asi_int
  | |- preserves _ (print_quotient _ _) => unfold print_quotient
  | |- preserves _ (if ?b then _ else _) => destruct b
  | |- preserves _ (match ?x with _ => _ end) => destruct x
  | |- preserves _ _ => solve [eauto with preserves]
  | |- preserves _ _ => preserves_prim
  end.

Ltac preserves_auto := repeat preserves_step.

Create HintDb preserves.

(** Case analysis on every test a computation makes, for the
    computations without loops. *)
Ltac split_tests :=
  repeat (cbn; match goal with
               | |- context [if ?b then _ else _] => destruct b eqn:?
               | |- context [match Name ?i with _ => _ end] =>
                   destruct (Name i) eqn:?
               end).

Section Frames.

Variable sdk : Sdk.

Lemma stop_stream_keeps_settings : keeps settings (stop_stream sdk).
Proof. unfold stop_stream. keeps_auto. Qed.

Lemma start_stream_keeps_settings : keeps settings (start_stream sdk).
Proof. unfold start_stream. keeps_auto. Qed.

Lemma stop_stream_keeps_frames : keeps frames (stop_stream sdk).
Proof. unfold stop_stream. keeps_auto. Qed.

Lemma start_stream_keeps_frames : keeps frames (start_stream sdk).
Proof. unfold start_stream. keeps_auto. Qed.

Lemma stop_stream_keeps_handle : keeps handle (stop_stream sdk).
Proof. unfold stop_stream. keeps_auto. Qed.

Lemma start_stream_keeps_handle : keeps handle (start_stream sdk).
Proof. unfold start_stream. keeps_auto. Qed.

Lemma stop_stream_extends : extends (stop_stream sdk).
Proof. unfold stop_stream. extends_auto. Qed.

Lemma start_stream_extends : extends (start_stream sdk).
Proof. unfold start_stream. extends_auto. Qed.

Lemma wait_idle_keeps_frames fuel id status timeout :
  keeps frames (wait_idle sdk fuel id status timeout).
Proof.
  revert status timeout.
  induction fuel as [| fuel IH]; intros status timeout; cbn; keeps_auto.
Qed.

Lemma wait_exposure_keeps_frames fuel id status timeout max_timeout :
  keeps frames (wait_exposure sdk fuel id status timeout max_timeout).
Proof.
  revert status timeout.
  induction fuel as [| fuel IH]; intros status timeout; cbn; keeps_auto.
Qed.

Lemma wait_idle_extends fuel id status timeout :
  extends (wait_idle sdk fuel id status timeout).
Proof.
  revert status timeout.
  induction fuel as [| fuel IH]; intros status timeout; cbn; extends_auto.
Qed.

Lemma wait_exposure_extends fuel id status timeout max_timeout :
  extends (wait_exposure sdk fuel id status timeout max_timeout).
Proof.
  revert status timeout.
  induction fuel as [| fuel IH]; intros status timeout; cbn; extends_auto.
Qed.

Lemma wait_idle_keeps_state fuel id status timeout :
  keeps camera_state (wait_idle sdk fuel id status timeout).
Proof.
  revert status timeout.
  induction fuel as [| fuel IH]; intros status timeout; cbn; keeps_auto.
Qed.

Lemma wait_idle_keeps_camera fuel id status timeout :
  keeps camera (wait_idle sdk fuel id status timeout).
Proof.
  revert status timeout.
  induction fuel as [| fuel IH]; intros status timeout; cbn; keeps_auto.
Qed.

Lemma wait_exposure_keeps_state fuel id status timeout max_timeout :
  keeps camera_state (wait_exposure sdk fuel id status timeout max_timeout).
Proof.
  revert status timeout.
  induction fuel as [| fuel IH]; intros status timeout; cbn; keeps_auto.
Qed.

Lemma wait_exposure_keeps_camera fuel id status timeout max_timeout :
  keeps camera (wait_exposure sdk fuel id status timeout max_timeout).
Proof.
  revert status timeout.
  induction fuel as [| fuel IH]; intros status timeout; cbn; keeps_auto.
Qed.

Lemma keeps_variables {A} (m : M A) :
  keeps camera_state m -> keeps camera m -> keeps variables m.
Proof. intros H1 H2 w. unfold variables. rewrite H1, H2. reflexivity. Qed.

Lemma wait_idle_keeps_variables fuel id status timeout :
  keeps variables (wait_idle sdk fuel id status timeout).
Proof.
  apply keeps_variables;
    [apply wait_idle_keeps_state | apply wait_idle_keeps_camera].
Qed.

Lemma wait_exposure_keeps_variables fuel id status timeout max_timeout :
  keeps variables (wait_exposure sdk fuel id status timeout max_timeout).
Proof.
  apply keeps_variables;
    [apply wait_exposure_keeps_state | apply wait_exposure_keeps_camera].
Qed.

#[local] Hint Resolve stop_stream_keeps_settings start_stream_keeps_settings
  stop_stream_keeps_frames start_stream_keeps_frames
  wait_idle_keeps_frames wait_exposure_keeps_frames
  wait_idle_keeps_state wait_idle_keeps_camera
  wait_exposure_keeps_state wait_exposure_keeps_camera
  wait_idle_keeps_variables wait_exposure_keeps_variables : keeps.
#[local] Hint Resolve stop_stream_extends start_stream_extends
  wait_idle_extends wait_exposure_extends : extends.

(** [capture_snapshot] changes neither [camera_state] nor the camera
    object: its whole effect is on the device. *)
Lemma capture_snapshot_keeps_state : keeps camera_state (capture_snapshot sdk).
Proof. unfold capture_snapshot, await_idle, expose. keeps_auto. Qed.

Lemma capture_snapshot_keeps_camera : keeps camera (capture_snapshot sdk).
Proof. unfold capture_snapshot, await_idle, expose. keeps_auto. Qed.

Lemma capture_snapshot_keeps_variables :
  keeps variables (capture_snapshot sdk).
Proof.
  apply keeps_variables;
    [apply capture_snapshot_keeps_state | apply capture_snapshot_keeps_camera].
Qed.

Lemma capture_snapshot_keeps_frames : keeps frames (capture_snapshot sdk).
Proof. unfold capture_snapshot, await_idle, expose. keeps_auto. Qed.

Lemma capture_snapshot_keeps_settings : keeps settings (capture_snapshot sdk).
Proof.
  intros w. unfold settings. rewrite capture_snapshot_keeps_state.
  reflexivity.
Qed.

Lemma capture_snapshot_extends : extends (capture_snapshot sdk).
Proof. unfold capture_snapshot, await_idle, expose. extends_auto. Qed.

#[local] Hint Resolve capture_snapshot_keeps_frames
  capture_snapshot_keeps_settings : keeps.
#[local] Hint Resolve capture_snapshot_extends : extends.

Lemma snapshot_keeps_frames : keeps frames (snapshot sdk).
Proof. unfold snapshot, snapshot_capture. keeps_auto. Qed.

Lemma snapshot_keeps_settings : keeps settings (snapshot sdk).
Proof. unfold snapshot, snapshot_capture. keeps_auto. Qed.

Lemma connect_keeps_frames : keeps frames (connect sdk).
Proof. unfold connect, connect_try. keeps_auto. Qed.

Lemma connect_keeps_settings : keeps settings (connect sdk).
Proof. unfold connect, connect_try. keeps_auto. Qed.

Lemma disconnect_keeps_frames : keeps frames (disconnect sdk).
Proof. unfold disconnect. keeps_auto. Qed.

Lemma disconnect_keeps_settings : keeps settings (disconnect sdk).
Proof. unfold disconnect. keeps_auto. Qed.

#[local] Hint Resolve connect_keeps_frames disconnect_keeps_frames
  connect_keeps_settings disconnect_keeps_settings : keeps.

Lemma update_settings_keeps_frames data :
  keeps frames (update_settings sdk data).
Proof.
  unfold update_settings, settings_gain, settings_photo_exposure,
    settings_video_exposure.
  keeps_auto.
Qed.

Lemma update_settings_keeps_handle data :
  keeps handle (update_settings sdk data).
Proof.
  pose proof stop_stream_keeps_handle. pose proof start_stream_keeps_handle.
  unfold update_settings, settings_gain, settings_photo_exposure,
    settings_video_exposure.
  keeps_auto.
Qed.

Lemma connect_camera_keeps_frames : keeps frames (connect_camera sdk).
Proof. unfold connect_camera. keeps_auto. Qed.

Lemma disconnect_camera_keeps_frames : keeps frames (disconnect_camera sdk).
Proof. unfold disconnect_camera. keeps_auto. Qed.

Lemma route_start_stream_keeps_frames :
  keeps frames (route_start_stream sdk).
Proof. unfold route_start_stream. keeps_auto. Qed.

Lemma route_stop_stream_keeps_frames : keeps frames (route_stop_stream sdk).
Proof. unfold route_stop_stream. keeps_auto. Qed.

Lemma get_status_keeps_world now1 now2 w :
  snd (get_status now1 now2 w) = w.
Proof. reflexivity. Qed.

End Frames.

(** ** The video-pull loop *)

Section CaptureLoop.

Variable sdk : Sdk.

Lemma capture_loop_body_keeps_flags width height buffer_size errors :
  keeps loop_flags (capture_loop_body sdk width height buffer_size errors).
Proof. unfold capture_loop_body. keeps_auto. Qed.

Lemma capture_loop_body_keeps_settings width height buffer_size errors :
  keeps settings (capture_loop_body sdk width height buffer_size errors).
Proof. unfold capture_loop_body. keeps_auto. Qed.

(** The counter after one pass: reset on success, unchanged on result
    2, one more on any other result. *)
Lemma capture_loop_body_counter width height buffer_size errors w :
  fst (capture_loop_body sdk width height buffer_size errors w) =
    match video_data_result sdk buffer_size w with
    | Ok result =>
        Ok (if result =? ASI_SUCCESS then 0
            else if result =? 2 then errors
            else errors + 1)
    | Raise e => Raise e
    end.
Proof.
  unfold video_data_result, capture_loop_body.
  destruct w as [st cam tr]. unfold_monad. cbn.
  destruct (timeout_ms (video_exposure st)) as [t | e]; [| reflexivity].
  cbn.
  destruct (sdk_ret sdk tr _ =? ASI_SUCCESS); cbn; [reflexivity |].
  destruct (sdk_ret sdk tr _ =? 2); cbn; [reflexivity |].
  destruct ((errors + 1 =? 1) || ((errors + 1) mod 10 =? 0)); reflexivity.
Qed.

(** The events of one pass: the data call, the error line on the 1st and
    on every 10th consecutive error, and the 10 ms pause. *)
Lemma capture_loop_body_trace width height buffer_size errors t w :
  timeout_ms (video_exposure (camera_state w)) = Ok t ->
  let call :=
    ASIGetVideoData (self_camera_id (camera w)) buffer_size t in
  let result := sdk_ret sdk (trace w) call in
  trace (snd (capture_loop_body sdk width height buffer_size errors w)) =
    trace w ++ [Call call] ++
    (if negb (result =? ASI_SUCCESS) && negb (result =? 2) &&
        ((errors + 1 =? 1) || ((errors + 1) mod 10 =? 0))
     then [Print (video_error_message result (errors + 1))]
     else []) ++
    [Sleep 10].
Proof.
  intros Ht. unfold capture_loop_body.
  destruct w as [st cam tr]. unfold_monad. cbn in *. rewrite Ht. cbn.
  destruct (sdk_ret sdk tr _ =? ASI_SUCCESS); cbn;
    [rewrite <- app_assoc; reflexivity |].
  destruct (sdk_ret sdk tr _ =? 2); cbn;
    [rewrite <- app_assoc; reflexivity |].
  destruct ((errors + 1 =? 1) || ((errors + 1) mod 10 =? 0)); cbn;
    rewrite <- ?app_assoc; reflexivity.
Qed.

Lemma capture_loop_body_returns width height buffer_size errors w :
  to_float_ok (video_exposure (camera_state w)) = true ->
  exists k,
    fst (capture_loop_body sdk width height buffer_size errors w) = Ok k.
Proof.
  intros H. rewrite capture_loop_body_counter. unfold video_data_result.
  unfold timeout_ms. rewrite H. eexists. reflexivity.
Qed.

(** No SDK result ends the loop: while the other threads leave the two
    flags set (and the cap has a double), the loop is still running
    after any number of passes. *)
Lemma capture_loop_only_stopped_by_flags (n : nat) width height buffer_size
    errors w :
  loop_flags w = (true, true) ->
  to_float_ok (video_exposure (camera_state w)) = true ->
  exists k,
    fst (capture_loop_from sdk (repeat (ret tt) n) width height
           buffer_size errors w) = Ok (false, k).
Proof.
  revert errors w.
  induction n as [| n IH]; intros errors w Hf Hc;
    cbn [capture_loop_from repeat]; [eexists; reflexivity |].
  rewrite !bind_run. cbn [ret get_self fst snd].
  unfold loop_flags in Hf. injection Hf as Hs Ho. rewrite Hs, Ho. cbn [andb].
  rewrite bind_ok_run.
  destruct (capture_loop_body_returns width height buffer_size errors w Hc)
    as [k Hk].
  rewrite Hk. apply IH.
  - rewrite capture_loop_body_keeps_flags. unfold loop_flags. congruence.
  - pose proof (capture_loop_body_keeps_settings width height buffer_size
                  errors w) as Hset.
    unfold settings in Hset. injection Hset as _ _ Hv. rewrite Hv. exact Hc.
Qed.

(** The stop signal ends it at the next test of the condition. *)
Lemma capture_loop_stopped_by_signal rest width height buffer_size errors w :
  fst (capture_loop_from sdk (upd_self (set_self_streaming false) :: rest)
         width height buffer_size errors w) = Ok (true, errors).
Proof. destruct w as [st [] tr]. reflexivity. Qed.

(** The frame variables after one pass. *)
Lemma capture_loop_body_frames (width height buffer_size errors : Z)
    (w : World) :
  let r := capture_loop_body sdk width height buffer_size errors w in
  let img := mkImage width height (sdk_buffer sdk (trace w)) in
  (video_data_result sdk buffer_size w = Ok ASI_SUCCESS ->
   fst r = Ok 0 /\ frames (snd r) = (Some img, Some img)) /\
  (video_data_result sdk buffer_size w <> Ok ASI_SUCCESS ->
   frames (snd r) = frames w).
Proof.
  unfold video_data_result, capture_loop_body, frames.
  destruct w as [[] [] tr]. unfold_monad. cbn.
  destruct (timeout_ms video_exposure0) as [t | e]; cbn.
  2:{ split; [discriminate | reflexivity]. }
  destruct (sdk_ret sdk tr _ =? ASI_SUCCESS) eqn:H0; cbn.
  - apply Z.eqb_eq in H0. split; [auto | intros H; congruence].
  - apply Z.eqb_neq in H0. split; [intros H; congruence |].
    intros _.
    destruct (sdk_ret sdk tr _ =? 2); cbn; [reflexivity |].
    destruct ((errors + 1 =? 1) || ((errors + 1) mod 10 =? 0)); reflexivity.
Qed.

(** X17. A pass of the loop stores a frame exactly when
    [ASIGetVideoData] succeeds: then [camera.frame_buffer] and
    [camera_state['current_frame']] hold the same new image, built from
    the buffer with the width and height read when the loop started,
    and the error counter is 0; on any other result, and when the pass
    raises before the call, both variables keep what they held. *)
Theorem capture_loop_body_stores_frame (width height buffer_size errors : Z)
    (w : World) :
  let r := capture_loop_body sdk width height buffer_size errors w in
  let img := mkImage width height (sdk_buffer sdk (trace w)) in
  (video_data_result sdk buffer_size w = Ok ASI_SUCCESS ->
   fst r = Ok 0 /\ frames (snd r) = (Some img, Some img)) /\
  (video_data_result sdk buffer_size w <> Ok ASI_SUCCESS ->
   frames (snd r) = frames w).
Proof. apply capture_loop_body_frames. Qed.

Lemma capture_loop_body_error width height buffer_size errors code t w :
  timeout_ms (video_exposure (camera_state w)) = Ok t ->
  sdk_ret sdk (trace w)
    (ASIGetVideoData (self_camera_id (camera w)) buffer_size t) = code ->
  code <> ASI_SUCCESS -> code <> 2 ->
  capture_loop_body sdk width height buffer_size errors w =
    (Ok (errors + 1),
     mkWorld (camera_state w) (camera w)
       (trace w ++
        error_pass_trace
          (ASIGetVideoData (self_camera_id (camera w)) buffer_size t)
          code (errors + 1))).
Proof.
  unfold capture_loop_body, error_pass_trace, log_due.
  intros Ht Hc H0 H2. destruct w as [st cam tr]. unfold_monad. cbn in *.
  rewrite Ht. cbn.
  rewrite Hc. apply Z.eqb_neq in H0, H2. rewrite H0, H2. cbn.
  destruct ((errors + 1 =? 1) || ((errors + 1) mod 10 =? 0)); cbn;
    rewrite <- ?app_assoc; reflexivity.
Qed.

(** X18. While [ASIGetVideoData] keeps failing with a code other than
    2, [n] passes of the loop raise the error counter by [n], change no
    variable, and print the error line for the k-th consecutive error
    exactly when k = 1 or k is a multiple of 10; the loop goes on
    running.  This is for a cap that has a double ([t] is the timeout
    computed from it); with any other cap the first pass raises
    [OverflowError] before any call and the thread ends. *)
Theorem capture_loop_error_run (code : Z) (n : nat)
    (width height buffer_size errors : Z) (w : World) :
  (forall h id size t, sdk_ret sdk h (ASIGetVideoData id size t) = code) ->
  code <> ASI_SUCCESS -> code <> 2 ->
  loop_flags w = (true, true) ->
  (forall t,
     timeout_ms (video_exposure (camera_state w)) = Ok t ->
     capture_loop_from sdk (repeat (ret tt) n) width height buffer_size
                       errors w
     = (Ok (false, errors + Z.of_nat n),
        mkWorld (camera_state w) (camera w)
          (trace w ++
           flat_map (error_pass_trace
                       (ASIGetVideoData (self_camera_id (camera w))
                                        buffer_size t) code)
                    (counters errors n)))) /\
  (to_float_ok (video_exposure (camera_state w)) = false ->
   forall rest,
     capture_loop_from sdk (ret tt :: rest) width height buffer_size errors w
     = (Raise OverflowError, w)).
Proof.
  intros Hcode H0 H2 Hf. split.
  - intros t Ht. revert errors w Hf Ht.
    induction n as [| n IH]; intros errors w Hf Ht;
      cbn [capture_loop_from repeat counters flat_map].
    + cbn. rewrite app_nil_r, Z.add_0_r. destruct w. reflexivity.
    + rewrite !bind_run. cbn [ret get_self fst snd].
      unfold loop_flags in Hf. injection Hf as Hs Ho. rewrite Hs, Ho.
      cbn [andb]. rewrite bind_ok_run.
      rewrite (capture_loop_body_error width height buffer_size errors code
                 t w)
        by (auto; apply Hcode).
      cbn [fst snd].
      rewrite IH by (first [exact Ht | unfold loop_flags; cbn; congruence]).
      cbn [camera_state camera trace].
      rewrite <- app_assoc.
      replace (errors + 1 + Z.of_nat n) with (errors + Z.of_nat (S n)) by lia.
      reflexivity.
  - intros Hno rest. cbn [capture_loop_from].
    rewrite !bind_run. cbn [ret get_self fst snd].
    unfold loop_flags in Hf. injection Hf as Hs Ho. rewrite Hs, Ho.
    cbn [andb]. rewrite bind_ok_run.
    rewrite (capture_loop_body_overflow sdk width height buffer_size errors w
               Hno).
    reflexivity.
Qed.

End CaptureLoop.

(** C1. With [ASIGetVideoData] answering 11, which the table
    [error_names] of this file names ASI_ERROR_TIMEOUT, a pass of the
    loop (one that computes its timeout) counts one more consecutive
    error (and prints the error line when it is the first); with it
    answering 2, which the table names ASI_ERROR_INVALID_ID, the counter
    stays as it was. *)
Theorem capture_loop_counts_timeout (width height buffer_size errors : Z)
    (w : World) :
  to_float_ok (video_exposure (camera_state w)) = true ->
  error_names !! 11 = Some "ASI_ERROR_TIMEOUT" /\
  error_names !! 2 = Some "ASI_ERROR_INVALID_ID" /\
  fst (capture_loop_body (video_data_device 11) width height buffer_size
         errors w) = Ok (errors + 1) /\
  fst (capture_loop_body (video_data_device 2) width height buffer_size
         errors w) = Ok errors /\
  In (Print (video_error_message 11 1))
     (trace (snd (capture_loop_body (video_data_device 11) width height
                    buffer_size 0 w))).
Proof.
  intros Hok.
  assert (Ht : exists t, timeout_ms (video_exposure (camera_state w)) = Ok t)
    by (unfold timeout_ms; rewrite Hok; eexists; reflexivity).
  destruct Ht as [t Ht].
  split; [reflexivity |]. split; [reflexivity |].
  split; [| split].
  - rewrite capture_loop_body_counter. unfold video_data_result.
    rewrite Ht. reflexivity.
  - rewrite capture_loop_body_counter. unfold video_data_result.
    rewrite Ht. reflexivity.
  - rewrite (capture_loop_body_trace _ _ _ _ _ t w Ht). cbn.
    apply in_or_app. right. right. left. reflexivity.
Qed.

Lemma capture_loop_counts_timeout_witness :
  to_float_ok (video_exposure (camera_state streaming_world)) = true /\
  fst (capture_loop_body (video_data_device 11) 2 1 6 0 streaming_world) =
    Ok 1 /\
  fst (capture_loop_body (video_data_device 2) 2 1 6 0 streaming_world) =
    Ok 0.
Proof.
  assert (H : to_float_ok (video_exposure (camera_state streaming_world))
              = true) by (vm_compute; reflexivity).
  split; [exact H |].
  destruct (capture_loop_counts_timeout 2 1 6 0 streaming_world H)
    as (_ & _ & H1 & H2 & _).
  split; [exact H1 | exact H2].
Defined.

Lemma capture_loop_body_stores_frame_witness :
  video_data_result healthy_device 6 streaming_world = Ok ASI_SUCCESS /\
  frames (snd (capture_loop_body healthy_device 2 1 6 3 streaming_world)) =
    (Some (mkImage 2 1 [Byte.x01; Byte.x02; Byte.x03;
                        Byte.x04; Byte.x05; Byte.x06]),
     Some (mkImage 2 1 [Byte.x01; Byte.x02; Byte.x03;
                        Byte.x04; Byte.x05; Byte.x06])).
Proof.
  assert (H : video_data_result healthy_device 6 streaming_world
              = Ok ASI_SUCCESS) by (vm_compute; reflexivity).
  split; [exact H |].
  destruct (capture_loop_body_stores_frame healthy_device 2 1 6 3
              streaming_world) as [H1 _].
  destruct (H1 H) as [_ H2]. exact H2.
Defined.

Lemma capture_loop_error_run_witness :
  timeout_ms (video_exposure (camera_state streaming_world)) = Ok 1000 /\
  fst (capture_loop_from (video_data_device 16) (repeat (ret tt) 12)
         2 1 6 0 streaming_world) = Ok (false, 12) /\
  filter is_print
    (trace (snd (capture_loop_from (video_data_device 16)
                   (repeat (ret tt) 12) 2 1 6 0 streaming_world))) =
    [Print (video_error_message 16 1); Print (video_error_message 16 10)].
Proof.
  assert (Ht : timeout_ms (video_exposure (camera_state streaming_world))
               = Ok 1000) by (vm_compute; reflexivity).
  split; [exact Ht |].
  pose proof (proj1 (capture_loop_error_run (video_data_device 16) 16 12
                       2 1 6 0 streaming_world
                       (fun _ _ _ _ => eq_refl)
                       ltac:(discriminate) ltac:(discriminate) eq_refl)
                1000 Ht) as H.
  rewrite H. split; [reflexivity |]. vm_compute. reflexivity.
Defined.

(** ** capture_snapshot *)

Section Capture.

Variable sdk : Sdk.

#[local] Hint Resolve wait_idle_keeps_state wait_idle_keeps_camera
  wait_exposure_keeps_state wait_exposure_keeps_camera
  wait_idle_keeps_variables wait_exposure_keeps_variables : keeps.
#[local] Hint Resolve wait_idle_extends wait_exposure_extends : extends.

Lemma await_idle_keeps_state id : keeps camera_state (await_idle sdk id).
Proof. unfold await_idle. keeps_auto. Qed.

Lemma await_idle_keeps_camera id : keeps camera (await_idle sdk id).
Proof. unfold await_idle. keeps_auto. Qed.

Lemma await_idle_extends id : extends (await_idle sdk id).
Proof. unfold await_idle. extends_auto. Qed.

Lemma expose_keeps_state id e : keeps camera_state (expose sdk id e).
Proof. unfold expose. keeps_auto. Qed.

Lemma expose_keeps_camera id e : keeps camera (expose sdk id e).
Proof. unfold expose. keeps_auto. Qed.

Lemma expose_extends id e : extends (expose sdk id e).
Proof. unfold expose. extends_auto. Qed.

Lemma capture_snapshot_not_open (w : World) :
  self_is_open (camera w) = false ->
  capture_snapshot sdk w =
    (Ok None,
     mkWorld (camera_state w) (camera w)
             (trace w ++ [Print "[capture_snapshot] Camera not open"])).
Proof.
  intros H. destruct w as [? [] ?]. cbn in H. subst. reflexivity.
Qed.

(** [capture_snapshot] on an open handle, stage by stage: the idle
    wait, the two control writes (each refused by [ctypes] when the
    stored value does not fit), the exposure. *)
Lemma capture_snapshot_open (w : World) :
  self_is_open (camera w) = true ->
  let id := self_camera_id (camera w) in
  let e := exposure (camera_state w) in
  let g := gain (camera_state w) in
  let w0 := snd (await_idle sdk id w) in
  let w1 := mkWorld (camera_state w) (camera w)
              (trace w0 ++
               [Call (ASISetControlValue id ASI_EXPOSURE e ASI_FALSE)]) in
  let w2 := mkWorld (camera_state w) (camera w)
              (trace w0 ++
               [Call (ASISetControlValue id ASI_EXPOSURE e ASI_FALSE);
                Call (ASISetControlValue id ASI_GAIN g ASI_FALSE)]) in
  capture_snapshot sdk w =
    if ctypes_int_ok e then
      if ctypes_int_ok g then
        (Ok (fst (expose sdk id e w2)), snd (expose sdk id e w2))
      else (Raise (ArgumentError 3), w1)
    else
      (Raise (ArgumentError 3),
       mkWorld (camera_state w) (camera w) (trace w0)).
Proof.
  intros Hopen id e g w0 w1 w2.
  unfold capture_snapshot. rewrite bind_run. cbn [get_self fst snd].
  rewrite Hopen. cbn [negb]. fold id.
  rewrite bind_run. fold w0.
  rewrite bind_run. cbn [get_state fst snd].
  assert (Hst : camera_state w0 = camera_state w)
    by apply await_idle_keeps_state.
  assert (Hcam : camera w0 = camera w) by apply await_idle_keeps_camera.
  rewrite Hst. fold e. fold g.
  rewrite bind_ok_run. unfold asi_int.
  destruct (ctypes_int_ok e) eqn:He.
  - rewrite bind_run. cbn [asi ret fst snd]. rewrite Hst, Hcam.
    rewrite bind_ok_run.
    destruct (ctypes_int_ok g) eqn:Hg.
    + rewrite bind_run. cbn [asi ret fst snd camera_state camera trace].
      rewrite bind_ok_run. unfold print_quotient.
      rewrite (ctypes_int_true_divide e 1000000 ltac:(lia) He).
      cbn [ret fst snd]. rewrite bind_run.
      unfold w2. rewrite <- app_assoc. reflexivity.
    + reflexivity.
  - cbn [ret fst snd]. destruct w0 as [st0 cam0 tr0]. cbn in *.
    subst. reflexivity.
Qed.

(** ** The idle wait *)

(** The idle wait leaves through its condition (idle, or 10 s elapsed);
    with the 100 passes of [capture_snapshot] the fuel is never what
    stops it. *)
Lemma wait_idle_exit fuel id status timeout w :
  10000 - timeout <= 100 * Z.of_nat fuel ->
  let r := wait_idle sdk fuel id status timeout w in
  fst (fst r) = 0 \/ 10000 <= snd (fst r).
Proof.
  revert status timeout w.
  induction fuel as [| fuel IH]; intros status timeout w Hfuel; cbn.
  - right. lia.
  - destruct (status =? 0) eqn:Hs; cbn [negb andb].
    + left. apply Z.eqb_eq. exact Hs.
    + destruct (timeout <? 10000) eqn:Hlt.
      * apply Z.ltb_lt in Hlt. rewrite !bind_run. apply IH. lia.
      * right. apply Z.ltb_ge. exact Hlt.
Qed.

Lemma wait_idle_never_idle fuel id status timeout w :
  (forall h old, sdk_exp_status sdk h old <> 0) ->
  status <> 0 ->
  timeout + 100 * Z.of_nat fuel <= 10000 ->
  let r := wait_idle sdk fuel id status timeout w in
  fst (fst r) <> 0 /\
  trace (snd r) = trace w ++ idle_poll_trace id fuel /\
  camera_state (snd r) = camera_state w.
Proof.
  intros Hnever. revert status timeout w.
  induction fuel as [| fuel IH]; intros status timeout w Hst Hfuel;
    cbn [wait_idle idle_poll_trace].
  - cbn. rewrite app_nil_r. auto.
  - apply Z.eqb_neq in Hst. rewrite Hst. cbn [negb andb].
    assert (Hlt : (timeout <? 10000) = true) by (apply Z.ltb_lt; lia).
    rewrite Hlt, !bind_run. cbn [time_sleep emit get_exp_status fst snd
                                 camera_state camera trace].
    destruct (IH (sdk_exp_status sdk (trace w ++ [Sleep 100]) status)
                 (timeout + 100)
                 (mkWorld (camera_state w) (camera w)
                    ((trace w ++ [Sleep 100]) ++ [Call (ASIGetExpStatus id)])))
      as (H1 & H2 & H3); [apply Hnever | lia |].
    split; [exact H1 | split].
    + rewrite H2. cbn. rewrite <- !app_assoc. reflexivity.
    + rewrite H3. reflexivity.
Qed.

Lemma await_idle_when_idle id w :
  sdk_exp_status sdk (trace w) 0 = 0 ->
  trace (snd (await_idle sdk id w)) = trace w ++ [Call (ASIGetExpStatus id)].
Proof.
  intros H. unfold await_idle. rewrite bind_run.
  cbn [get_exp_status fst snd]. rewrite H. reflexivity.
Qed.

Lemma await_idle_never_idle id w :
  (forall h old, sdk_exp_status sdk h old <> 0) ->
  trace (snd (await_idle sdk id w)) =
    trace w ++ Call (ASIGetExpStatus id) :: idle_poll_trace id 100 ++
    [Call (ASIStopExposure id); Sleep 500].
Proof.
  intros Hnever. unfold await_idle. rewrite bind_run.
  cbn [get_exp_status fst snd].
  assert (Hs := Hnever (trace w) 0). apply Z.eqb_neq in Hs. rewrite Hs.
  apply Z.eqb_neq in Hs. cbn [negb].
  rewrite bind_run.
  destruct (wait_idle_never_idle 100 id (sdk_exp_status sdk (trace w) 0) 0
              (mkWorld (camera_state w) (camera w)
                 (trace w ++ [Call (ASIGetExpStatus id)])) Hnever Hs)
    as (H1 & H2 & H3); [lia |].
  apply Z.eqb_neq in H1. rewrite H1. cbn [negb].
  rewrite bind_run. cbn [asi time_sleep emit fst snd camera_state trace].
  rewrite H2. cbn [trace]. rewrite <- !app_assoc. reflexivity.
Qed.

Lemma expose_starts id e w :
  exists post,
    trace (snd (expose sdk id e w)) =
      trace w ++ Call (ASIStartExposure id 0) :: post.
Proof.
  unfold expose. rewrite bind_run. cbn [asi fst snd].
  match goal with
  | |- context [snd (?m ?w0)] =>
      lazymatch m with
      | (if _ then _ else _) =>
          destruct (hoare_prefix (trace w0) m) with (w := w0)
            as [post Hpost]; [| reflexivity |]
      end
  end.
  - extends_auto.
  - exists post. rewrite Hpost. cbn [trace]. rewrite <- app_assoc.
    reflexivity.
Qed.


(** ** The exposure wait *)

Lemma exposure_polls_fuel (max_timeout : Z) :
  max_timeout <= 100 * Z.of_nat (exposure_polls max_timeout).
Proof.
  unfold exposure_polls.
  destruct (Z.le_gt_cases max_timeout 0) as [H | H]; [lia |].
  rewrite Z2Nat.id by (apply Z.div_pos; lia).
  pose proof (Z.div_mod (max_timeout + 99) 100 ltac:(lia)).
  pose proof (Z.mod_pos_bound (max_timeout + 99) 100 ltac:(lia)).
  lia.
Qed.

Lemma exposure_polls_step (x : Z) (n : nat) :
  exposure_polls x = S n -> 0 < x /\ exposure_polls (x - 100) = n.
Proof.
  unfold exposure_polls. intros H.
  assert (Hq : (x - 100 + 99) / 100 = (x + 99) / 100 - 1).
  { replace (x - 100 + 99) with (x + 99 + (-1) * 100) by lia.
    rewrite Z.div_add by lia. lia. }
  rewrite Hq.
  assert (0 < (x + 99) / 100) by lia.
  split; [| lia].
  destruct (Z.le_gt_cases x 0) as [Hx | Hx]; [| exact Hx].
  assert ((x + 99) / 100 <= 99 / 100) by (apply Z.div_le_mono; lia).
  change (99 / 100) with 0 in *. lia.
Qed.

Lemma exposure_polls_bound (max_timeout : Z) :
  100 * Z.of_nat (exposure_polls max_timeout) <= Z.max 0 (max_timeout + 99).
Proof.
  unfold exposure_polls.
  pose proof (Z.mul_div_le (max_timeout + 99) 100 ltac:(lia)).
  lia.
Qed.

(** The loop leaves only through its [break] (status 2, before the
    deadline) or through its condition (deadline reached, status not 2);
    the fuel is never what stops it. *)
Lemma wait_exposure_exit fuel id status timeout max_timeout w :
  status <> 2 ->
  max_timeout - timeout <= 100 * Z.of_nat fuel ->
  let r := wait_exposure sdk fuel id status timeout max_timeout w in
  (fst (fst r) = 2 /\ snd (fst r) < max_timeout) \/
  (fst (fst r) <> 2 /\ max_timeout <= snd (fst r)).
Proof.
  revert status timeout w.
  induction fuel as [| fuel IH]; intros status timeout w Hst Hfuel; cbn.
  - right. split; [exact Hst | lia].
  - destruct (timeout <? max_timeout) eqn:Hlt.
    + apply Z.ltb_lt in Hlt. rewrite bind_run. cbn [get_exp_status fst snd].
      destruct (sdk_exp_status sdk (trace w) status =? 2) eqn:H2.
      * apply Z.eqb_eq in H2. left. cbn. split; [exact H2 | exact Hlt].
      * apply Z.eqb_neq in H2. rewrite bind_run. apply IH; [exact H2 | lia].
    + apply Z.ltb_ge in Hlt. right. cbn. split; [exact Hst | exact Hlt].
Qed.

(** The wait ends at the first poll that reports status 2 before the
    deadline: [k] polls that reported something else, each followed by
    the 100 ms pause, then the poll that reports 2, and nothing after
    it. *)
Lemma wait_exposure_first_success (k : nat) fuel id status timeout
    max_timeout w :
  (forall j, (j < k)%nat -> poll_status sdk id (trace w) status j <> 2) ->
  poll_status sdk id (trace w) status k = 2 ->
  timeout + 100 * Z.of_nat k < max_timeout ->
  (k < fuel)%nat ->
  wait_exposure sdk fuel id status timeout max_timeout w =
    ((2, timeout + 100 * Z.of_nat k),
     mkWorld (camera_state w) (camera w)
       (trace w ++ poll_trace id k ++ [Call (ASIGetExpStatus id)])).
Proof.
  revert fuel status timeout w.
  induction k as [| k IH]; intros fuel status timeout w Hbefore Hk Hlt Hfuel;
    (destruct fuel as [| fuel]; [lia |]); cbn [wait_exposure poll_trace].
  - assert (Ht : (timeout <? max_timeout) = true) by (apply Z.ltb_lt; lia).
    rewrite Ht, bind_run. cbn [get_exp_status fst snd].
    cbn [poll_status] in Hk. rewrite Hk. cbn.
    do 3 f_equal. lia.
  - assert (Ht : (timeout <? max_timeout) = true) by (apply Z.ltb_lt; lia).
    rewrite Ht, bind_run. cbn [get_exp_status fst snd].
    assert (H0 := Hbefore 0%nat ltac:(lia)). cbn [poll_status] in H0.
    apply Z.eqb_neq in H0. rewrite H0. rewrite bind_run.
    cbn [time_sleep emit fst snd camera_state camera trace].
    rewrite (IH fuel (sdk_exp_status sdk (trace w) status) (timeout + 100)).
    + cbn [camera_state camera trace]. rewrite <- !app_assoc. cbn.
      replace (timeout + 100 * Z.of_nat (S k))
        with (timeout + 100 + 100 * Z.of_nat k) by lia.
      reflexivity.
    + intros j Hj. cbn [trace]. rewrite <- app_assoc.
      apply (Hbefore (S j)). lia.
    + cbn [trace]. rewrite <- app_assoc. exact Hk.
    + lia.
    + lia.
Qed.

(** While no poll reports status 2 the loop polls until the deadline,
    whatever else the status is (3, ASI_EXP_FAILED, included). *)
Lemma wait_exposure_no_success fuel id status timeout max_timeout w :
  (forall j, (j < fuel)%nat -> poll_status sdk id (trace w) status j <> 2) ->
  status <> 2 ->
  fuel = exposure_polls (max_timeout - timeout) ->
  let r := wait_exposure sdk fuel id status timeout max_timeout w in
  fst (fst r) <> 2 /\
  max_timeout <= snd (fst r) /\
  trace (snd r) = trace w ++ poll_trace id fuel /\
  camera_state (snd r) = camera_state w.
Proof.
  revert status timeout w.
  induction fuel as [| fuel IH]; intros status timeout w Hnever Hst Hfuel;
    cbn [wait_exposure poll_trace].
  - cbn. rewrite app_nil_r.
    pose proof (exposure_polls_fuel (max_timeout - timeout)).
    rewrite <- Hfuel in *. repeat split; auto. lia.
  - symmetry in Hfuel. apply exposure_polls_step in Hfuel.
    destruct Hfuel as [Hpos Hfuel].
    assert (Hlt : (timeout <? max_timeout) = true) by (apply Z.ltb_lt; lia).
    rewrite Hlt, bind_run. cbn [get_exp_status fst snd].
    assert (Hn := Hnever 0%nat ltac:(lia)). cbn [poll_status] in Hn.
    apply Z.eqb_neq in Hn. rewrite Hn. rewrite bind_run.
    apply Z.eqb_neq in Hn.
    cbn [time_sleep emit fst snd camera_state camera trace].
    destruct (IH (sdk_exp_status sdk (trace w) status) (timeout + 100)
                 (mkWorld (camera_state w) (camera w)
                    ((trace w ++ [Call (ASIGetExpStatus id)]) ++ [Sleep 100])))
      as (H1 & H2 & H3 & H4).
    + intros j Hj. cbn [trace]. rewrite <- app_assoc.
      apply (Hnever (S j)). lia.
    + exact Hn.
    + rewrite <- Hfuel. f_equal. lia.
    + split; [exact H1 | split; [exact H2 | split]].
      * rewrite H3. cbn. rewrite <- !app_assoc. reflexivity.
      * rewrite H4. reflexivity.
Qed.

Lemma never_success_polls id h status (k : nat) :
  (forall h old, sdk_exp_status sdk h old <> 2) ->
  poll_status sdk id h status k <> 2.
Proof.
  intros Hnever. revert h status.
  induction k as [| k IH]; intros h status; cbn [poll_status]; auto.
Qed.

(** When no poll ever reports status 2, [expose] returns [None]; if the
    exposure was started, the status was polled
    [exposure_polls (e / 1000 + 5000)] times, that is until the
    deadline. *)
Lemma expose_no_success id e w :
  (forall h old, sdk_exp_status sdk h old <> 2) ->
  fst (expose sdk id e w) = None /\
  exists msg,
    trace (snd (expose sdk id e w)) =
      trace w ++ [Call (ASIStartExposure id 0); Print msg] \/
    trace (snd (expose sdk id e w)) =
      trace w ++ [Call (ASIStartExposure id 0)] ++
      poll_trace id (exposure_polls (e / 1000 + 5000)) ++ [Print msg].
Proof.
  intros Hnever. unfold expose. rewrite bind_run. cbn [asi fst snd].
  destruct (negb (sdk_ret sdk (trace w) (ASIStartExposure id 0)
                  =? ASI_SUCCESS)).
  - rewrite bind_run. cbn. split; [reflexivity |].
    eexists. left. rewrite <- app_assoc. reflexivity.
  - rewrite bind_run.
    match goal with
    | |- context [wait_exposure sdk ?f id 0 0 ?m ?w0] =>
        destruct (wait_exposure_no_success f id 0 0 m w0)
          as (H1 & _ & H3 & _)
    end.
    + intros j _. apply never_success_polls. exact Hnever.
    + discriminate.
    + f_equal. lia.
    + apply Z.eqb_neq in H1. rewrite H1. cbn [negb].
      rewrite bind_run. cbn [print emit ret fst snd trace].
      split; [reflexivity |]. eexists. right.
      rewrite H3. cbn [trace]. rewrite <- !app_assoc. reflexivity.
Qed.


(** ** What [capture_snapshot] returns *)

Lemma expose_image id e w img :
  fst (expose sdk id e w) = Some img ->
  img_width img = width (camera_state w) /\
  img_height img = height (camera_state w) /\
  exists pre,
    trace (snd (expose sdk id e w)) =
      pre ++ [Call (ASIGetDataAfterExp id
                      (width (camera_state w) * height (camera_state w) * 3))]
    /\ img_data img = sdk_buffer sdk pre.
Proof.
  unfold expose. rewrite bind_run. cbn [asi fst snd].
  destruct (negb (sdk_ret sdk (trace w) (ASIStartExposure id 0)
                  =? ASI_SUCCESS)).
  { rewrite bind_run. cbn. discriminate. }
  rewrite bind_run.
  match goal with
  | |- context [wait_exposure sdk ?f id 0 0 ?m ?w0] =>
      pose proof (wait_exposure_keeps_state sdk f id 0 0 m w0) as Hst;
      destruct (wait_exposure sdk f id 0 0 m w0) as [r w3]
  end.
  cbn [fst snd camera_state] in *.
  destruct (negb (fst r =? 2)).
  { rewrite bind_run. cbn. discriminate. }
  rewrite bind_run. cbn [get_state fst snd]. rewrite Hst.
  rewrite bind_run. cbn [asi_data fst snd].
  destruct (negb (sdk_ret sdk (trace w3) _ =? ASI_SUCCESS)).
  { rewrite bind_run. cbn. discriminate. }
  cbn. intros H. injection H as <-. cbn. repeat split. eauto.
Qed.

(** What [capture_snapshot] has done when it returns an image. *)
Lemma capture_snapshot_some (w : World) (img : Image) :
  fst (capture_snapshot sdk w) = Ok (Some img) ->
  self_is_open (camera w) = true /\
  ctypes_int_ok (exposure (camera_state w)) = true /\
  ctypes_int_ok (gain (camera_state w)) = true /\
  img_width img = width (camera_state w) /\
  img_height img = height (camera_state w) /\
  exists pre,
    trace (snd (capture_snapshot sdk w)) =
      pre ++ [Call (ASIGetDataAfterExp (self_camera_id (camera w))
                      (width (camera_state w) * height (camera_state w) * 3))]
    /\ img_data img = sdk_buffer sdk pre.
Proof.
  destruct (self_is_open (camera w)) eqn:Hopen.
  2:{ rewrite (capture_snapshot_not_open w Hopen). discriminate. }
  rewrite (capture_snapshot_open w Hopen). cbv zeta.
  destruct (ctypes_int_ok (exposure (camera_state w))); [| discriminate].
  destruct (ctypes_int_ok (gain (camera_state w))); [| discriminate].
  cbn [fst snd]. intros H. injection H as H.
  apply expose_image in H. cbn [camera_state] in H.
  destruct H as (H1 & H2 & H3). auto 10.
Qed.

(** X10. An image returned by [capture_snapshot] has the width and
    height stored in [camera_state] (those of the sensor, set by
    [connect]), was read by a final [ASIGetDataAfterExp] that asked for
    width * height * 3 bytes, and holds what that call left in the
    buffer; an image is returned only on an open handle, and only when
    the stored exposure and gain fit a C integer. *)
Theorem capture_snapshot_image (w : World) (img : Image) :
  fst (capture_snapshot sdk w) = Ok (Some img) ->
  self_is_open (camera w) = true /\
  ctypes_int_ok (exposure (camera_state w)) = true /\
  ctypes_int_ok (gain (camera_state w)) = true /\
  img_width img = width (camera_state w) /\
  img_height img = height (camera_state w) /\
  exists pre,
    trace (snd (capture_snapshot sdk w)) =
      pre ++ [Call (ASIGetDataAfterExp (self_camera_id (camera w))
                      (width (camera_state w) * height (camera_state w) * 3))]
    /\ img_data img = sdk_buffer sdk pre.
Proof. apply capture_snapshot_some. Qed.

(** ** How long [capture_snapshot] can sleep *)

Lemma slept_app (t1 t2 : list Event) :
  slept (t1 ++ t2) = slept t1 + slept t2.
Proof.
  induction t1 as [| e t1 IH]; cbn; [reflexivity |].
  destruct e; rewrite IH; lia.
Qed.

Lemma wait_idle_sleeps fuel id status timeout :
  sleeps_within (100 * Z.of_nat fuel) (wait_idle sdk fuel id status timeout).
Proof.
  revert status timeout.
  induction fuel as [| fuel IH]; intros status timeout w;
    cbn [wait_idle].
  - cbn. lia.
  - destruct (negb (status =? 0) && (timeout <? 10000)).
    + rewrite !bind_run.
      cbn [time_sleep emit get_exp_status fst snd camera_state camera trace].
      match goal with
      | |- slept (trace (snd (wait_idle sdk fuel id ?st ?t ?w1))) <= _ =>
          specialize (IH st t w1)
      end.
      cbn [trace] in IH. rewrite !slept_app in IH. cbn in IH. lia.
    + cbn. lia.
Qed.

Lemma wait_exposure_sleeps fuel id status timeout max_timeout :
  sleeps_within (100 * Z.of_nat fuel)
                (wait_exposure sdk fuel id status timeout max_timeout).
Proof.
  revert status timeout.
  induction fuel as [| fuel IH]; intros status timeout w;
    cbn [wait_exposure].
  - cbn. lia.
  - destruct (timeout <? max_timeout).
    + rewrite bind_run. cbn [get_exp_status fst snd].
      destruct (sdk_exp_status sdk (trace w) status =? 2).
      * cbn. rewrite slept_app. cbn. lia.
      * rewrite bind_run.
        cbn [time_sleep emit fst snd camera_state camera trace].
        match goal with
        | |- slept (trace (snd (wait_exposure sdk fuel id ?st ?t _ ?w1))) <= _
          => specialize (IH st t w1)
        end.
        cbn [trace] in IH. rewrite !slept_app in IH. cbn in IH. lia.
    + cbn. lia.
Qed.

Lemma await_idle_sleeps id : sleeps_within 10500 (await_idle sdk id).
Proof.
  intros w. unfold await_idle. rewrite bind_run.
  cbn [get_exp_status fst snd].
  destruct (negb (sdk_exp_status sdk (trace w) 0 =? 0)).
  - rewrite bind_run.
    match goal with
    | |- context [wait_idle sdk 100 id ?s 0 ?w0] =>
        pose proof (wait_idle_sleeps 100 id s 0 w0) as H;
        destruct (wait_idle sdk 100 id s 0 w0) as [r w1]
    end.
    cbn [fst snd trace] in *. rewrite slept_app in H. cbn in H.
    destruct (negb (fst r =? 0)).
    + rewrite bind_run. cbn. rewrite !slept_app. cbn. lia.
    + cbn. lia.
  - cbn. rewrite slept_app. cbn. lia.
Qed.

Lemma expose_sleeps id e :
  sleeps_within (100 * Z.of_nat (exposure_polls (e / 1000 + 5000)))
                (expose sdk id e).
Proof.
  pose proof (Nat2Z.is_nonneg (exposure_polls (e / 1000 + 5000))) as Hpos.
  intros w. unfold expose. rewrite bind_run. cbn [asi fst snd].
  destruct (negb (sdk_ret sdk (trace w) (ASIStartExposure id 0)
                  =? ASI_SUCCESS)).
  { rewrite bind_run. cbn. rewrite !slept_app. cbn. lia. }
  rewrite bind_run.
  match goal with
  | |- context [wait_exposure sdk ?f id 0 0 ?m ?w0] =>
      pose proof (wait_exposure_sleeps f id 0 0 m w0) as H;
      destruct (wait_exposure sdk f id 0 0 m w0) as [r w3]
  end.
  cbn [fst snd trace] in *. rewrite slept_app in H. cbn in H.
  destruct (negb (fst r =? 2)).
  { rewrite bind_run. cbn. rewrite !slept_app. cbn. lia. }
  rewrite bind_run. cbn [get_state fst snd].
  rewrite bind_run. cbn [asi_data fst snd].
  destruct (negb (sdk_ret sdk (trace w3) _ =? ASI_SUCCESS)).
  { rewrite bind_run. cbn. rewrite !slept_app. cbn. lia. }
  cbn. rewrite !slept_app. cbn. lia.
Qed.

(** X12. [capture_snapshot] cannot block on [time.sleep] for more than
    10.5 s (the idle wait and the pause after a forced stop) plus the
    polls of the exposure wait: with [exposure] microseconds stored, at
    most 10500 + max 0 (exposure / 1000 + 5099) milliseconds in all. *)
Theorem capture_snapshot_sleep_bound (w : World) :
  slept (trace (snd (capture_snapshot sdk w))) <=
    slept (trace w) + 10500 +
    Z.max 0 (exposure (camera_state w) / 1000 + 5099).
Proof.
  destruct (self_is_open (camera w)) eqn:Hopen.
  2:{ rewrite (capture_snapshot_not_open w Hopen). cbn.
      rewrite slept_app. cbn. lia. }
  rewrite (capture_snapshot_open w Hopen). cbv zeta.
  pose proof (await_idle_sleeps (self_camera_id (camera w)) w) as Hidle.
  pose proof (exposure_polls_bound (exposure (camera_state w) / 1000 + 5000))
    as Hb.
  replace (exposure (camera_state w) / 1000 + 5099)
    with (exposure (camera_state w) / 1000 + 5000 + 99) by lia.
  destruct (ctypes_int_ok (exposure (camera_state w)));
    [destruct (ctypes_int_ok (gain (camera_state w))) |]; cbn [snd trace].
  - match goal with
    | |- context [expose sdk ?id ?e ?w2] =>
        pose proof (expose_sleeps id e w2) as He
    end.
    cbn [trace] in He. rewrite slept_app in He. cbn [slept] in He. lia.
  - rewrite slept_app. cbn [slept]. lia.
  - lia.
Qed.

End Capture.

Lemma failing_exposure_never_success (h : list Event) (old : Z) :
  sdk_exp_status failing_exposure_device h old <> 2.
Proof. cbn. destruct (existsb is_start_exposure h); discriminate. Qed.



Lemma capture_snapshot_image_witness :
  fst (capture_snapshot healthy_device connected_world) =
    Ok (Some (mkImage 2 1 [Byte.x01; Byte.x02; Byte.x03;
                           Byte.x04; Byte.x05; Byte.x06])) /\
  img_width (mkImage 2 1 [Byte.x01; Byte.x02; Byte.x03;
                          Byte.x04; Byte.x05; Byte.x06]) =
    width (camera_state connected_world).
Proof.
  assert (H : fst (capture_snapshot healthy_device connected_world) =
              Ok (Some (mkImage 2 1 [Byte.x01; Byte.x02; Byte.x03;
                                     Byte.x04; Byte.x05; Byte.x06])))
    by (vm_compute; reflexivity).
  split; [exact H |].
  destruct (capture_snapshot_image healthy_device connected_world _ H)
    as (_ & _ & _ & H2 & _).
  exact H2.
Defined.


(** ** snapshot *)

(** X8. [/camera/snapshot] without a connected, open camera answers 500
    "Camera not connected" and does nothing: no SDK call, no change of
    state. *)
Theorem snapshot_not_connected (sdk : Sdk) (w : World) :
  connected (camera_state w) = false \/ self_is_open (camera w) = false ->
  snapshot sdk w = (SnapshotError "Camera not connected" 500, w).
Proof.
  intros H. unfold snapshot. rewrite !bind_run. cbn [get_state get_self fst snd].
  destruct H as [H | H]; rewrite H; cbn [negb orb];
    rewrite ?orb_true_r; reflexivity.
Qed.

Lemma snapshot_not_connected_witness :
  snapshot healthy_device initial_world =
    (SnapshotError "Camera not connected" 500, initial_world).
Proof.
  apply (snapshot_not_connected healthy_device initial_world).
  left. reflexivity.
Defined.

Section Snapshot.

Variable sdk : Sdk.

Lemma wait_idle_no_video fuel id status timeout :
  emits (fun e => is_video_call e = false)
        (wait_idle sdk fuel id status timeout).
Proof.
  revert status timeout.
  induction fuel as [| fuel IH]; intros status timeout; cbn; emits_auto.
Qed.

Lemma wait_exposure_no_video fuel id status timeout max_timeout :
  emits (fun e => is_video_call e = false)
        (wait_exposure sdk fuel id status timeout max_timeout).
Proof.
  revert status timeout.
  induction fuel as [| fuel IH]; intros status timeout; cbn; emits_auto.
Qed.

#[local] Hint Resolve wait_idle_no_video wait_exposure_no_video : emits.

Lemma capture_snapshot_no_video :
  emits (fun e => is_video_call e = false) (capture_snapshot sdk).
Proof. unfold capture_snapshot, await_idle, expose. emits_auto. Qed.

#[local] Hint Resolve capture_snapshot_no_video : emits.

Lemma snapshot_capture_no_video :
  emits (fun e => is_video_call e = false) (snapshot_capture sdk).
Proof. unfold snapshot_capture. emits_auto. Qed.

Lemma snapshot_capture_run (w : World) :
  snapshot_capture sdk w =
    if true_divide_ok (exposure (camera_state w)) 1000000
    then capture_snapshot sdk w
    else (Raise OverflowError, w).
Proof.
  unfold snapshot_capture. rewrite bind_run. cbn [get_state fst snd].
  rewrite bind_ok_run. unfold print_quotient.
  destruct (true_divide_ok (exposure (camera_state w)) 1000000);
    reflexivity.
Qed.

Lemma snapshot_capture_keeps_variables :
  keeps variables (snapshot_capture sdk).
Proof.
  intros w. rewrite snapshot_capture_run.
  destruct (true_divide_ok (exposure (camera_state w)) 1000000);
    [apply capture_snapshot_keeps_variables | reflexivity].
Qed.

(** An image comes out of [snapshot_capture] exactly when it comes out
    of [capture_snapshot]. *)
Lemma snapshot_capture_image (w : World) (img : Image) :
  fst (snapshot_capture sdk w) = Ok (Some img) <->
  fst (capture_snapshot sdk w) = Ok (Some img).
Proof.
  rewrite snapshot_capture_run.
  destruct (true_divide_ok (exposure (camera_state w)) 1000000) eqn:Hd;
    [reflexivity |].
  split; [discriminate |]. intros H.
  apply capture_snapshot_some in H. destruct H as (_ & He & _).
  rewrite (ctypes_int_true_divide _ 1000000 ltac:(lia) He) in Hd.
  discriminate.
Qed.

Lemma snapshot_idle (w : World) :
  connected (camera_state w) = true ->
  self_is_open (camera w) = true ->
  self_streaming (camera w) = false ->
  snapshot sdk w =
    (snapshot_response sdk (fst (snapshot_capture sdk w)),
     snd (snapshot_capture sdk w)).
Proof.
  intros Hconn Hopen Hstr.
  unfold snapshot. rewrite !bind_run. cbn [get_state get_self fst snd].
  rewrite Hconn, Hopen, Hstr. cbn [negb orb andb].
  rewrite !bind_run. cbn [ret fst snd].
  rewrite bind_ok_run.
  destruct (fst (snapshot_capture sdk w)) as [[img |] | e];
    cbn [fst snd]; rewrite ?bind_ok_run; cbn [ret fst snd];
    rewrite ?bind_run; reflexivity.
Qed.

(** X9. [/camera/snapshot] on a connected camera that is not streaming
    captures without touching the video mode: it makes no
    [ASIStartVideoCapture] and no [ASIStopVideoCapture] call, and it
    changes neither [camera_state] nor the camera object.  The response
    is the JPEG of the image that [capture_snapshot] returned, the 500
    error when it returned [None], or the 500 error with the text of the
    exception when the capture or the print before it raised. *)
Theorem snapshot_when_idle (w : World) :
  connected (camera_state w) = true ->
  self_is_open (camera w) = true ->
  self_streaming (camera w) = false ->
  let r := snapshot sdk w in
  let c :=
    if true_divide_ok (exposure (camera_state w)) 1000000
    then fst (capture_snapshot sdk w)
    else Raise OverflowError in
  camera_state (snd r) = camera_state w /\
  camera (snd r) = camera w /\
  (exists t, trace (snd r) = trace w ++ t /\
             Forall (fun e => is_video_call e = false) t) /\
  fst r =
    match c with
    | Ok (Some img) => SendJpeg img 85
    | Ok None =>
        SnapshotError "Failed to capture snapshot - camera returned None" 500
    | Raise e => SnapshotError ("Exception: " +:+ sdk_exn_str sdk e) 500
    end.
Proof.
  intros Hconn Hopen Hstr. cbv zeta.
  rewrite (snapshot_idle w Hconn Hopen Hstr). cbn [fst snd].
  pose proof (snapshot_capture_keeps_variables w) as Hv.
  unfold variables in Hv. injection Hv as Hv1 Hv2.
  split; [exact Hv1 |]. split; [exact Hv2 |].
  split; [apply snapshot_capture_no_video |].
  rewrite snapshot_capture_run.
  destruct (true_divide_ok (exposure (camera_state w)) 1000000); reflexivity.
Qed.

Lemma stop_stream_trace (w : World) :
  self_is_open (camera w) = true ->
  0 <= self_camera_id (camera w) ->
  exists pre,
    trace (snd (stop_stream sdk w)) =
      pre ++ [Call (ASIStopVideoCapture (self_camera_id (camera w)))].
Proof.
  intros Hopen Hid. apply Z.leb_le in Hid.
  destruct w as [st [id op str fb th] tr]. cbn in *. subst op.
  unfold stop_stream. unfold_monad.
  destruct th; cbn; rewrite Hid; cbn; eexists; reflexivity.
Qed.

Lemma stop_stream_keeps_video_exposure :
  keeps (fun w => video_exposure (camera_state w)) (stop_stream sdk).
Proof. unfold stop_stream. keeps_auto. Qed.

(** C4 (amended). With a stream running, [snapshot] first stops the
    stream ([ASIStopVideoCapture], then 500 ms) with both flags
    cleared, then captures, making no video call meanwhile, and then
    calls [start_stream] whatever the capture gave: after 300 ms when it
    returned (an image or [None]), at once from the [except] branch
    when it raised.  When the stored video exposure fits a C integer,
    the response is decided by the capture alone (JPEG of the image,
    the 500 error of a capture that returned [None], or the 500 error
    of an exception), not by the outcome of the restart, whose three
    SDK calls are made, and when the SDK accepts the restart both
    streaming flags are set again.  When it does not fit,
    [start_stream] raises before any SDK call: the stream stays off and
    the response is the 500 error of the exception, even after a
    capture that returned an image. *)
Theorem snapshot_while_streaming (w : World) :
  connected (camera_state w) = true ->
  self_is_open (camera w) = true ->
  self_streaming (camera w) = true ->
  let id := self_camera_id (camera w) in
  let cap := video_exposure (camera_state w) in
  let w1 := snd (time_sleep 500 (snd (stop_stream sdk w))) in
  let c := snapshot_capture sdk w1 in
  let w2 := match fst c with
            | Ok _ => snd (time_sleep 300 (snd c))
            | Raise _ => snd c
            end in
  let r := start_stream sdk w2 in
  (self_streaming (camera w1) = false /\
   streaming (camera_state w1) = false /\
   (0 <= id ->
    exists pre,
      trace w1 = pre ++ [Call (ASIStopVideoCapture id); Sleep 500]) /\
   exists t, trace (snd c) = trace w1 ++ t /\
             Forall (fun e => is_video_call e = false) t) /\
  snd (snapshot sdk w) = snd r /\
  (ctypes_int_ok cap = true ->
   fst (snapshot sdk w) = snapshot_response sdk (fst c) /\
   (exists t,
      trace (snd r) =
        trace w2 ++
        [Call (ASISetControlValue id ASI_AUTO_MAX_EXP cap ASI_FALSE);
         Call (ASISetControlValue id ASI_EXPOSURE 0 ASI_TRUE);
         Call (ASIStartVideoCapture id)] ++ t) /\
   (start_video_result sdk w2 = ASI_SUCCESS ->
    streaming (camera_state (snd r)) = true /\
    self_streaming (camera (snd r)) = true)) /\
  (ctypes_int_ok cap = false ->
   fst (snapshot sdk w) =
     snapshot_response sdk
       (match fst c with
        | Ok _ => Raise (ArgumentError 3)
        | Raise e => Raise e
        end) /\
   snd r = w2 /\
   streaming (camera_state (snd r)) = false /\
   self_streaming (camera (snd r)) = false).
Proof.
  intros Hconn Hopen Hstr id cap w1 c w2 r.
  assert (Hh1 : handle w1 = handle w).
  { subst w1. rewrite <- (stop_stream_keeps_handle sdk w).
    destruct (snd (stop_stream sdk w)) as [? [] ?]. reflexivity. }
  assert (Hv1 : video_exposure (camera_state w1) = cap).
  { subst w1 cap. rewrite <- (stop_stream_keeps_video_exposure w).
    destruct (snd (stop_stream sdk w)) as [[] ? ?]. reflexivity. }
  assert (Hs1 : self_streaming (camera w1) = false /\
                streaming (camera_state w1) = false).
  { subst w1. pose proof (stop_stream_flags sdk w) as (H & H' & _).
    destruct (snd (stop_stream sdk w)) as [[] [] ?]. auto. }
  assert (Hvc : variables (snd c) = variables w1)
    by apply snapshot_capture_keeps_variables.
  assert (Hv2 : variables w2 = variables w1).
  { subst w2. destruct (fst c); [| exact Hvc].
    rewrite <- Hvc. destruct (snd c). reflexivity. }
  pose proof (f_equal fst Hv2) as Hst2. pose proof (f_equal snd Hv2) as Hc2.
  unfold variables in Hst2, Hc2. cbn [fst snd] in Hst2, Hc2.
  assert (Hopen2 : self_is_open (camera w2) = true).
  { rewrite Hc2. unfold handle in Hh1. congruence. }
  assert (Hid2 : self_camera_id (camera w2) = id).
  { rewrite Hc2. unfold handle in Hh1. subst id. congruence. }
  assert (Hcap2 : video_exposure (camera_state w2) = cap)
    by (rewrite Hst2; exact Hv1).
  assert (Hoff2 : self_streaming (camera w2) = false /\
                  streaming (camera_state w2) = false).
  { rewrite Hc2, Hst2. exact Hs1. }
  (* the run of the handler *)
  assert (Hrun : snapshot sdk w =
    match fst c with
    | Ok img =>
        match fst r with
        | Ok _ => (snapshot_response sdk (Ok img), snd r)
        | Raise e =>
            (snapshot_response sdk (Raise e),
             snd (start_stream sdk (snd r)))
        end
    | Raise e => (snapshot_response sdk (Raise e), snd r)
    end).
  { unfold snapshot. rewrite !bind_run. cbn [get_state get_self fst snd].
    rewrite Hconn, Hopen, Hstr. cbn [negb orb].
    rewrite !bind_run. cbn [fst snd]. fold w1.
    rewrite bind_ok_run. fold c.
    destruct Hs1 as [Hs1 _]. destruct Hoff2 as [Hoff2 _].
    pose proof (f_equal snd Hvc) as Hcc.
    unfold variables in Hcc. cbn [fst snd] in Hcc.
    subst w2 r. destruct (fst c) as [img | e].
    - rewrite bind_ok_run, bind_run. cbn [fst snd].
      destruct (fst (start_stream sdk (snd (time_sleep 300 (snd c)))))
        as [ok | e] eqn:Hr.
      + destruct img; reflexivity.
      + cbn [ret fst snd]. rewrite !bind_run. cbn [get_self fst snd].
        pose proof (start_stream_not_started sdk _
                      ltac:(rewrite Hr; discriminate)) as (_ & Hcam & _).
        rewrite Hcam, Hoff2. cbn [negb andb].
        rewrite !bind_run. reflexivity.
    - cbn [ret fst snd]. rewrite !bind_run. cbn [get_self fst snd].
      rewrite Hcc, Hs1. cbn [negb andb]. rewrite !bind_run. reflexivity. }
  split; [| split; [| split]].
  - split; [apply Hs1 |]. split; [apply Hs1 |]. split.
    + intros Hid. subst w1.
      destruct (stop_stream_trace w Hopen Hid) as [pre Hpre].
      exists pre. destruct (snd (stop_stream sdk w)) as [? ? tr].
      cbn in *. rewrite Hpre, <- app_assoc. reflexivity.
    + apply snapshot_capture_no_video.
  - rewrite Hrun. destruct (fst c) as [img | e]; [| reflexivity].
    destruct (fst r) as [ok | e] eqn:Hr; [reflexivity |].
    cbn [snd].
    destruct (ctypes_int_ok cap) eqn:Hc.
    + exfalso. subst r.
      destruct (Z.eq_dec (start_video_result sdk w2) ASI_SUCCESS) as [He | He].
      * rewrite (start_stream_accepted sdk w2 Hopen2) in Hr;
          [discriminate | rewrite Hcap2; exact Hc | exact He].
      * rewrite (start_stream_rejected sdk w2 Hopen2) in Hr;
          [discriminate | rewrite Hcap2; exact Hc | exact He].
    + subst r.
      rewrite (start_stream_raises sdk w2 Hopen2)
        by (rewrite Hcap2; exact Hc).
      cbn [snd].
      rewrite (start_stream_raises sdk w2 Hopen2)
        by (rewrite Hcap2; exact Hc).
      reflexivity.
  - intros Hc. rewrite <- Hcap2 in Hc.
    assert (Hr : exists ok t,
               fst r = Ok ok /\
               trace (snd r) =
                 trace w2 ++
                 [Call (ASISetControlValue id ASI_AUTO_MAX_EXP cap ASI_FALSE);
                  Call (ASISetControlValue id ASI_EXPOSURE 0 ASI_TRUE);
                  Call (ASIStartVideoCapture id)] ++ t).
    { subst r.
      destruct (Z.eq_dec (start_video_result sdk w2) ASI_SUCCESS) as [He | He].
      - rewrite (start_stream_accepted sdk w2 Hopen2 Hc He). cbn [fst snd trace].
        unfold trace_before_start_video. rewrite Hid2, Hcap2.
        eexists _, _. split; [reflexivity |].
        rewrite <- !app_assoc. cbn. reflexivity.
      - rewrite (start_stream_rejected sdk w2 Hopen2 Hc He). cbn [fst snd trace].
        unfold trace_before_start_video. rewrite Hid2, Hcap2.
        exists false, []. split; [reflexivity |].
        rewrite <- !app_assoc. cbn. reflexivity. }
    destruct Hr as (ok & t & Hok & Ht).
    split; [| split].
    + rewrite Hrun, Hok. destruct (fst c); reflexivity.
    + exists t. exact Ht.
    + intros He. subst r.
      rewrite (start_stream_accepted sdk w2 Hopen2 Hc He).
      destruct w2 as [[] [] ?]. cbn. auto.
  - intros Hc. rewrite <- Hcap2 in Hc.
    assert (Hr : r = (Raise (ArgumentError 3), w2))
      by (subst r; apply start_stream_raises; assumption).
    rewrite Hrun, Hr. cbn [fst snd].
    split; [destruct (fst c); reflexivity |].
    split; [reflexivity |]. split; apply Hoff2.
Qed.

End Snapshot.

Lemma snapshot_when_idle_witness :
  fst (snapshot healthy_device connected_world) =
    SendJpeg (mkImage 2 1 [Byte.x01; Byte.x02; Byte.x03;
                           Byte.x04; Byte.x05; Byte.x06]) 85 /\
  camera (snd (snapshot healthy_device connected_world)) =
    camera connected_world.
Proof.
  destruct (snapshot_when_idle healthy_device connected_world
              eq_refl eq_refl eq_refl) as (_ & H2 & _ & H4).
  split; [rewrite H4; vm_compute; reflexivity | exact H2].
Defined.

(** C4 (as stated). In [overflow_world] the capture succeeds and
    returns an image, the restart fails ([start_stream] raises at its
    first control write), and the response is the 500 error of the
    exception, not the JPEG: a failure to restart turns a successful
    capture into a failed response, and streaming is left off. *)
Lemma snapshot_restart_raises :
  rtc (step healthy_device) initial_world overflow_world /\
  (exists img w1,
     fst (capture_snapshot healthy_device w1) = Ok (Some img) /\
     snd (capture_snapshot healthy_device w1) =
       snd (snapshot_capture healthy_device
              (snd (time_sleep 500
                      (snd (stop_stream healthy_device overflow_world)))))) /\
  fst (snapshot healthy_device overflow_world) =
    SnapshotError
      "Exception: argument 3: OverflowError: int too long to convert" 500 /\
  streaming (camera_state (snd (snapshot healthy_device overflow_world)))
    = false.
Proof.
  split; [apply overflow_world_reached |].
  split.
  - exists (mkImage 2 1 [Byte.x01; Byte.x02; Byte.x03;
                         Byte.x04; Byte.x05; Byte.x06]),
           (snd (time_sleep 500
                   (snd (stop_stream healthy_device overflow_world)))).
    split; vm_compute; reflexivity.
  - split; vm_compute; reflexivity.
Qed.

Lemma snapshot_while_streaming_witness :
  fst (snapshot failing_exposure_device streaming_world) =
    SnapshotError "Failed to capture snapshot - camera returned None" 500 /\
  streaming (camera_state (snd (snapshot failing_exposure_device
                                  streaming_world))) = true.
Proof.
  destruct (snapshot_while_streaming failing_exposure_device streaming_world
              eq_refl eq_refl eq_refl) as (_ & H1 & H2 & _).
  destruct (H2 eq_refl) as (H3 & _ & H4).
  rewrite H1, H3. split.
  - vm_compute. reflexivity.
  - apply H4. vm_compute. reflexivity.
Defined.

(** The restart is best-effort in the other direction too: when the SDK
    rejects [ASIStartVideoCapture] after a good capture, the response is
    still the JPEG and the stream stays off. *)
Example snapshot_restart_rejected :
  fst (snapshot no_video_device streaming_world) =
    SendJpeg (mkImage 2 1 [Byte.x01; Byte.x02; Byte.x03;
                           Byte.x04; Byte.x05; Byte.x06]) 85 /\
  streaming (camera_state (snd (snapshot no_video_device streaming_world)))
    = false.
Proof. split; vm_compute; reflexivity. Qed.

(** ** The status document *)

Section Status.

Variable sdk : Sdk.

(** A pass of the loop leaves [current_frame] as it was or stores a
    frame; it never clears it. *)
Lemma capture_loop_body_frame width height buffer_size errors w :
  current_frame (camera_state
    (snd (capture_loop_body sdk width height buffer_size errors w))) =
    current_frame (camera_state w) \/
  exists img,
    current_frame (camera_state
      (snd (capture_loop_body sdk width height buffer_size errors w))) =
      Some img.
Proof.
  destruct (capture_loop_body_frames sdk width height buffer_size
              errors w) as [H1 H2].
  destruct (video_data_result sdk buffer_size w) as [[| p | p] | e] eqn:Hr.
  - right. destruct (H1 eq_refl) as [_ Hf]. unfold frames in Hf.
    injection Hf as Hf _. eauto.
  - left. assert (Hf := H2 ltac:(discriminate)). unfold frames in Hf.
    congruence.
  - left. assert (Hf := H2 ltac:(discriminate)). unfold frames in Hf.
    congruence.
  - left. assert (Hf := H2 ltac:(discriminate)). unfold frames in Hf.
    congruence.
Qed.

Lemma frames_current_frame (w w' : World) :
  frames w' = frames w ->
  current_frame (camera_state w') = current_frame (camera_state w).
Proof. unfold frames. congruence. Qed.

(** A transition that changes the two frame variables is a pass of the
    video-pull loop whose read succeeded. *)
Lemma step_changes_frames (w w' : World) :
  step sdk w w' ->
  frames w' <> frames w ->
  exists width height buffer_size errors,
    w' = snd (capture_loop_body sdk width height buffer_size errors w) /\
    video_data_result sdk buffer_size w = Ok ASI_SUCCESS.
Proof.
  intros Hstep Hf.
  destruct Hstep as [w | w | w | w | w | data w | now1 now2 w
                     | wd ht buffer_size errors w Hflags].
  - exfalso. apply Hf. apply connect_camera_keeps_frames.
  - exfalso. apply Hf. apply disconnect_camera_keeps_frames.
  - exfalso. apply Hf. apply route_start_stream_keeps_frames.
  - exfalso. apply Hf. apply route_stop_stream_keeps_frames.
  - exfalso. apply Hf. apply snapshot_keeps_frames.
  - exfalso. apply Hf. apply update_settings_keeps_frames.
  - exfalso. apply Hf. reflexivity.
  - exists wd, ht, buffer_size, errors. split; [reflexivity |].
    destruct (capture_loop_body_frames sdk wd ht buffer_size errors w)
      as [_ H2].
    destruct (video_data_result sdk buffer_size w) as [[| p | p] | e];
      try reflexivity; exfalso; apply Hf, H2; discriminate.
Qed.

(** No transition of the service clears [current_frame]. *)
Lemma step_keeps_frame (w w' : World) :
  step sdk w w' ->
  current_frame (camera_state w) <> None ->
  current_frame (camera_state w') <> None.
Proof.
  intros Hstep Hf.
  destruct Hstep as [w | w | w | w | w | data w | now1 now2 w
                     | wd ht buffer_size errors w Hflags].
  - erewrite frames_current_frame; [exact Hf |].
    apply connect_camera_keeps_frames.
  - erewrite frames_current_frame; [exact Hf |].
    apply disconnect_camera_keeps_frames.
  - erewrite frames_current_frame; [exact Hf |].
    apply route_start_stream_keeps_frames.
  - erewrite frames_current_frame; [exact Hf |].
    apply route_stop_stream_keeps_frames.
  - erewrite frames_current_frame; [exact Hf |].
    apply snapshot_keeps_frames.
  - erewrite frames_current_frame; [exact Hf |].
    apply update_settings_keeps_frames.
  - exact Hf.
  - destruct (capture_loop_body_frame wd ht buffer_size errors w)
      as [H1 | [img H1]];
      rewrite H1; [exact Hf | discriminate].
Qed.

Lemma steps_keep_frame (w0 w : World) :
  rtc (step sdk) w0 w ->
  current_frame (camera_state w0) <> None ->
  current_frame (camera_state w) <> None.
Proof.
  induction 1 as [| w0 w1 w Hstep _ IH]; [auto |].
  intros Hf. apply IH. eapply step_keeps_frame; eauto.
Qed.

(** C10. In the [/status] document the [lastSnapshot] of each camera
    entry is null exactly when [camera_state['current_frame']] is
    [None], which is exactly when no state from which the service came
    to the present one held a frame; when a frame is held, [lastSnapshot]
    is the clock reading taken while the request is served, whatever the
    frame. *)
Theorem status_last_snapshot (now1 now2 : string) (w : World) :
  let r := fst (get_status now1 now2 w) in
  (lastSnapshot (weatherCam r) = None <->
   current_frame (camera_state w) = None) /\
  (lastSnapshot (meteorCam r) = None <->
   current_frame (camera_state w) = None) /\
  (lastSnapshot (weatherCam r) = None <->
   forall w0, rtc (step sdk) w0 w -> current_frame (camera_state w0) = None) /\
  (forall img, current_frame (camera_state w) = Some img ->
     lastSnapshot (weatherCam r) = Some now1 /\
     lastSnapshot (meteorCam r) = Some now2).
Proof.
  cbn.
  assert (Hw : forall now : string,
             match current_frame (camera_state w) with
             | Some _ => Some now
             | None => None
             end = None <-> current_frame (camera_state w) = None).
  { intros now. destruct (current_frame (camera_state w));
      split; intros H; try discriminate; reflexivity. }
  split; [apply Hw | split; [apply Hw | split]].
  - rewrite Hw. split.
    + intros Hnone w0 Hsteps.
      destruct (current_frame (camera_state w0)) eqn:H0; [| reflexivity].
      exfalso. apply (steps_keep_frame w0 w Hsteps); [congruence | exact Hnone].
    + intros H. apply H. apply rtc_refl.
  - intros img H. rewrite H. auto.
Qed.

(** C2 (amended). [capture_snapshot] hands the image to its caller and
    stores it nowhere: [camera_state['current_frame']] and
    [camera.frame_buffer] are after the capture what they were before
    it, and the same holds for the whole [snapshot] handler.  On a
    connected camera that is not streaming, the handler sends the image
    that [capture_snapshot] returned, as a JPEG of quality 85.  The two
    variables are written by the video-pull loop only: a request or a
    loop pass that changes them is a pass of the loop whose
    [ASIGetVideoData] succeeded. *)
Theorem captured_frame_returned_not_stored (w : World) :
  frames (snd (capture_snapshot sdk w)) = frames w /\
  frames (snd (snapshot sdk w)) = frames w /\
  (forall img,
     connected (camera_state w) = true ->
     self_streaming (camera w) = false ->
     fst (capture_snapshot sdk w) = Ok (Some img) ->
     fst (snapshot sdk w) = SendJpeg img 85) /\
  (forall w',
     step sdk w w' -> frames w' <> frames w ->
     exists width height buffer_size errors,
       w' = snd (capture_loop_body sdk width height buffer_size errors w) /\
       video_data_result sdk buffer_size w = Ok ASI_SUCCESS).
Proof.
  split; [apply capture_snapshot_keeps_frames |].
  split; [apply snapshot_keeps_frames |].
  split; [| apply step_changes_frames].
  intros img Hconn Hstr Himg.
  assert (Hopen : self_is_open (camera w) = true)
    by (apply (capture_snapshot_some sdk w img Himg)).
  rewrite (snapshot_idle sdk w Hconn Hopen Hstr). cbn [fst].
  apply snapshot_capture_image in Himg. rewrite Himg. reflexivity.
Qed.

End Status.

Lemma status_last_snapshot_witness :
  current_frame (camera_state world_with_frame) =
    Some (mkImage 2 1 [Byte.x01; Byte.x02; Byte.x03;
                       Byte.x04; Byte.x05; Byte.x06]) /\
  lastSnapshot (weatherCam (fst (get_status "2024-05-01T21:15:02.120000"
                                            "2024-05-01T21:15:02.120042"
                                            world_with_frame)))
    = Some "2024-05-01T21:15:02.120000" /\
  lastSnapshot (meteorCam (fst (get_status "2024-05-01T21:15:02.120000"
                                           "2024-05-01T21:15:02.120042"
                                           world_with_frame)))
    = Some "2024-05-01T21:15:02.120042".
Proof.
  assert (H : current_frame (camera_state world_with_frame) =
              Some (mkImage 2 1 [Byte.x01; Byte.x02; Byte.x03;
                                 Byte.x04; Byte.x05; Byte.x06]))
    by (vm_compute; reflexivity).
  split; [exact H |].
  destruct (status_last_snapshot healthy_device
              "2024-05-01T21:15:02.120000" "2024-05-01T21:15:02.120042"
              world_with_frame) as (_ & _ & _ & H4).
  exact (H4 _ H).
Defined.

(** C2 (as stated). A snapshot that succeeds on a healthy device returns
    an image, and afterwards neither [camera_state['current_frame']] nor
    [camera.frame_buffer] holds it: the statement that every returned
    frame is stored fails, for [capture_snapshot] and for the [snapshot]
    handler. *)
Lemma captured_frame_not_stored :
  ~ (forall sdk w img,
       fst (capture_snapshot sdk w) = Ok (Some img) ->
       current_frame (camera_state (snd (capture_snapshot sdk w))) = Some img
       \/ self_frame_buffer (camera (snd (capture_snapshot sdk w))) = Some img)
  /\
  ~ (forall sdk w img,
       fst (snapshot sdk w) = SendJpeg img 85 ->
       current_frame (camera_state (snd (snapshot sdk w))) = Some img
       \/ self_frame_buffer (camera (snd (snapshot sdk w))) = Some img).
Proof.
  split; intros H.
  - destruct (H healthy_device connected_world
                (mkImage 2 1 [Byte.x01; Byte.x02; Byte.x03;
                              Byte.x04; Byte.x05; Byte.x06]))
      as [Hc | Hc]; [vm_compute; reflexivity | | ];
      vm_compute in Hc; discriminate.
  - destruct (H healthy_device connected_world
                (mkImage 2 1 [Byte.x01; Byte.x02; Byte.x03;
                              Byte.x04; Byte.x05; Byte.x06]))
      as [Hc | Hc]; [vm_compute; reflexivity | | ];
      vm_compute in Hc; discriminate.
Qed.

Lemma captured_frame_returned_not_stored_witness :
  fst (capture_snapshot healthy_device connected_world) =
    Ok (Some (mkImage 2 1 [Byte.x01; Byte.x02; Byte.x03;
                           Byte.x04; Byte.x05; Byte.x06])) /\
  fst (snapshot healthy_device connected_world) =
    SendJpeg (mkImage 2 1 [Byte.x01; Byte.x02; Byte.x03;
                           Byte.x04; Byte.x05; Byte.x06]) 85 /\
  frames (snd (snapshot healthy_device connected_world)) = (None, None).
Proof.
  assert (H : fst (capture_snapshot healthy_device connected_world) =
              Ok (Some (mkImage 2 1 [Byte.x01; Byte.x02; Byte.x03;
                                     Byte.x04; Byte.x05; Byte.x06])))
    by (vm_compute; reflexivity).
  split; [exact H |].
  destruct (captured_frame_returned_not_stored healthy_device connected_world)
    as (_ & H2 & H3 & _).
  split; [exact (H3 _ eq_refl eq_refl H) | exact H2].
Defined.

(** * Further properties of the service *)

(** ** What every transition keeps *)

Section Consistency.

Variable sdk : Sdk.

Lemma stop_stream_consistent : preserves consistent (stop_stream sdk).
Proof.
  intros [[] [id op str fb th] tr] (H1 & H2 & H3 & H4 & H5). cbn in *.
  unfold stop_stream. unfold_monad.
  destruct th, op; cbn; destruct (0 <=? id); cbn;
    repeat split; auto; discriminate.
Qed.

Lemma start_stream_consistent : preserves consistent (start_stream sdk).
Proof.
  intros w (H1 & H2 & H3 & H4 & H5).
  destruct (self_is_open (camera w)) eqn:Hopen.
  - destruct (ctypes_int_ok (video_exposure (camera_state w))) eqn:Hc.
    + destruct (Z.eq_dec (start_video_result sdk w) ASI_SUCCESS) as [He | He].
      * rewrite (start_stream_accepted sdk w Hopen Hc He).
        destruct w as [[] [] ?]. cbn in *. repeat split; intros; auto.
      * rewrite (start_stream_rejected sdk w Hopen Hc He).
        destruct w as [[] [] ?]. cbn in *. repeat split; intros; auto.
    + rewrite (start_stream_raises sdk w Hopen Hc). cbn.
      repeat split; intros; rewrite ?Hopen; auto.
  - rewrite (start_stream_not_open sdk w Hopen). cbn.
    repeat split; intros; rewrite ?Hopen; auto.
Qed.

Lemma capture_snapshot_consistent :
  preserves consistent (capture_snapshot sdk).
Proof.
  intros w H. unfold consistent.
  rewrite (capture_snapshot_keeps_state sdk w),
    (capture_snapshot_keeps_camera sdk w).
  exact H.
Qed.

Lemma disconnect_consistent : preserves consistent (disconnect sdk).
Proof.
  intros [[] [id op str fb th] tr] (H1 & H2 & H3 & H4 & H5). cbn in *.
  unfold disconnect, stop_stream. unfold_monad.
  destruct th, op; cbn; destruct (0 <=? id) eqn:Hid;
    repeat (cbn; rewrite ?Hid);
    repeat split; auto; discriminate.
Qed.

Lemma connect_consistent : preserves consistent (connect sdk).
Proof.
  intros [[] [id op str fb th] tr] (H1 & H2 & H3 & H4 & H5). cbn in *.
  unfold connect, connect_try. unfold_monad.
  split_tests; cbn; repeat split; auto.
Qed.

Lemma capture_loop_body_consistent width height buffer_size errors :
  preserves consistent
    (capture_loop_body sdk width height buffer_size errors).
Proof.
  intros [[] [id op str fb th] tr] (H1 & H2 & H3 & H4 & H5). cbn in *.
  unfold capture_loop_body. unfold_monad. cbn.
  destruct (timeout_ms video_exposure0); [| cbn; repeat split; auto].
  split_tests; cbn; repeat split; auto.
Qed.

#[local] Hint Resolve stop_stream_consistent start_stream_consistent
  capture_snapshot_consistent disconnect_consistent connect_consistent
  : preserves.

Lemma snapshot_consistent : preserves consistent (snapshot sdk).
Proof. unfold snapshot, snapshot_capture. preserves_auto. Qed.

Lemma update_settings_consistent data :
  preserves consistent (update_settings sdk data).
Proof.
  unfold update_settings, settings_gain, settings_photo_exposure,
    settings_video_exposure.
  preserves_auto.
Qed.

Lemma step_consistent (w w' : World) :
  step sdk w w' -> consistent w -> consistent w'.
Proof.
  intros Hstep.
  destruct Hstep as [w | w | w | w | w | data w | now1 now2 w
                     | wd ht buffer_size errors w Hflags].
  - assert (H : preserves consistent (connect_camera sdk))
      by (unfold connect_camera; preserves_auto). apply H.
  - assert (H : preserves consistent (disconnect_camera sdk))
      by (unfold disconnect_camera; preserves_auto). apply H.
  - assert (H : preserves consistent (route_start_stream sdk))
      by (unfold route_start_stream; preserves_auto). apply H.
  - assert (H : preserves consistent (route_stop_stream sdk))
      by (unfold route_stop_stream; preserves_auto). apply H.
  - apply snapshot_consistent.
  - apply update_settings_consistent.
  - auto.
  - apply capture_loop_body_consistent.
Qed.

Lemma initial_world_consistent : consistent initial_world.
Proof. repeat split; intros; discriminate. Qed.

Lemma reachable_consistent (w : World) :
  rtc (step sdk) initial_world w -> consistent w.
Proof.
  intros H. apply rtc_nsteps in H. destruct H as [n H].
  revert w H. induction n as [| n IH]; intros w H.
  - inversion H; subst. apply initial_world_consistent.
  - apply nsteps_inv_r in H. destruct H as (w1 & H1 & H2).
    eapply step_consistent; eauto.
Qed.

End Consistency.





(** ** connect *)

(** X3. [connect] returns [True] only with the handle open,
    [connected] set and the fault cleared; when it returns [False] it
    has stored a fault message and has changed neither [connected], nor
    the streaming flags, nor the stored settings.  It has not changed
    [is_open] either, unless it failed by an exception raised after
    [ASIInitCamera]: the write of a stored gain that does not fit a C
    integer, or the print of a stored exposure whose quotient overflows;
    then the handle is left open. *)
Theorem connect_outcome (sdk : Sdk) (w : World) :
  let r := connect sdk w in
  (fst r = true ->
   connected (camera_state (snd r)) = true /\
   self_is_open (camera (snd r)) = true /\
   error (camera_state (snd r)) = None) /\
  (fst r = false ->
   error (camera_state (snd r)) <> None /\
   connected (camera_state (snd r)) = connected (camera_state w) /\
   streaming (camera_state (snd r)) = streaming (camera_state w) /\
   self_streaming (camera (snd r)) = self_streaming (camera w) /\
   settings (snd r) = settings w /\
   (self_is_open (camera (snd r)) = self_is_open (camera w) \/
    self_is_open (camera (snd r)) = true /\
    (ctypes_int_ok (gain (camera_state w)) = false \/
     true_divide_ok (exposure (camera_state w)) 1000000 = false))).
Proof.
  destruct w as [[] [id op str fb th] tr].
  unfold connect, connect_try. unfold_monad.
  split_tests; cbn; split; intros H; try discriminate;
    (repeat split; try discriminate);
    first [ left; reflexivity
          | right; split; [reflexivity |];
            first [left; assumption | right; assumption] ].
Qed.

Lemma connect_outcome_witness :
  fst (connect no_camera_device initial_world) = false /\
  error (camera_state (snd (connect no_camera_device initial_world))) <> None.
Proof.
  assert (H : fst (connect no_camera_device initial_world) = false)
    by (vm_compute; reflexivity).
  split; [exact H |].
  destruct (connect_outcome no_camera_device initial_world) as [_ H2].
  destruct (H2 H) as (H3 & _). exact H3.
Defined.

(** The handle is left open by a [connect] that fails on a stored gain
    of 2^70. *)
Example connect_leaves_handle_open :
  let w := mkWorld (set_gain (2 ^ 70) initial_camera_state) initial_camera []
  in
  fst (connect healthy_device w) = false /\
  self_is_open (camera (snd (connect healthy_device w))) = true /\
  connected (camera_state (snd (connect healthy_device w))) = false /\
  ~ In (Call (ASICloseCamera 0)) (trace (snd (connect healthy_device w))).
Proof.
  cbv zeta. split; [vm_compute; reflexivity |].
  split; [vm_compute; reflexivity |].
  split; [vm_compute; reflexivity |].
  vm_compute. intros H.
  repeat (destruct H as [H | H]; [discriminate |]). exact H.
Qed.

Ltac not_in_list :=
  let H := fresh "H" in
  cbn; intros H;
  repeat (destruct H as [H | H]; [discriminate |]); exact H.

(** X4. When [connect] fails after it has called [ASIInitCamera] on a
    camera, either the last thing it does is to close that camera again,
    so that the handle opened by [ASIOpenCamera] is not left open, or it
    failed by an exception after marking the handle open (the stored
    gain does not fit a C integer, or the quotient of the stored
    exposure overflows) and it has not called [ASICloseCamera] at all. *)
Theorem connect_init_failure_closes (sdk : Sdk) (w : World) (id : Z) :
  fst (connect sdk w) = false ->
  ~ In (Call (ASIInitCamera id)) (trace w) ->
  In (Call (ASIInitCamera id)) (trace (snd (connect sdk w))) ->
  (exists pre,
     trace (snd (connect sdk w)) = pre ++ [Call (ASICloseCamera id)]) \/
  (self_is_open (camera (snd (connect sdk w))) = true /\
   (ctypes_int_ok (gain (camera_state w)) = false \/
    true_divide_ok (exposure (camera_state w)) 1000000 = false) /\
   exists t,
     trace (snd (connect sdk w)) = trace w ++ t /\
     ~ In (Call (ASICloseCamera id)) t).
Proof.
  destruct w as [[] [cid op str fb th] tr].
  unfold connect, connect_try. unfold_monad.
  split_tests; cbn; intros Hr Hnot Hin; try discriminate;
    try contradiction;
    first
      [ right; split; [reflexivity |];
        split; [first [left; assumption | right; assumption] |];
        eexists; split; [rewrite <- !app_assoc; reflexivity | not_in_list]
      | repeat (apply in_app_or in Hin; destruct Hin as [Hin | Hin];
                [| destruct Hin as [Hin | []]; try discriminate]);
        try contradiction;
        injection Hin as <-; left; eexists; reflexivity ].
Qed.

Lemma connect_init_failure_closes_witness :
  fst (connect no_init_device initial_world) = false /\
  exists pre,
    trace (snd (connect no_init_device initial_world)) =
      pre ++ [Call (ASICloseCamera 0)].
Proof.
  assert (H : fst (connect no_init_device initial_world) = false)
    by (vm_compute; reflexivity).
  split; [exact H |].
  destruct (connect_init_failure_closes no_init_device initial_world 0 H)
    as [Hc | (Hopen & _)].
  - intros [].
  - vm_compute. do 3 right. left. reflexivity.
  - exact Hc.
  - vm_compute in Hopen. discriminate.
Defined.

(** X24. The route [/camera/connect] answers either 200 with
    [success = True], and then the handle is open and [connected] is
    set, or 500 with [success = False] and a message that is never
    null: it is the fault that [connect] has just stored. *)
Theorem connect_camera_response (sdk : Sdk) (w : World) :
  let r := connect_camera sdk w in
  (msg_code (fst r) = 200 /\ msg_success (fst r) = true /\
   connected (camera_state (snd r)) = true /\
   self_is_open (camera (snd r)) = true) \/
  (msg_code (fst r) = 500 /\ msg_success (fst r) = false /\
   exists msg, msg_message (fst r) = Some msg /\
               error (camera_state (snd r)) = Some msg).
Proof.
  destruct w as [[] [id op str fb th] tr].
  unfold connect_camera, connect, connect_try. unfold_monad.
  split_tests;
    cbn; first [ left; repeat split; reflexivity
               | right; repeat split; eexists; split; reflexivity ].
Qed.

(** ** start_stream, stop_stream and disconnect *)

(** X5. [start_stream] succeeds exactly when the handle is open, the
    stored video exposure fits a C integer and the SDK accepts
    [ASIStartVideoCapture].  Every success sets both streaming flags
    and starts one new capture thread, which becomes [capture_thread];
    there is no test for a stream that is already running, so a second
    successful call starts a second thread. *)
Theorem start_stream_success (sdk : Sdk) (w : World) :
  let r := start_stream sdk w in
  (fst r = Ok true <->
   self_is_open (camera w) = true /\
   ctypes_int_ok (video_exposure (camera_state w)) = true /\
   start_video_result sdk w = ASI_SUCCESS) /\
  (fst r = Ok true ->
   streaming (camera_state (snd r)) = true /\
   self_streaming (camera (snd r)) = true /\
   self_capture_thread (camera (snd r)) = Some (threads_started (trace w)) /\
   threads_started (trace (snd r)) = S (threads_started (trace w))).
Proof.
  cbv zeta.
  destruct (self_is_open (camera w)) eqn:Hopen.
  - destruct (ctypes_int_ok (video_exposure (camera_state w))) eqn:Hc.
    + destruct (Z.eq_dec (start_video_result sdk w) ASI_SUCCESS) as [He | He].
      * rewrite (start_stream_accepted sdk w Hopen Hc He). cbn [fst snd trace].
        split; [split; auto |]. intros _.
        split; [destruct w as [[] [] ?]; reflexivity |].
        split; [destruct w as [[] [] ?]; reflexivity |].
        split; [destruct w as [[] [] ?]; reflexivity |].
        unfold trace_before_start_video.
        rewrite !threads_started_app.
        generalize (threads_started (trace w)). intros n.
        cbv -[Nat.add]. lia.
      * rewrite (start_stream_rejected sdk w Hopen Hc He). cbn [fst].
        split; [split; [discriminate | intros (_ & _ & H); contradiction] |].
        discriminate.
    + rewrite (start_stream_raises sdk w Hopen Hc). cbn [fst].
      split; [split; [discriminate | intros (_ & H & _); discriminate] |].
      discriminate.
  - rewrite (start_stream_not_open sdk w Hopen). cbn [fst].
    split; [split; [discriminate | intros [H _]; discriminate] |].
    discriminate.
Qed.

Lemma start_stream_success_witness :
  fst (start_stream healthy_device streaming_world) = Ok true /\
  threads_started (trace streaming_world) = 1%nat /\
  threads_started (trace (snd (start_stream healthy_device streaming_world)))
    = 2%nat.
Proof.
  assert (H : fst (start_stream healthy_device streaming_world) = Ok true)
    by (vm_compute; reflexivity).
  split; [exact H |]. split; [reflexivity |].
  destruct (start_stream_success healthy_device streaming_world) as [_ H2].
  destruct (H2 H) as (_ & _ & _ & H3). rewrite H3. reflexivity.
Defined.

(** X6. The route [/camera/stream/start] on a closed handle answers 500
    with whatever fault was stored before (null on a fresh service):
    [start_stream] returns [False] there without storing a message, and
    nothing else changes. *)
Theorem route_start_stream_closed (sdk : Sdk) (w : World) :
  self_is_open (camera w) = false ->
  route_start_stream sdk w =
    (Ok (mkMessageResponse false (error (camera_state w)) 500), w).
Proof.
  intros H. unfold route_start_stream. rewrite bind_ok_run.
  rewrite (start_stream_not_open sdk w H). reflexivity.
Qed.

Lemma route_start_stream_closed_witness :
  self_is_open (camera initial_world) = false /\
  route_start_stream healthy_device initial_world =
    (Ok (mkMessageResponse false None 500), initial_world).
Proof.
  split; [reflexivity |].
  apply (route_start_stream_closed healthy_device initial_world).
  reflexivity.
Defined.

(** X7. On an open handle with a valid camera id, [disconnect] stops the
    video mode and then closes the camera, in this order and with no
    other SDK call, whether or not a stream was running; afterwards the
    handle is closed and [connected] and both streaming flags are
    cleared. *)
Theorem disconnect_open_handle (sdk : Sdk) (w : World) :
  self_is_open (camera w) = true ->
  0 <= self_camera_id (camera w) ->
  let w' := snd (disconnect sdk w) in
  sdk_calls (trace w') =
    sdk_calls (trace w) ++
    [ASIStopVideoCapture (self_camera_id (camera w));
     ASICloseCamera (self_camera_id (camera w))] /\
  self_is_open (camera w') = false /\
  connected (camera_state w') = false /\
  streaming (camera_state w') = false /\
  self_streaming (camera w') = false.
Proof.
  intros Hopen Hid. apply Z.leb_le in Hid.
  destruct w as [st [id op str fb th] tr]. cbn in *. subst op.
  unfold disconnect, stop_stream. unfold_monad.
  destruct th; repeat (cbn; rewrite ?Hid);
    rewrite ?sdk_calls_app; cbn; rewrite ?app_nil_r, <- ?app_assoc;
    repeat split; reflexivity.
Qed.

Lemma disconnect_open_handle_witness :
  self_is_open (camera streaming_world) = true /\
  sdk_calls (trace (snd (disconnect healthy_device streaming_world))) =
    [ASIStopVideoCapture 0; ASICloseCamera 0].
Proof.
  split; [reflexivity |].
  destruct (disconnect_open_handle healthy_device streaming_world)
    as (H & _); [reflexivity | cbn; lia |].
  rewrite H. reflexivity.
Defined.

(** X23. [stop_stream] after a successful [start_stream] (the handle is
    open with a valid camera id, the stored video exposure fits a C
    integer and the SDK accepts the start) waits (at most 2 s) for
    exactly the thread that [start_stream] started and then stops the
    video mode; both streaming flags are cleared again, and
    [capture_thread] still names that thread. *)
Theorem stop_after_start (sdk : Sdk) (w : World) :
  self_is_open (camera w) = true ->
  0 <= self_camera_id (camera w) ->
  ctypes_int_ok (video_exposure (camera_state w)) = true ->
  start_video_result sdk w = ASI_SUCCESS ->
  let t := threads_started (trace w) in
  let w1 := snd (start_stream sdk w) in
  let w2 := snd (stop_stream sdk w1) in
  fst (start_stream sdk w) = Ok true
  /\ trace w2 =
    trace w1 ++
    [ThreadJoin t 2000; Call (ASIStopVideoCapture (self_camera_id (camera w)))]
  /\ streaming (camera_state w2) = false
  /\ self_streaming (camera w2) = false
  /\ self_capture_thread (camera w2) = Some t
  /\ camera_state w2 = set_streaming false (camera_state w).
Proof.
  intros Hopen Hid Hc Hok. cbv zeta.
  rewrite (start_stream_accepted sdk w Hopen Hc Hok). cbn [fst snd].
  apply Z.leb_le in Hid.
  destruct w as [[] [id op str fb th] tr]. cbn in Hopen, Hid. subst op.
  unfold stop_stream. unfold_monad. cbn. rewrite Hid. cbn.
  rewrite <- !app_assoc. repeat split.
Qed.

Lemma stop_after_start_witness :
  start_video_result healthy_device connected_world = ASI_SUCCESS /\
  trace (snd (stop_stream healthy_device
                (snd (start_stream healthy_device connected_world)))) =
    trace (snd (start_stream healthy_device connected_world)) ++
    [ThreadJoin 0 2000; Call (ASIStopVideoCapture 0)].
Proof.
  assert (H : start_video_result healthy_device connected_world
              = ASI_SUCCESS) by reflexivity.
  split; [exact H |].
  destruct (stop_after_start healthy_device connected_world eq_refl)
    as (_ & H1 & _); [cbn; lia | reflexivity | exact H |].
  exact H1.
Defined.

(** ** update_settings *)

Section Settings.

Variable sdk : Sdk.

#[local] Hint Resolve stop_stream_keeps_settings start_stream_keeps_settings
  stop_stream_keeps_frames start_stream_keeps_frames
  stop_stream_keeps_handle start_stream_keeps_handle : keeps.

Lemma settings_gain_unfold (data : gmap string Z) :
  settings_gain sdk data =
    match data !! "gain" with
    | None => ret (Ok tt)
    | Some g =>
        upd_state (set_gain g) ;;
        st <- get_state ;;
        write_control sdk ASI_GAIN g (streaming st)
    end.
Proof. unfold settings_gain. destruct (data !! "gain"); reflexivity. Qed.

Lemma settings_video_exposure_unfold (data : gmap string Z) :
  settings_video_exposure sdk data =
    match data !! "video_exposure" with
    | None => ret (Ok tt)
    | Some v =>
        upd_state (set_video_exposure v) ;;
        st <- get_state ;;
        _ <~ print_quotient v 1000 ;;
        write_control sdk ASI_AUTO_MAX_EXP v (streaming st)
    end.
Proof.
  unfold settings_video_exposure. destruct (data !! "video_exposure");
    reflexivity.
Qed.

Lemma write_control_keeps_handle control value s :
  keeps handle (write_control sdk control value s).
Proof. unfold write_control. keeps_auto. Qed.

Lemma write_control_keeps_settings control value s :
  keeps settings (write_control sdk control value s).
Proof. unfold write_control. keeps_auto. Qed.

Lemma write_control_closed control value (s : bool) (w : World) :
  self_is_open (camera w) = false ->
  write_control sdk control value s w = (Ok tt, w).
Proof.
  intros H. unfold write_control. rewrite bind_run. cbn [get_self fst snd].
  rewrite H. reflexivity.
Qed.

(** [write_control] on an open handle, stage by stage. *)
Lemma write_control_open control value (s : bool) (w : World) :
  self_is_open (camera w) = true ->
  let id := self_camera_id (camera w) in
  let wb := if s then snd (time_sleep 500 (snd (stop_stream sdk w))) else w in
  let wc := mkWorld (camera_state wb) (camera wb)
              (trace wb ++
               [Call (ASISetControlValue id control value ASI_FALSE);
                Call (ASIGetControlValue id control)]) in
  write_control sdk control value s w =
    if ctypes_int_ok value then
      if s then
        let r := start_stream sdk (snd (time_sleep 500 wc)) in
        (match fst r with Ok _ => Ok tt | Raise e => Raise e end, snd r)
      else (Ok tt, wc)
    else (Raise (ArgumentError 3), wb).
Proof.
  intros Hopen id wb wc.
  unfold write_control. rewrite bind_run. cbn [get_self fst snd].
  rewrite Hopen. fold id. rewrite bind_run.
  assert (Hwb : snd ((if s then stop_stream sdk ;; time_sleep 500
                      else ret tt) w) = wb).
  { subst wb. destruct s; [rewrite bind_run |]; reflexivity. }
  rewrite Hwb. rewrite bind_ok_run. unfold asi_int.
  destruct (ctypes_int_ok value); [| reflexivity].
  rewrite bind_run. cbn [asi ret fst snd]. rewrite bind_run.
  cbn [asi fst snd camera_state camera trace].
  replace (mkWorld (camera_state wb) (camera wb)
             ((trace wb ++
               [Call (ASISetControlValue id control value ASI_FALSE)]) ++
              [Call (ASIGetControlValue id control)])) with wc
    by (subst wc; rewrite <- app_assoc; reflexivity).
  destruct s; [| reflexivity].
  rewrite bind_run. rewrite bind_ok_run.
  destruct (fst (start_stream sdk (snd (time_sleep 500 wc)))); reflexivity.
Qed.

(** The world in which [write_control] restarts the stream has the
    handle, the streaming flags cleared and the video exposure of the
    world it started in. *)
Lemma write_control_restart_world control value w :
  let wb := snd (time_sleep 500 (snd (stop_stream sdk w))) in
  let wc := mkWorld (camera_state wb) (camera wb)
              (trace wb ++
               [Call (ASISetControlValue (self_camera_id (camera w)) control
                        value ASI_FALSE);
                Call (ASIGetControlValue (self_camera_id (camera w))
                        control)]) in
  let wd := snd (time_sleep 500 wc) in
  handle wd = handle w /\
  video_exposure (camera_state wd) = video_exposure (camera_state w) /\
  streaming (camera_state wd) = false /\
  streaming (camera_state wb) = false.
Proof.
  cbv zeta.
  pose proof (stop_stream_keeps_handle sdk w) as Hh.
  pose proof (stop_stream_keeps_settings sdk w) as Hs.
  pose proof (stop_stream_flags sdk w) as (_ & Hf & _).
  destruct (snd (stop_stream sdk w)) as [[] [] ?].
  unfold handle, settings in *. cbn in *.
  repeat split; congruence.
Qed.

(** [write_control] raises exactly when, on an open handle, the value
    does not fit a C integer or the stream it restarts has a stored
    video exposure that does not. *)
Lemma write_control_result control value (s : bool) (w : World) :
  fst (write_control sdk control value s w) =
    if negb (self_is_open (camera w)) ||
       (ctypes_int_ok value &&
        (negb s || ctypes_int_ok (video_exposure (camera_state w))))
    then Ok tt
    else Raise (ArgumentError 3).
Proof.
  destruct (self_is_open (camera w)) eqn:Hopen.
  2:{ rewrite (write_control_closed _ _ _ _ Hopen). reflexivity. }
  rewrite (write_control_open control value s w Hopen). cbv zeta.
  cbn [negb orb].
  destruct (ctypes_int_ok value); [| reflexivity].
  destruct s; [| reflexivity]. cbn [negb orb andb fst].
  destruct (write_control_restart_world control value w)
    as (Hh & Hv & _).
  match goal with
  | |- context [start_stream sdk ?wd] =>
      assert (Hopen' : self_is_open (camera wd) = true)
        by (unfold handle in Hh; congruence);
      destruct (ctypes_int_ok (video_exposure (camera_state w))) eqn:Hc;
      [ rewrite <- Hv in Hc;
        destruct (Z.eq_dec (start_video_result sdk wd) ASI_SUCCESS)
          as [He | He];
        [ rewrite (start_stream_accepted sdk wd Hopen' Hc He)
        | rewrite (start_stream_rejected sdk wd Hopen' Hc He) ]
      | rewrite <- Hv in Hc;
        rewrite (start_stream_raises sdk wd Hopen' Hc) ]
  end; reflexivity.
Qed.

(** After [write_control] on an open handle, called with the streaming
    flag of the state, a stream is marked running only if the stored
    video exposure fits a C integer. *)
Lemma write_control_restartable control value w :
  self_is_open (camera w) = true ->
  let w' := snd (write_control sdk control value
                   (streaming (camera_state w)) w) in
  streaming (camera_state w') = true ->
  ctypes_int_ok (video_exposure (camera_state w)) = true.
Proof.
  intros Hopen. cbv zeta.
  rewrite (write_control_open control value _ w Hopen). cbv zeta.
  destruct (write_control_restart_world control value w)
    as (Hh & Hv & Hoff & Hoffb).
  destruct (streaming (camera_state w)) eqn:Hs.
  - destruct (ctypes_int_ok value).
    + cbn [snd].
      match goal with
      | |- context [start_stream sdk ?wd] =>
          assert (Hopen' : self_is_open (camera wd) = true)
            by (unfold handle in Hh; congruence);
          destruct (ctypes_int_ok (video_exposure (camera_state w))) eqn:Hc;
          [ reflexivity |];
          rewrite <- Hv in Hc;
          rewrite (start_stream_raises sdk wd Hopen' Hc)
      end.
      cbn [snd]. rewrite Hoff. discriminate.
    + cbn [snd]. rewrite Hoffb. discriminate.
  - destruct (ctypes_int_ok value); cbn [snd camera_state]; rewrite Hs;
      discriminate.
Qed.

(** *** The three blocks *)

Lemma settings_gain_keeps_handle data : keeps handle (settings_gain sdk data).
Proof. unfold settings_gain. keeps_auto. Qed.

Lemma settings_photo_exposure_run data w :
  settings_photo_exposure data w =
    match data !! "photo_exposure" with
    | None => (Ok tt, w)
    | Some e =>
        (if true_divide_ok e 1000000 then Ok tt else Raise OverflowError,
         mkWorld (set_exposure e (camera_state w)) (camera w) (trace w))
    end.
Proof.
  unfold settings_photo_exposure.
  destruct (data !! "photo_exposure") as [e |]; [| reflexivity].
  rewrite bind_run. cbn [upd_state fst snd]. unfold print_quotient.
  destruct (true_divide_ok e 1000000); reflexivity.
Qed.

Lemma settings_video_exposure_keeps_handle data :
  keeps handle (settings_video_exposure sdk data).
Proof. unfold settings_video_exposure. keeps_auto. Qed.

Lemma settings_gain_settings data w :
  settings (snd (settings_gain sdk data w)) =
    (default (gain (camera_state w)) (data !! "gain"),
     exposure (camera_state w), video_exposure (camera_state w)).
Proof.
  rewrite settings_gain_unfold.
  destruct (data !! "gain") as [g |]; [| reflexivity].
  rewrite !bind_run. cbn [upd_state get_state fst snd camera_state].
  rewrite write_control_keeps_settings. reflexivity.
Qed.

Lemma settings_video_exposure_settings data w :
  settings (snd (settings_video_exposure sdk data w)) =
    (gain (camera_state w), exposure (camera_state w),
     default (video_exposure (camera_state w)) (data !! "video_exposure")).
Proof.
  rewrite settings_video_exposure_unfold.
  destruct (data !! "video_exposure") as [v |]; [| reflexivity].
  rewrite !bind_run. cbn [upd_state get_state fst snd camera_state].
  rewrite bind_ok_run. unfold print_quotient.
  destruct (true_divide_ok v 1000); cbn [ret fst snd]; [| reflexivity].
  rewrite write_control_keeps_settings. reflexivity.
Qed.

Lemma streaming_set_gain g st : streaming (set_gain g st) = streaming st.
Proof. destruct st. reflexivity. Qed.

Lemma video_exposure_set_gain g st :
  video_exposure (set_gain g st) = video_exposure st.
Proof. destruct st. reflexivity. Qed.

Lemma settings_gain_result data w :
  fst (settings_gain sdk data w) =
    match data !! "gain" with
    | None => Ok tt
    | Some g =>
        if negb (self_is_open (camera w)) ||
           (ctypes_int_ok g &&
            (negb (streaming (camera_state w)) ||
             ctypes_int_ok (video_exposure (camera_state w))))
        then Ok tt
        else Raise (ArgumentError 3)
    end.
Proof.
  rewrite settings_gain_unfold.
  destruct (data !! "gain") as [g |]; [| reflexivity].
  rewrite !bind_run. cbn [upd_state get_state fst snd camera_state].
  rewrite write_control_result. cbn [camera camera_state].
  rewrite streaming_set_gain, video_exposure_set_gain. reflexivity.
Qed.

Lemma settings_gain_restartable data g w :
  data !! "gain" = Some g ->
  self_is_open (camera w) = true ->
  streaming (camera_state (snd (settings_gain sdk data w))) = true ->
  ctypes_int_ok (video_exposure (camera_state w)) = true.
Proof.
  intros Hg Hopen. rewrite settings_gain_unfold, Hg.
  rewrite !bind_run. cbn [upd_state get_state fst snd camera_state].
  intros H.
  rewrite <- (video_exposure_set_gain g).
  apply (write_control_restartable ASI_GAIN g
           (mkWorld (set_gain g (camera_state w)) (camera w) (trace w)));
    assumption.
Qed.

Lemma settings_video_exposure_result data w :
  fst (settings_video_exposure sdk data w) =
    match data !! "video_exposure" with
    | None => Ok tt
    | Some v =>
        if true_divide_ok v 1000 then
          if negb (self_is_open (camera w)) || ctypes_int_ok v
          then Ok tt
          else Raise (ArgumentError 3)
        else Raise OverflowError
    end.
Proof.
  rewrite settings_video_exposure_unfold.
  destruct (data !! "video_exposure") as [v |]; [| reflexivity].
  rewrite !bind_run. cbn [upd_state get_state fst snd camera_state].
  rewrite bind_ok_run. unfold print_quotient.
  destruct (true_divide_ok v 1000); cbn [ret fst snd]; [| reflexivity].
  rewrite write_control_result. cbn [camera camera_state].
  replace (video_exposure (set_video_exposure v (camera_state w))) with v
    by (destruct (camera_state w); reflexivity).
  destruct (self_is_open (camera w)), (ctypes_int_ok v),
    (streaming (set_video_exposure v (camera_state w))); reflexivity.
Qed.

(** *** The whole handler *)

Lemma update_settings_run data w :
  let rg := settings_gain sdk data w in
  let rp := settings_photo_exposure data (snd rg) in
  let rv := settings_video_exposure sdk data (snd rp) in
  update_settings sdk data w =
    match fst rg with
    | Raise e => (Raise e, snd rg)
    | Ok _ =>
        match fst rp with
        | Raise e => (Raise e, snd rp)
        | Ok _ =>
            match fst rv with
            | Raise e => (Raise e, snd rv)
            | Ok _ =>
                (Ok (mkSettingsResponse true
                       (gain (camera_state (snd rv)))
                       (exposure (camera_state (snd rv)))
                       (video_exposure (camera_state (snd rv)))),
                 snd rv)
            end
        end
    end.
Proof.
  cbv zeta. unfold update_settings. rewrite bind_ok_run.
  destruct (fst (settings_gain sdk data w)); [| reflexivity].
  rewrite bind_ok_run.
  destruct (fst (settings_photo_exposure data _)); [| reflexivity].
  rewrite bind_ok_run.
  destruct (fst (settings_video_exposure sdk data _)); reflexivity.
Qed.

Lemma settings_photo_exposure_world data w :
  handle (snd (settings_photo_exposure data w)) = handle w /\
  streaming (camera_state (snd (settings_photo_exposure data w))) =
    streaming (camera_state w) /\
  settings (snd (settings_photo_exposure data w)) =
    (gain (camera_state w),
     default (exposure (camera_state w)) (data !! "photo_exposure"),
     video_exposure (camera_state w)).
Proof.
  rewrite settings_photo_exposure_run.
  destruct (data !! "photo_exposure"); destruct w as [[] [] ?];
    repeat split.
Qed.

(** A request that is answered has stored every value of its body and
    reports the stored settings. *)
Lemma update_settings_result data w resp :
  fst (update_settings sdk data w) = Ok resp ->
  settings (snd (update_settings sdk data w)) =
    merge_settings data (settings w) /\
  resp = settings_response (merge_settings data (settings w)).
Proof.
  rewrite update_settings_run. cbv zeta.
  pose proof (settings_gain_settings data w) as Hg.
  pose proof (settings_photo_exposure_world data
                (snd (settings_gain sdk data w))) as (_ & _ & Hp).
  pose proof (settings_video_exposure_settings data
                (snd (settings_photo_exposure data
                        (snd (settings_gain sdk data w))))) as Hv.
  destruct (fst (settings_gain sdk data w)); [| discriminate].
  destruct (fst (settings_photo_exposure data _)); [| discriminate].
  destruct (fst (settings_video_exposure sdk data _)); [| discriminate].
  cbn [fst snd]. intros H. injection H as <-.
  unfold settings in *. injection Hg as Hg1 Hg2 Hg3.
  rewrite Hg1, Hg2, Hg3 in Hp. injection Hp as Hp1 Hp2 Hp3.
  rewrite Hp1, Hp2, Hp3 in Hv. injection Hv as Hv1 Hv2 Hv3.
  unfold merge_settings, settings_response. cbn [fst snd].
  rewrite Hv1, Hv2, Hv3. split; reflexivity.
Qed.

Lemma if_ok_iff (b : bool) (e : Exn) :
  (if b then Ok tt else Raise e) = Ok tt <-> b = true.
Proof. destruct b; split; intros H; (reflexivity || discriminate). Qed.

Lemma write_cond_iff (o cg s cc : bool) :
  negb o || (cg && (negb s || cc)) = true <->
  (o = true -> cg = true /\ (s = true -> cc = true)).
Proof. destruct o, cg, s, cc; cbn; intuition discriminate. Qed.

Lemma settings_gain_ok data w :
  fst (settings_gain sdk data w) = Ok tt <->
  (forall g, data !! "gain" = Some g ->
     self_is_open (camera w) = true ->
     ctypes_int_ok g = true /\
     (streaming (camera_state w) = true ->
      ctypes_int_ok (video_exposure (camera_state w)) = true)).
Proof.
  rewrite settings_gain_result.
  destruct (data !! "gain") as [g |].
  - rewrite if_ok_iff, write_cond_iff. split.
    + intros H g' Hg'. injection Hg' as <-. exact H.
    + intros H. apply (H g eq_refl).
  - split; [intros _ g Hg; discriminate | reflexivity].
Qed.

Lemma settings_photo_exposure_ok data w :
  fst (settings_photo_exposure data w) = Ok tt <->
  (forall e, data !! "photo_exposure" = Some e ->
     true_divide_ok e 1000000 = true).
Proof.
  rewrite settings_photo_exposure_run.
  destruct (data !! "photo_exposure") as [e |]; cbn [fst].
  - rewrite if_ok_iff. split.
    + intros H e' He'. injection He' as <-. exact H.
    + intros H. apply (H e eq_refl).
  - split; [intros _ e He; discriminate | reflexivity].
Qed.

Lemma settings_video_exposure_ok data w :
  fst (settings_video_exposure sdk data w) = Ok tt <->
  (forall v, data !! "video_exposure" = Some v ->
     true_divide_ok v 1000 = true /\
     (self_is_open (camera w) = true -> ctypes_int_ok v = true)).
Proof.
  rewrite settings_video_exposure_result.
  destruct (data !! "video_exposure") as [v |].
  - assert (Hiff :
      (if true_divide_ok v 1000
       then if negb (self_is_open (camera w)) || ctypes_int_ok v
            then Ok tt else Raise (ArgumentError 3)
       else Raise OverflowError) = Ok tt <->
      (true_divide_ok v 1000 = true /\
       (self_is_open (camera w) = true -> ctypes_int_ok v = true))).
    { destruct (true_divide_ok v 1000), (self_is_open (camera w)),
        (ctypes_int_ok v); cbn; intuition discriminate. }
    rewrite Hiff. split.
    + intros H v' Hv'. injection Hv' as <-. exact H.
    + intros H. apply (H v eq_refl).
  - split; [intros _ v Hv; discriminate | reflexivity].
Qed.

(** A request is answered exactly when nothing in it raises. *)
Lemma update_settings_answered data w :
  (exists resp, fst (update_settings sdk data w) = Ok resp) <->
  answered data w.
Proof.
  assert (Hopen : self_is_open
                    (camera (snd (settings_photo_exposure data
                                    (snd (settings_gain sdk data w))))) =
                  self_is_open (camera w)).
  { pose proof (settings_gain_keeps_handle data w) as Hhg.
    pose proof (settings_photo_exposure_world data
                  (snd (settings_gain sdk data w))) as (Hhp & _ & _).
    unfold handle in Hhg, Hhp. congruence. }
  unfold answered.
  rewrite <- (settings_gain_ok data w).
  rewrite <- (settings_photo_exposure_ok data
                (snd (settings_gain sdk data w))).
  rewrite <- Hopen.
  rewrite <- (settings_video_exposure_ok data
                (snd (settings_photo_exposure data
                        (snd (settings_gain sdk data w))))).
  rewrite update_settings_run. cbv zeta.
  destruct (fst (settings_gain sdk data w)) as [[] | e1].
  2:{ cbn [fst]. split; [intros [r H]; discriminate
                        | intros (H & _); discriminate]. }
  destruct (fst (settings_photo_exposure data _)) as [[] | e2].
  2:{ cbn [fst]. split; [intros [r H]; discriminate
                        | intros (_ & H & _); discriminate]. }
  destruct (fst (settings_video_exposure sdk data _)) as [[] | e3].
  2:{ cbn [fst]. split; [intros [r H]; discriminate
                        | intros (_ & _ & H); discriminate]. }
  cbn [fst]. split; [auto | eauto].
Qed.

(** A request that was answered is answered again when it is repeated:
    what the first run stored and left running passes the same tests. *)
Lemma answered_again data w :
  answered data w ->
  (exists resp, fst (update_settings sdk data w) = Ok resp) ->
  answered data (snd (update_settings sdk data w)).
Proof.
  intros (Hg & Hp & Hv) [resp Hresp].
  pose proof (update_settings_keeps_handle sdk data w) as Hh.
  destruct (update_settings_result data w resp Hresp) as [Hset _].
  assert (Hopen : self_is_open (camera (snd (update_settings sdk data w))) =
                  self_is_open (camera w))
    by (unfold handle in Hh; congruence).
  unfold answered. rewrite Hopen.
  split; [| split; [exact Hp | exact Hv]].
  intros g Hgain Ho. destruct (Hg g Hgain Ho) as [Hcg Hcc].
  split; [exact Hcg |]. intros Hs.
  assert (Hcap : video_exposure (camera_state (snd (update_settings sdk data w)))
                 = default (video_exposure (camera_state w))
                           (data !! "video_exposure")).
  { unfold settings, merge_settings in Hset. cbn [fst snd] in Hset.
    congruence. }
  rewrite Hcap.
  destruct (data !! "video_exposure") as [v |] eqn:Hvid; cbn [default].
  - apply (Hv v eq_refl). exact Ho.
  - (* no video block: the stream that runs was restarted by the gain
       block *)
    apply (settings_gain_restartable data g w Hgain Ho).
    revert Hs Hresp. rewrite update_settings_run. cbv zeta.
    rewrite settings_video_exposure_unfold, Hvid.
    pose proof (settings_photo_exposure_world data
                  (snd (settings_gain sdk data w))) as (_ & Hstr & _).
    destruct (fst (settings_gain sdk data w)); [| discriminate].
    destruct (fst (settings_photo_exposure data _)); [| discriminate].
    cbn [ret fst snd]. intros Hs _. rewrite <- Hstr. exact Hs.
Qed.

Lemma merge_settings_idempotent (data : gmap string Z) (b : Z * Z * Z) :
  merge_settings data (merge_settings data b) = merge_settings data b.
Proof.
  destruct b as [[g e] v]. unfold merge_settings. cbn.
  destruct (data !! "gain"), (data !! "photo_exposure"),
    (data !! "video_exposure"); reflexivity.
Qed.


Lemma wait_idle_no_control_write fuel id status timeout :
  emits (fun e => is_control_write e = false)
        (wait_idle sdk fuel id status timeout).
Proof.
  revert status timeout.
  induction fuel as [| fuel IH]; intros status timeout; cbn; emits_auto.
Qed.

Lemma await_idle_no_control_write id :
  emits (fun e => is_control_write e = false) (await_idle sdk id).
Proof.
  pose proof wait_idle_no_control_write.
  unfold await_idle. emits_auto.
Qed.


(** X13. Whenever [/camera/settings] is answered, its response reports
    exactly the settings stored after the request: each of [gain],
    [photo_exposure], [video_exposure] present in the body has replaced
    the stored value, each absent one has kept it, and other keys are
    ignored.  It is answered exactly when nothing in it raises
    ([answered]). *)
Theorem update_settings_reports_stored (data : gmap string Z) (w : World) :
  let r := update_settings sdk data w in
  (forall resp,
     fst r = Ok resp ->
     resp_success resp = true /\
     resp_gain resp = gain (camera_state (snd r)) /\
     resp_exposure resp = exposure (camera_state (snd r)) /\
     resp_video_exposure resp = video_exposure (camera_state (snd r)) /\
     gain (camera_state (snd r)) =
       default (gain (camera_state w)) (data !! "gain") /\
     exposure (camera_state (snd r)) =
       default (exposure (camera_state w)) (data !! "photo_exposure") /\
     video_exposure (camera_state (snd r)) =
       default (video_exposure (camera_state w)) (data !! "video_exposure")) /\
  ((exists resp, fst r = Ok resp) <-> answered data w).
Proof.
  cbv zeta. split; [| apply update_settings_answered].
  intros resp Hr.
  destruct (update_settings_result data w resp Hr) as [Hs ->].
  unfold settings, merge_settings, settings_response in *. cbn in *.
  injection Hs as H1 H2 H3. rewrite H1, H2, H3. repeat split.
Qed.

(** X14. On a closed handle [/camera/settings] only stores values: it
    makes no SDK call, pauses nowhere, neither stops nor starts a
    stream and leaves the camera object as it was, whatever the body;
    when the quotients it prints do not overflow it is answered, having
    stored every value of the body. *)
Theorem update_settings_closed_handle (data : gmap string Z) (w : World) :
  self_is_open (camera w) = false ->
  let r := update_settings sdk data w in
  trace (snd r) = trace w /\
  camera (snd r) = camera w /\
  streaming (camera_state (snd r)) = streaming (camera_state w) /\
  ((forall e, data !! "photo_exposure" = Some e ->
      true_divide_ok e 1000000 = true) ->
   (forall v, data !! "video_exposure" = Some v ->
      true_divide_ok v 1000 = true) ->
   fst r = Ok (settings_response (merge_settings data (settings w))) /\
   settings (snd r) = merge_settings data (settings w)).
Proof.
  intros Hopen. cbv zeta.
  assert (Hrun : trace (snd (update_settings sdk data w)) = trace w /\
                 camera (snd (update_settings sdk data w)) = camera w /\
                 streaming (camera_state (snd (update_settings sdk data w)))
                 = streaming (camera_state w)).
  { unfold update_settings, settings_gain, settings_photo_exposure,
      settings_video_exposure.
    destruct w as [st [id op str fb th] tr]. cbn in Hopen. subst op.
    unfold_monad.
    destruct st.
    destruct (data !! "gain"), (data !! "photo_exposure"),
      (data !! "video_exposure"); split_tests; repeat split. }
  destruct Hrun as (H1 & H2 & H3).
  split; [exact H1 |]. split; [exact H2 |]. split; [exact H3 |].
  intros Hp Hv.
  assert (Ha : answered data w).
  { split; [| split; [exact Hp |]].
    - intros g _ Ho. congruence.
    - intros v Hvid. split; [apply (Hv v Hvid) | intros Ho; congruence]. }
  apply update_settings_answered in Ha. destruct Ha as [resp Hr].
  destruct (update_settings_result data w resp Hr) as [Hs ->].
  split; [exact Hr | exact Hs].
Qed.


(** X19. The stored gain, photo exposure and video exposure are changed
    by [/camera/settings] only: connecting, disconnecting, starting and
    stopping the stream, taking a snapshot and the passes of the
    video-pull loop all leave them as they were. *)
Theorem settings_survive (w : World) :
  settings (snd (connect_camera sdk w)) = settings w /\
  settings (snd (disconnect_camera sdk w)) = settings w /\
  settings (snd (route_start_stream sdk w)) = settings w /\
  settings (snd (route_stop_stream sdk w)) = settings w /\
  settings (snd (snapshot sdk w)) = settings w /\
  (forall width height buffer_size errors,
     settings (snd (capture_loop_body sdk width height buffer_size errors w))
     = settings w).
Proof.
  pose proof (connect_keeps_settings sdk).
  pose proof (disconnect_keeps_settings sdk).
  assert (H1 : keeps settings (connect_camera sdk))
    by (unfold connect_camera; keeps_auto).
  assert (H2 : keeps settings (disconnect_camera sdk))
    by (unfold disconnect_camera; keeps_auto).
  assert (H3 : keeps settings (route_start_stream sdk))
    by (unfold route_start_stream; keeps_auto).
  assert (H4 : keeps settings (route_stop_stream sdk))
    by (unfold route_stop_stream; keeps_auto).
  repeat split; auto.
  - apply snapshot_keeps_settings.
  - intros width height buffer_size errors.
    apply capture_loop_body_keeps_settings.
Qed.

End Settings.





Lemma update_settings_reports_stored_witness :
  fst (update_settings healthy_device {[ "video_exposure" := 50000 ]}
         connected_world) =
    Ok (mkSettingsResponse true 50 1000000 50000) /\
  video_exposure (camera_state
    (snd (update_settings healthy_device {[ "video_exposure" := 50000 ]}
            connected_world))) = 50000.
Proof.
  assert (Hr : fst (update_settings healthy_device
                      {[ "video_exposure" := 50000 ]} connected_world) =
               Ok (mkSettingsResponse true 50 1000000 50000))
    by (vm_compute; reflexivity).
  split; [exact Hr |].
  destruct (update_settings_reports_stored healthy_device
              {[ "video_exposure" := 50000 ]} connected_world) as [H _].
  destruct (H _ Hr) as (_ & _ & _ & H4 & _).
  rewrite <- H4. reflexivity.
Defined.

(** A request on a closed handle whose photo exposure is 10^400 stores
    it and raises at its print (l.572); the video exposure of the same
    body is never stored. *)
Example update_settings_partial_store :
  let r := update_settings healthy_device
             {[ "photo_exposure" := 10 ^ 400; "video_exposure" := 50000 ]}
             initial_world in
  fst r = Raise OverflowError /\
  settings (snd r) = (50, 10 ^ 400, 100000).
Proof. cbv zeta. split; vm_compute; reflexivity. Qed.

Lemma update_settings_closed_handle_witness :
  self_is_open (camera initial_world) = false /\
  trace (snd (update_settings healthy_device
                {[ "gain" := 75; "video_exposure" := 50000 ]}
                initial_world)) = [] /\
  settings (snd (update_settings healthy_device
                   {[ "gain" := 75; "video_exposure" := 50000 ]}
                   initial_world)) = (75, 1000000, 50000).
Proof.
  split; [reflexivity |].
  destruct (update_settings_closed_handle healthy_device
              {[ "gain" := 75; "video_exposure" := 50000 ]} initial_world
              eq_refl) as (H1 & _ & _ & H4).
  split; [exact H1 |].
  destruct H4 as [_ H5].
  - intros e He. vm_compute in He. discriminate.
  - intros v Hv. vm_compute in Hv. injection Hv as <-.
    vm_compute. reflexivity.
  - rewrite H5. vm_compute. reflexivity.
Defined.


(** ** The MJPEG generator *)

Section VideoStreamProperties.

Variable jpeg : Image -> Z -> list Byte.byte.

(** X20. The MJPEG generator yields nothing and ends at its first test
    when [camera_state['streaming']] is false.  Whatever happens, every
    chunk it yields is the multipart header, the JPEG (quality 75) of
    some image and CRLF, and it yields at most one chunk per pass. *)
Theorem generate_parts (others : list (M unit)) (w : World) :
  Forall (fun part => exists frame, part = frame_part jpeg frame)
         (snd (fst (generate jpeg others w))) /\
  (length (snd (fst (generate jpeg others w))) <= length others)%nat /\
  (streaming (camera_state w) = false ->
   forall rest, generate jpeg (ret tt :: rest) w = ((true, []), w)).
Proof.
  split; [| split].
  - revert w. induction others as [| other rest IH]; intros w;
      cbn [generate].
    + constructor.
    + rewrite !bind_run. cbn [get_state fst snd].
      destruct (streaming (camera_state (snd (other w)))).
      * rewrite !bind_run. cbn [get_self time_sleep emit ret fst snd].
        apply Forall_app. split; [| apply IH].
        destruct (self_frame_buffer (camera (snd (other w))));
          repeat constructor. eauto.
      * constructor.
  - revert w. induction others as [| other rest IH]; intros w;
      cbn [generate].
    + cbn. lia.
    + rewrite !bind_run. cbn [get_state fst snd].
      destruct (streaming (camera_state (snd (other w)))).
      * rewrite !bind_run. cbn [get_self time_sleep emit ret fst snd].
        rewrite length_app.
        match goal with
        | |- (_ + length (snd (fst (generate jpeg rest ?w1))) <= _)%nat =>
            specialize (IH w1)
        end.
        destruct (self_frame_buffer (camera (snd (other w)))); cbn; lia.
      * cbn. lia.
  - intros H rest. cbn [generate]. rewrite !bind_run.
    cbn [ret get_state fst snd]. rewrite H. reflexivity.
Qed.

(** X21. While the stream is marked running and no other thread
    interferes, the generator never ends by itself and never calls the
    SDK: after [n] passes it has slept [n] times 100 ms and has yielded
    [n] times the chunk of the frame in [camera.frame_buffer], or
    nothing at all while no frame has been stored. *)
Theorem generate_steady (n : nat) (w : World) :
  streaming (camera_state w) = true ->
  generate jpeg (repeat (ret tt) n) w =
    ((false,
      match self_frame_buffer (camera w) with
      | Some frame => repeat (frame_part jpeg frame) n
      | None => []
      end),
     mkWorld (camera_state w) (camera w) (trace w ++ repeat (Sleep 100) n)).
Proof.
  revert w. induction n as [| n IH]; intros w H;
    cbn [generate repeat].
  - cbn. rewrite app_nil_r. destruct w as [? [] ?]. cbn.
    destruct self_frame_buffer0; reflexivity.
  - rewrite !bind_run. cbn [ret get_state fst snd]. rewrite H.
    rewrite !bind_run. cbn [get_self time_sleep emit ret fst snd].
    rewrite IH by exact H. cbn [fst snd camera_state camera trace].
    rewrite <- app_assoc.
    destruct (self_frame_buffer (camera w)); reflexivity.
Qed.

End VideoStreamProperties.

Lemma generate_parts_witness :
  streaming (camera_state connected_world) = false /\
  generate (fun img _ => img_data img) [ret tt; ret tt] connected_world =
    ((true, []), connected_world).
Proof.
  split; [reflexivity |].
  destruct (generate_parts (fun img _ => img_data img) [] connected_world)
    as (_ & _ & H).
  apply H. reflexivity.
Defined.

Lemma generate_steady_witness :
  streaming (camera_state world_with_frame) = true /\
  snd (fst (generate (fun img _ => img_data img) (repeat (ret tt) 3)
              world_with_frame)) =
    repeat (frame_part (fun img _ => img_data img)
              (mkImage 2 1 [Byte.x01; Byte.x02; Byte.x03;
                            Byte.x04; Byte.x05; Byte.x06])) 3.
Proof.
  assert (H : streaming (camera_state world_with_frame) = true)
    by reflexivity.
  split; [exact H |].
  rewrite (generate_steady (fun img _ => img_data img) 3 world_with_frame H).
  reflexivity.
Defined.

(** ** Loading the vendor library *)

Section LoadLibraryProperties.

Variable Lib : Type.
Variable CDLL : string -> option Lib.

(** X22. The library loaded at start-up is the one of the first path,
    in list order, that loads; the paths before it were tried and
    failed, the paths after it are not tried.  [asi_lib] stays [None]
    exactly when no path loads, after all were tried. *)
Theorem load_library_first_wins (paths : list string) :
  let r := load_library Lib CDLL paths in
  (forall lib, fst r = Some lib ->
     exists pre lib_path post,
       paths = pre ++ lib_path :: post /\
       snd r = pre ++ [lib_path] /\
       CDLL lib_path = Some lib /\
       Forall (fun p => CDLL p = None) pre) /\
  (fst r = None <-> Forall (fun p => CDLL p = None) paths) /\
  (fst r = None -> snd r = paths).
Proof.
  induction paths as [| p rest IH]; cbn.
  - split; [intros lib H; discriminate |].
    split; [split; [constructor | reflexivity] | reflexivity].
  - destruct (CDLL p) as [lib0 |] eqn:Hp; cbn.
    + split; [| split].
      * intros lib H. injection H as <-. exists [], p, rest.
        repeat split; [exact Hp | constructor].
      * split; [discriminate |].
        intros H. inversion H; subst. congruence.
      * discriminate.
    + destruct IH as (IH1 & IH2 & IH3). split; [| split].
      * intros lib H. destruct (IH1 lib H) as (pre & q & post & E1 & E2 & E3 & E4).
        exists (p :: pre), q, post. cbn. rewrite <- E1, E2.
        repeat split; [exact E3 | constructor; assumption].
      * rewrite IH2. split; [intros H; constructor; assumption |].
        intros H. inversion H; assumption.
      * intros H. rewrite (IH3 H). reflexivity.
Qed.

End LoadLibraryProperties.

Lemma load_library_first_wins_witness :
  asi_lib nat (fun p => if String.eqb p (nth 1 lib_paths "") then Some 7%nat
                        else None) = Some 7%nat /\
  exists pre lib_path post,
    lib_paths = pre ++ lib_path :: post /\
    snd (load_library nat
           (fun p => if String.eqb p (nth 1 lib_paths "") then Some 7%nat
                     else None) lib_paths) = pre ++ [lib_path].
Proof.
  assert (H : asi_lib nat
                (fun p => if String.eqb p (nth 1 lib_paths "") then Some 7%nat
                          else None) = Some 7%nat) by reflexivity.
  split; [exact H |].
  destruct (load_library_first_wins nat
              (fun p => if String.eqb p (nth 1 lib_paths "") then Some 7%nat
                        else None) lib_paths) as (H1 & _ & _).
  destruct (H1 7%nat H) as (pre & q & post & E1 & E2 & _ & _).
  exists pre, q, post. split; [exact E1 | exact E2].
Defined.
